(** * Real-time connection manager of the group-chat backend

    A shallow embedding of [groups-backend/websocket_manager.py]
    (class [ConnectionManager]) and of the message loop of
    [groups-backend/websocket_routes.py] ([group_chat_websocket]),
    together with the properties of the registry, of the typing tracker,
    of the broadcast engine and of the inbound dispatch.

    Modelling choices.
    - A [WebSocket] is hashed and compared by identity, so a connection
      handle is a natural number.
    - The three dictionaries of the manager are finite maps, their values
      finite sets.  Python iterates a set in an unspecified order; here a
      set is iterated in the order of [elements], about which the proofs
      assume nothing but its members.
    - [asyncio.Lock] is not re-entrant: a coroutine that awaits the lock
      while its own call chain holds it waits for ever.  The lock is a
      boolean of the state and such a call ends in [Hang], in the state
      it is stuck in.
    - An operation runs from its call to its return without another task
      in between (one coroutine at a time); what tasks interleaved at
      [await] points could do is outside this development.  Between two
      calls the lock is therefore held only when an earlier call is
      stuck while holding it.
    - [broadcast_to_group] and [disconnect] call each other; they take a
      fuel argument, and four units are enough for every call (a nested
      [disconnect] finds the lock held).
    - The transport is the environment: [closed] holds the handles on
      which [send_text] raises, [wire] records every send in order with
      its frame and whether it went through.
    - A Python [str] is a [string]: a sequence of code points below 256. *)

From stdpp Require Import gmap strings list fin_maps.
From Stdlib Require Import Ascii.

Set Warnings "-register-all,-clear-no-such-hyp".
Open Scope string_scope.

(** ** JSON values and Python dictionaries *)

(** What [json.loads] yields and [json.dumps] takes.  Numbers are
    integers; an object is the list of the items of the dictionary. *)
Inductive json : Type :=
| JNull
| JBool (b : bool)
| JNum (n : Z)
| JStr (s : string)
| JArr (items : list json)
| JObj (fields : list (string * json)).

(** [d[k]] for the items of a dictionary. *)
Fixpoint dict_lookup (k : string) (fields : list (string * json)) : option json :=
  match fields with
  | [] => None
  | (k', v) :: rest => if String.eqb k k' then Some v else dict_lookup k rest
  end.

(** [d.get(k, dflt)]. *)
Definition dict_get (k : string) (dflt : json) (fields : list (string * json)) : json :=
  match dict_lookup k fields with
  | Some v => v
  | None => dflt
  end.

(** Truth value of a Python object: [None], [False], [0], the empty
    string, list and dictionary are false. *)
Definition truthy (v : json) : bool :=
  match v with
  | JNull => false
  | JBool b => b
  | JNum n => negb (Z.eqb n 0)
  | JStr s => negb (String.eqb s EmptyString)
  | JArr items => match items with [] => false | _ => true end
  | JObj fields => match fields with [] => false | _ => true end
  end.

(** ** [str.strip()] *)

(** The white space of [str.strip()] among the code points below 256. *)
Definition is_space (c : ascii) : bool :=
  let n := nat_of_ascii c in
  (((9 <=? n) && (n <=? 13)) || ((28 <=? n) && (n <=? 32))
   || (n =? 133) || (n =? 160))%nat.

Fixpoint lstrip (s : string) : string :=
  match s with
  | EmptyString => EmptyString
  | String c rest => if is_space c then lstrip rest else s
  end.

Fixpoint rev_onto (s acc : string) : string :=
  match s with
  | EmptyString => acc
  | String c rest => rev_onto rest (String c acc)
  end.

Definition rstrip (s : string) : string :=
  rev_onto (lstrip (rev_onto s EmptyString)) EmptyString.

Definition strip (s : string) : string := rstrip (lstrip s).

(** ** [datetime.utcnow().isoformat()] *)

Record datetime : Type := {
  year : nat; month : nat; day : nat;
  hour : nat; minute : nat; second : nat; microsecond : nat
}.

Definition digit (n : nat) : ascii := ascii_of_nat (48 + n mod 10)%nat.

(** [n] in decimal on [w] digits, padded with zeros. *)
Fixpoint zpad (w n : nat) : string :=
  match w with
  | 0 => EmptyString
  | S w' => zpad w' (n / 10)%nat ++ String (digit n) EmptyString
  end.

(** [YYYY-MM-DDTHH:MM:SS], followed by [.ffffff] when the microseconds
    are not zero. *)
Definition isoformat (t : datetime) : string :=
  zpad 4 (year t) ++ "-" ++ zpad 2 (month t) ++ "-" ++ zpad 2 (day t)
  ++ "T" ++ zpad 2 (hour t) ++ ":" ++ zpad 2 (minute t) ++ ":" ++ zpad 2 (second t)
  ++ (if (microsecond t =? 0)%nat then EmptyString else "." ++ zpad 6 (microsecond t)).

(** ** State of the manager and of its environment *)

(** A WebSocket handle. *)
Abbreviation conn := nat.

(** Calls made to the data store through [Database]. *)
Inductive db_call : Type :=
| DbSendMessage (group_id user_id content : string) (message_type reply_to_id : json)
| DbUpsertRead (message_id : json) (user_id : string)
| DbTouchLastRead (group_id user_id : string).

(** One call of [send_text] or [send_json]: the handle, the frame, and
    whether the transport took it. *)
Definition send_record : Type := conn * json * bool.

Record state : Type := {
  (** [group_id -> set of WebSocket connections] *)
  group_connections : gmap string (gset nat);
  (** [websocket -> (user_id, group_id)] *)
  connection_info : gmap nat (string * string);
  (** [group_id -> set of user_ids currently typing] *)
  typing_users : gmap string (gset string);
  (** [self._lock] is held *)
  lock : bool;
  (** handles whose transport raises on a send *)
  closed : gset nat;
  (** the sends so far, oldest first *)
  wire : list send_record;
  (** the reading of the UTC clock *)
  clock : datetime;
  (** the calls to the data store so far, oldest first *)
  db_log : list db_call
}.

Definition set_group_connections (v : gmap string (gset nat)) (s : state) : state :=
  {| group_connections := v; connection_info := connection_info s;
     typing_users := typing_users s; lock := lock s; closed := closed s;
     wire := wire s; clock := clock s; db_log := db_log s |}.

Definition set_connection_info (v : gmap nat (string * string)) (s : state) : state :=
  {| group_connections := group_connections s; connection_info := v;
     typing_users := typing_users s; lock := lock s; closed := closed s;
     wire := wire s; clock := clock s; db_log := db_log s |}.

Definition set_typing_users (v : gmap string (gset string)) (s : state) : state :=
  {| group_connections := group_connections s; connection_info := connection_info s;
     typing_users := v; lock := lock s; closed := closed s;
     wire := wire s; clock := clock s; db_log := db_log s |}.

Definition set_lock (v : bool) (s : state) : state :=
  {| group_connections := group_connections s; connection_info := connection_info s;
     typing_users := typing_users s; lock := v; closed := closed s;
     wire := wire s; clock := clock s; db_log := db_log s |}.

Definition set_closed (v : gset nat) (s : state) : state :=
  {| group_connections := group_connections s; connection_info := connection_info s;
     typing_users := typing_users s; lock := lock s; closed := v;
     wire := wire s; clock := clock s; db_log := db_log s |}.

Definition set_wire (v : list send_record) (s : state) : state :=
  {| group_connections := group_connections s; connection_info := connection_info s;
     typing_users := typing_users s; lock := lock s; closed := closed s;
     wire := v; clock := clock s; db_log := db_log s |}.

Definition set_clock (v : datetime) (s : state) : state :=
  {| group_connections := group_connections s; connection_info := connection_info s;
     typing_users := typing_users s; lock := lock s; closed := closed s;
     wire := wire s; clock := v; db_log := db_log s |}.

Definition set_db_log (v : list db_call) (s : state) : state :=
  {| group_connections := group_connections s; connection_info := connection_info s;
     typing_users := typing_users s; lock := lock s; closed := closed s;
     wire := wire s; clock := clock s; db_log := v |}.

(** [ConnectionManager.__init__], with a clock reading and nothing sent. *)
Definition init (t : datetime) : state :=
  {| group_connections := ∅; connection_info := ∅; typing_users := ∅;
     lock := false; closed := ∅; wire := []; clock := t; db_log := [] |}.

(** How a call ends: it returns, or it waits for ever on the lock (the
    state is the one it is stuck in), or the model ran out of fuel. *)
Inductive outcome : Type :=
| Done (s : state)
| Hang (s : state)
| OutOfFuel.

Definition outcome_state (o : outcome) : option state :=
  match o with
  | Done s | Hang s => Some s
  | OutOfFuel => None
  end.

(** [await first; await next]. *)
Definition and_then (o : outcome) (next : state -> outcome) : outcome :=
  match o with
  | Done s => next s
  | Hang s => Hang s
  | OutOfFuel => OutOfFuel
  end.

(** [async with self._lock: body]. *)
Definition with_lock (body : state -> outcome) (s : state) : outcome :=
  if lock s then Hang s
  else and_then (body (set_lock true s)) (fun s' => Done (set_lock false s')).

(** ** Sending *)

(** [await connection.send_text(frame)]: [true] when it went through,
    [false] when it raised. *)
Definition send_text (c : conn) (frame : json) (s : state) : state * bool :=
  if decide (c ∈ closed s)
  then (set_wire (wire s ++ [(c, frame, false)]) s, false)
  else (set_wire (wire s ++ [(c, frame, true)]) s, true).

(** [datetime.utcnow().isoformat()] *)
Definition utcnow_iso (s : state) : string := isoformat (clock s).

(** The loop of [broadcast_to_group] over the connections of the group:
    the state after the sends and the connections whose send raised. *)
Fixpoint broadcast_loop (conns : list nat) (exclude : option nat) (frame : json)
    (s : state) (dead_connections : list nat) : state * list nat :=
  match conns with
  | [] => (s, dead_connections)
  | connection :: rest =>
      if decide (Some connection = exclude)
      then broadcast_loop rest exclude frame s dead_connections
      else
        match send_text connection frame s with
        | (s', true) => broadcast_loop rest exclude frame s' dead_connections
        | (s', false) =>
            broadcast_loop rest exclude frame s' (dead_connections ++ [connection])
        end
  end.

(** [for conn in dead_connections: await self.disconnect(conn)] *)
Fixpoint cleanup (disconnect : nat -> state -> outcome) (dead_connections : list nat)
    (s : state) : outcome :=
  match dead_connections with
  | [] => Done s
  | c :: rest => and_then (disconnect c s) (cleanup disconnect rest)
  end.

Definition user_online_event (user_id timestamp : string) : json :=
  JObj [("type", JStr "user_online"); ("user_id", JStr user_id);
        ("timestamp", JStr timestamp)].

Definition user_offline_event (user_id timestamp : string) : json :=
  JObj [("type", JStr "user_offline"); ("user_id", JStr user_id);
        ("timestamp", JStr timestamp)].

(** The part of [disconnect] between the [pop] and the broadcast, for a
    connection whose record was [(user_id, group_id)]. *)
Definition forget (websocket : nat) (user_id group_id : string) (s : state) : state :=
  let s1 := set_connection_info (delete websocket (connection_info s)) s in
  let s2 :=
    match group_connections s1 !! group_id with
    | Some conns =>
        let conns' := conns ∖ {[websocket]} in
        if decide (conns' = ∅)
        then set_group_connections (delete group_id (group_connections s1)) s1
        else set_group_connections (<[group_id := conns']> (group_connections s1)) s1
    | None => s1
    end in
  match typing_users s2 !! group_id with
  | Some users =>
      set_typing_users (<[group_id := users ∖ {[user_id]}]> (typing_users s2)) s2
  | None => s2
  end.

(** [broadcast_to_group] and [disconnect], which call each other. *)
Fixpoint broadcast_to_group (fuel : nat) (group_id : string) (message : json)
    (exclude : option nat) (s : state) {struct fuel} : outcome :=
  match fuel with
  | 0 => OutOfFuel
  | S fuel' =>
      match group_connections s !! group_id with
      | None => Done s
      | Some conns =>
          let '(s', dead_connections) :=
            broadcast_loop (elements conns) exclude message s [] in
          cleanup (disconnect fuel') dead_connections s'
      end
  end
with disconnect (fuel : nat) (websocket : nat) (s : state) {struct fuel} : outcome :=
  match fuel with
  | 0 => OutOfFuel
  | S fuel' =>
      with_lock (fun s =>
        match connection_info s !! websocket with
        | None => Done s
        | Some (user_id, group_id) =>
            let s' := forget websocket user_id group_id s in
            broadcast_to_group fuel' group_id
              (user_offline_event user_id (utcnow_iso s')) None s'
        end) s
  end.

(** ** The other operations of [ConnectionManager] *)

(** The body of [connect] under the lock. *)
Definition register (websocket : nat) (group_id user_id : string) (s : state) : state :=
  let conns := default ∅ (group_connections s !! group_id) in
  set_connection_info (<[websocket := (user_id, group_id)]> (connection_info s))
    (set_group_connections
       (<[group_id := conns ∪ {[websocket]}]> (group_connections s)) s).

Definition connect (fuel : nat) (websocket : nat) (group_id user_id : string)
    (s : state) : outcome :=
  and_then (with_lock (fun s => Done (register websocket group_id user_id s)) s)
    (fun s =>
       broadcast_to_group fuel group_id
         (user_online_event user_id (utcnow_iso s)) (Some websocket) s).

(** The loop of [send_to_user]: a send that raises is logged and nothing
    more. *)
Fixpoint send_to_user_loop (conns : list nat) (user_id : string) (frame : json)
    (s : state) : state :=
  match conns with
  | [] => s
  | connection :: rest =>
      match connection_info s !! connection with
      | Some (owner, _) =>
          if String.eqb owner user_id
          then send_to_user_loop rest user_id frame (send_text connection frame s).1
          else send_to_user_loop rest user_id frame s
      | None => send_to_user_loop rest user_id frame s
      end
  end.

Definition send_to_user (group_id user_id : string) (message : json) (s : state)
    : outcome :=
  match group_connections s !! group_id with
  | None => Done s
  | Some conns => Done (send_to_user_loop (elements conns) user_id message s)
  end.

Definition new_message_event (message_data : json) (timestamp : string) : json :=
  JObj [("type", JStr "new_message"); ("message", message_data);
        ("timestamp", JStr timestamp)].

Definition message_edited_event (message_id content timestamp : string) : json :=
  JObj [("type", JStr "message_edited"); ("message_id", JStr message_id);
        ("content", JStr content); ("edited_at", JStr timestamp)].

Definition message_deleted_event (message_id timestamp : string) : json :=
  JObj [("type", JStr "message_deleted"); ("message_id", JStr message_id);
        ("timestamp", JStr timestamp)].

Definition typing_start_event (user_id user_name timestamp : string) : json :=
  JObj [("type", JStr "typing_start"); ("user_id", JStr user_id);
        ("user_name", JStr user_name); ("timestamp", JStr timestamp)].

Definition typing_stop_event (user_id timestamp : string) : json :=
  JObj [("type", JStr "typing_stop"); ("user_id", JStr user_id);
        ("timestamp", JStr timestamp)].

Definition member_joined_event (user_data : json) (timestamp : string) : json :=
  JObj [("type", JStr "member_joined"); ("user", user_data);
        ("timestamp", JStr timestamp)].

Definition member_left_event (user_id timestamp : string) : json :=
  JObj [("type", JStr "member_left"); ("user_id", JStr user_id);
        ("timestamp", JStr timestamp)].

Definition reaction_update_event (message_id emoji user_id action timestamp : string)
    : json :=
  JObj [("type", JStr "reaction_update"); ("message_id", JStr message_id);
        ("emoji", JStr emoji); ("user_id", JStr user_id); ("action", JStr action);
        ("timestamp", JStr timestamp)].

Definition pin_event (message_id : string) (is_pinned : bool)
    (user_id timestamp : string) : json :=
  JObj [("type", JStr (if is_pinned then "message_pinned" else "message_unpinned"));
        ("message_id", JStr message_id); ("pinned_by", JStr user_id);
        ("timestamp", JStr timestamp)].

Definition poll_event (poll_data : json) (action timestamp : string) : json :=
  JObj [("type", JStr ("poll_" ++ action)); ("poll", poll_data);
        ("timestamp", JStr timestamp)].

Definition poll_vote_event (poll_id user_id timestamp : string) : json :=
  JObj [("type", JStr "poll_vote"); ("poll_id", JStr poll_id);
        ("user_id", JStr user_id); ("timestamp", JStr timestamp)].

Definition message_read_event (message_id user_id timestamp : string) : json :=
  JObj [("type", JStr "message_read"); ("message_id", JStr message_id);
        ("user_id", JStr user_id); ("timestamp", JStr timestamp)].

Definition mention_event (message_id timestamp : string) : json :=
  JObj [("type", JStr "mention"); ("message_id", JStr message_id);
        ("timestamp", JStr timestamp)].

Definition broadcast_message (fuel : nat) (group_id : string) (message_data : json)
    (s : state) : outcome :=
  broadcast_to_group fuel group_id (new_message_event message_data (utcnow_iso s)) None s.

Definition broadcast_message_edit (fuel : nat) (group_id message_id content : string)
    (s : state) : outcome :=
  broadcast_to_group fuel group_id
    (message_edited_event message_id content (utcnow_iso s)) None s.

Definition broadcast_message_delete (fuel : nat) (group_id message_id : string)
    (s : state) : outcome :=
  broadcast_to_group fuel group_id (message_deleted_event message_id (utcnow_iso s)) None s.

(** The body of [set_typing] under the lock. *)
Definition flag_typing (group_id user_id : string) (s : state) : state :=
  let users := default ∅ (typing_users s !! group_id) in
  set_typing_users (<[group_id := users ∪ {[user_id]}]> (typing_users s)) s.

Definition set_typing (fuel : nat) (group_id user_id user_name : string) (s : state)
    : outcome :=
  and_then (with_lock (fun s => Done (flag_typing group_id user_id s)) s)
    (fun s =>
       broadcast_to_group fuel group_id
         (typing_start_event user_id user_name (utcnow_iso s)) None s).

(** The body of [clear_typing] under the lock. *)
Definition unflag_typing (group_id user_id : string) (s : state) : state :=
  match typing_users s !! group_id with
  | Some users =>
      set_typing_users (<[group_id := users ∖ {[user_id]}]> (typing_users s)) s
  | None => s
  end.

Definition clear_typing (fuel : nat) (group_id user_id : string) (s : state) : outcome :=
  and_then (with_lock (fun s => Done (unflag_typing group_id user_id s)) s)
    (fun s =>
       broadcast_to_group fuel group_id (typing_stop_event user_id (utcnow_iso s)) None s).

Definition broadcast_member_joined (fuel : nat) (group_id : string) (user_data : json)
    (s : state) : outcome :=
  broadcast_to_group fuel group_id (member_joined_event user_data (utcnow_iso s)) None s.

Definition broadcast_member_left (fuel : nat) (group_id user_id : string) (s : state)
    : outcome :=
  broadcast_to_group fuel group_id (member_left_event user_id (utcnow_iso s)) None s.

Definition broadcast_reaction (fuel : nat) (group_id message_id emoji user_id action : string)
    (s : state) : outcome :=
  broadcast_to_group fuel group_id
    (reaction_update_event message_id emoji user_id action (utcnow_iso s)) None s.

Definition broadcast_pin (fuel : nat) (group_id message_id : string) (is_pinned : bool)
    (user_id : string) (s : state) : outcome :=
  broadcast_to_group fuel group_id
    (pin_event message_id is_pinned user_id (utcnow_iso s)) None s.

Definition broadcast_poll (fuel : nat) (group_id : string) (poll_data : json)
    (action : string) (s : state) : outcome :=
  broadcast_to_group fuel group_id (poll_event poll_data action (utcnow_iso s)) None s.

Definition broadcast_poll_vote (fuel : nat) (group_id poll_id user_id : string)
    (s : state) : outcome :=
  broadcast_to_group fuel group_id (poll_vote_event poll_id user_id (utcnow_iso s)) None s.

Definition broadcast_read (fuel : nat) (group_id message_id user_id : string)
    (s : state) : outcome :=
  broadcast_to_group fuel group_id
    (message_read_event message_id user_id (utcnow_iso s)) None s.

Definition broadcast_mention (group_id message_id mentioned_user_id : string)
    (s : state) : outcome :=
  send_to_user group_id mentioned_user_id (mention_event message_id (utcnow_iso s)) s.

(** The owner of every connection of the group that has a record, in the
    order of the iteration. *)
Definition get_online_users (group_id : string) (s : state) : list string :=
  match group_connections s !! group_id with
  | None => []
  | Some conns =>
      omap (fun c => fst <$> connection_info s !! c) (elements conns)
  end.

Definition get_typing_users (group_id : string) (s : state) : list string :=
  elements (default ∅ (typing_users s !! group_id)).

(** ** The message loop of [group_chat_websocket] *)

(** How a call to the data store ends. *)
Inductive db_reply : Type :=
| Returned (v : json)
| Raised.

(** The data store as the endpoint sees it: what [Database.send_message]
    answers, and whether the upsert of the [read] branch goes through
    ([false]: it raises, and the update after it is not reached). *)
Record database : Type := {
  send_message :
    string -> string -> string -> json -> json -> db_reply;
  upsert_read_ok : json -> string -> bool
}.

(** [v == "k"] for a value read from the frame. *)
Definition is_str (v : json) (k : string) : bool :=
  match v with
  | JStr s => String.eqb s k
  | _ => false
  end.

Definition pong : json := JObj [("type", JStr "pong")].

(** The branch [msg_type == "message"]. *)
Definition on_message (fuel : nat) (db : database) (group_id user_id : string)
    (message : list (string * json)) (s : state) : outcome :=
  match dict_get "data" (JObj message) message with
  | JObj msg_data =>
      let c := dict_get "content" JNull msg_data in
      match (if truthy c then c else JStr EmptyString) with
      | JStr text =>
          let content := strip text in
          if negb (String.eqb content EmptyString) then
            let message_type := dict_get "message_type" (JStr "text") msg_data in
            let reply_to_id := dict_get "reply_to_id" JNull msg_data in
            let s1 :=
              set_db_log
                (db_log s ++
                 [DbSendMessage group_id user_id content message_type reply_to_id]) s in
            match send_message db group_id user_id content message_type reply_to_id with
            | Returned new_msg =>
                if truthy new_msg then
                  and_then (broadcast_message fuel group_id new_msg s1)
                    (clear_typing fuel group_id user_id)
                else Done s1
            | Raised => Done s1
            end
          else Done s
      | _ => Done s
      end
  | _ => Done s
  end.

(** The branch [msg_type == "read"]. *)
Definition on_read (db : database) (group_id user_id : string)
    (message : list (string * json)) (s : state) : outcome :=
  let message_id := dict_get "message_id" JNull message in
  if truthy message_id then
    let s1 := set_db_log (db_log s ++ [DbUpsertRead message_id user_id]) s in
    if upsert_read_ok db message_id user_id then
      Done (set_db_log (db_log s1 ++ [DbTouchLastRead group_id user_id]) s1)
    else Done s1
  else Done s.

(** One turn of the [while True] loop, after [receive_text] has returned:
    [data] is what [json.loads] made of the text, [None] when it raised
    [JSONDecodeError].  Every exception of the turn is caught and logged,
    so the turn ends in [Done] unless a call waits on the lock. *)
Definition group_chat_websocket_turn (fuel : nat) (db : database) (websocket : nat)
    (group_id user_id user_name : string) (data : option json) (s : state) : outcome :=
  match data with
  | None => Done s
  | Some (JObj message) =>
      let msg_type := dict_get "type" JNull message in
      if is_str msg_type "message" then on_message fuel db group_id user_id message s
      else if is_str msg_type "typing" then set_typing fuel group_id user_id user_name s
      else if is_str msg_type "stop_typing" then clear_typing fuel group_id user_id s
      else if is_str msg_type "read" then on_read db group_id user_id message s
      else if is_str msg_type "ping" then Done (send_text websocket pong s).1
      else Done s
  | Some _ => Done s
  end.

(** ** The system: calls and reachable states *)

(** What can happen to the manager: the calls of the WebSocket endpoint
    (activation of a session, one inbound frame, teardown), the calls of
    the HTTP routes, and the environment (a transport breaks, the clock
    moves). *)
Inductive op : Type :=
| OpConnect (websocket : nat) (group_id user_id : string)
| OpFrame (db : database) (websocket : nat) (group_id user_id user_name : string)
    (data : option json)
| OpDisconnect (websocket : nat)
| OpBroadcastMessage (group_id : string) (message_data : json)
| OpMessageEdit (group_id message_id content : string)
| OpMessageDelete (group_id message_id : string)
| OpSetTyping (group_id user_id user_name : string)
| OpClearTyping (group_id user_id : string)
| OpMemberJoined (group_id : string) (user_data : json)
| OpMemberLeft (group_id user_id : string)
| OpReaction (group_id message_id emoji user_id action : string)
| OpPin (group_id message_id : string) (is_pinned : bool) (user_id : string)
| OpPoll (group_id : string) (poll_data : json) (action : string)
| OpPollVote (group_id poll_id user_id : string)
| OpRead (group_id message_id user_id : string)
| OpMention (group_id message_id mentioned_user_id : string)
| OpTransportClosed (websocket : nat)
| OpTick (t : datetime).

Definition run_op (fuel : nat) (o : op) (s : state) : outcome :=
  match o with
  | OpConnect ws g u => connect fuel ws g u s
  | OpFrame db ws g u name data => group_chat_websocket_turn fuel db ws g u name data s
  | OpDisconnect ws => disconnect fuel ws s
  | OpBroadcastMessage g m => broadcast_message fuel g m s
  | OpMessageEdit g mid c => broadcast_message_edit fuel g mid c s
  | OpMessageDelete g mid => broadcast_message_delete fuel g mid s
  | OpSetTyping g u name => set_typing fuel g u name s
  | OpClearTyping g u => clear_typing fuel g u s
  | OpMemberJoined g d => broadcast_member_joined fuel g d s
  | OpMemberLeft g u => broadcast_member_left fuel g u s
  | OpReaction g mid e u a => broadcast_reaction fuel g mid e u a s
  | OpPin g mid b u => broadcast_pin fuel g mid b u s
  | OpPoll g d a => broadcast_poll fuel g d a s
  | OpPollVote g pid u => broadcast_poll_vote fuel g pid u s
  | OpRead g mid u => broadcast_read fuel g mid u s
  | OpMention g mid u => broadcast_mention g mid u s
  | OpTransportClosed ws => Done (set_closed (closed s ∪ {[ws]}) s)
  | OpTick t => Done (set_clock t s)
  end.

(** The endpoint registers the WebSocket it has just accepted, once: at
    that time the manager holds no record for the handle. *)
Definition allowed (o : op) (s : state) : Prop :=
  match o with
  | OpConnect ws _ _ => connection_info s !! ws = None
  | _ => True
  end.

(** The states the system passes through, a call that waits on the lock
    included.  Four units of fuel are enough for every call
    ([broadcast_to_group_fuel] below). *)
Inductive reachable : state -> Prop :=
| reachable_init (t : datetime) : reachable (init t)
| reachable_step (s s' : state) (o : op) (n : nat) :
    reachable s -> allowed o s ->
    outcome_state (run_op (4 + n) o s) = Some s' ->
    reachable s'.

(** * Notions used to state the properties *)

Open Scope list_scope.

(** The connections a broadcast sends to, in the order of the loop. *)
Definition targets (exclude : option nat) (conns : list nat) : list nat :=
  filter (fun c => Some c <> exclude) conns.

(** The sends of the loop of a broadcast. *)
Definition attempts (frame : json) (shut : gset nat) (cs : list nat) : list send_record :=
  (fun c => (c, frame, bool_decide (c ∉ shut))) <$> cs.

(** The frames built by the methods of [ConnectionManager]; the time
    stamp of each is the ISO 8601 text of a reading of the clock. *)
Inductive outbound : json -> Prop :=
| out_user_online u t : outbound (user_online_event u (isoformat t))
| out_user_offline u t : outbound (user_offline_event u (isoformat t))
| out_new_message d t : outbound (new_message_event d (isoformat t))
| out_message_edited mid c t : outbound (message_edited_event mid c (isoformat t))
| out_message_deleted mid t : outbound (message_deleted_event mid (isoformat t))
| out_typing_start u name t : outbound (typing_start_event u name (isoformat t))
| out_typing_stop u t : outbound (typing_stop_event u (isoformat t))
| out_member_joined d t : outbound (member_joined_event d (isoformat t))
| out_member_left u t : outbound (member_left_event u (isoformat t))
| out_reaction mid e u a t : outbound (reaction_update_event mid e u a (isoformat t))
| out_pin mid b u t : outbound (pin_event mid b u (isoformat t))
| out_poll d a t : outbound (poll_event d a (isoformat t))
| out_poll_vote pid u t : outbound (poll_vote_event pid u (isoformat t))
| out_message_read mid u t : outbound (message_read_event mid u (isoformat t))
| out_mention mid t : outbound (mention_event mid (isoformat t)).

(** What has been put on a transport: a frame of the manager, or the
    reply to a ping. *)
Definition emitted (f : json) : Prop := outbound f \/ f = pong.

(** The connections of a room; empty when the room has no entry. *)
Definition members (group_id : string) (s : state) : gset nat :=
  default ∅ (group_connections s !! group_id).

(** The two registry dictionaries agree, and no room is kept empty. *)
Record wf (s : state) : Prop := {
  wf_nonempty : forall g cs, group_connections s !! g = Some cs -> cs <> ∅;
  wf_info : forall g cs c,
    group_connections s !! g = Some cs -> c ∈ cs ->
    exists u, connection_info s !! c = Some (u, g);
  wf_member : forall c u g,
    connection_info s !! c = Some (u, g) ->
    exists cs, group_connections s !! g = Some cs /\ c ∈ cs
}.

(** The users flagged as typing in a room; empty when the room has no
    entry. *)
Definition typing (group_id : string) (s : state) : gset string :=
  default ∅ (typing_users s !! group_id).

(** The engine only removes from the registry and from the typing sets,
    only adds to the wire, and leaves the rest alone. *)
Record shrinks (s s' : state) : Prop := {
  shr_info : connection_info s' ⊆ connection_info s;
  shr_members : forall g, members g s' ⊆ members g s;
  shr_typing : forall g, typing g s' ⊆ typing g s;
  shr_wire : exists l, wire s' = wire s ++ l;
  shr_closed : closed s' = closed s;
  shr_clock : clock s' = clock s;
  shr_db_log : db_log s' = db_log s
}.

(** A [user_offline] frame. *)
Definition is_user_offline (f : json) : Prop :=
  exists u t, f = user_offline_event u (isoformat t).

(** The call that ended as [o], started in [s] as a broadcast of [e] to
    the room [r] with [exclude] left out, has put on the wire one send of
    [e] for each connection of the room other than [exclude], taken by the
    transport exactly when the transport is not broken, and after these
    sends [user_offline] frames only. *)
Definition fanned_out (exclude : option nat) (r : string) (e : json) (s : state)
    (o : outcome) : Prop :=
  exists s' sent evictions,
    outcome_state o = Some s' /\
    wire s' = wire s ++ sent ++ evictions /\
    NoDup sent /\
    (forall rec, rec ∈ sent <->
       exists c', rec = (c', e, bool_decide (c' ∉ closed s)) /\
                  c' ∈ members r s /\ Some c' <> exclude) /\
    Forall (fun rec : send_record => is_user_offline rec.1.2) evictions.

(** The sends of frames of the kind [kind] about the user [u]. *)
Definition sends_about (kind u : string) (s : state) : list send_record :=
  List.filter
    (fun r : send_record =>
       match r.1.2 with
       | JObj fields =>
           is_str (dict_get "type" JNull fields) kind
           && is_str (dict_get "user_id" JNull fields) u
       | _ => false
       end)
    (wire s).

(** The frame is a [message] frame whose content, read as the endpoint
    reads it, is the text [text]. *)
Definition message_frame (message : list (string * json)) (text : string) : Prop :=
  is_str (dict_get "type" JNull message) "message" = true /\
  exists msg_data,
    dict_get "data" (JObj message) message = JObj msg_data /\
    (if truthy (dict_get "content" JNull msg_data)
     then dict_get "content" JNull msg_data else JStr EmptyString) = JStr text.

(** The arguments of the call to [Database.send_message] for a frame. *)
Definition store_call (g u : string) (message : list (string * json)) : db_call :=
  match dict_get "data" (JObj message) message with
  | JObj msg_data =>
      DbSendMessage g u
        (strip match dict_get "content" JNull msg_data with
               | JStr t => t
               | _ => EmptyString
               end)
        (dict_get "message_type" (JStr "text") msg_data)
        (dict_get "reply_to_id" JNull msg_data)
  | _ => DbSendMessage g u EmptyString JNull JNull
  end.

(** What [Database.send_message] answers to the call. *)
Definition store_reply (db : database) (c : db_call) : db_reply :=
  match c with
  | DbSendMessage g u content message_type reply_to_id =>
      send_message db g u content message_type reply_to_id
  | _ => Raised
  end.

(** The field [k] of a frame. *)
Definition frame_field (k : string) (f : json) : option json :=
  match f with
  | JObj fields => dict_lookup k fields
  | _ => None
  end.

(** [allowed], decided. *)
Definition allowedb (o : op) (s : state) : bool :=
  match o with
  | OpConnect ws _ _ => bool_decide (connection_info s !! ws = None)
  | _ => true
  end.

(** The state after a sequence of calls, each one allowed and run to its
    end. *)
Fixpoint run_trace (ops : list op) (s : state) : option state :=
  match ops with
  | [] => Some s
  | o :: rest =>
      if allowedb o s then
        match outcome_state (run_op 4 o s) with
        | Some s' => run_trace rest s'
        | None => None
        end
      else None
  end.

(** The state a call ends in. *)
Definition final (o : outcome) : state :=
  match o with
  | Done s | Hang s => s
  | OutOfFuel => init {| year := 0; month := 0; day := 0;
                         hour := 0; minute := 0; second := 0; microsecond := 0 |}
  end.

(** ** Scenarios *)

(** A data store that stores every message. *)
Definition accepting_db : database :=
  {| send_message := fun g u content message_type reply_to_id =>
       Returned (JObj [("id", JStr "m1"); ("group_id", JStr g); ("sender_id", JStr u);
                       ("content", JStr content); ("message_type", message_type)]);
     upsert_read_ok := fun _ _ => true |}.

Definition t0 : datetime :=
  {| year := 2024; month := 5; day := 7;
     hour := 9; minute := 3; second := 0; microsecond := 1500 |}.

(** The state after the calls [ops], from a fresh manager. *)
Definition after (ops : list op) : state :=
  default (init t0) (run_trace ops (init t0)).

(** Alice, Bob and Carol are connected to room R1. *)
Definition three_in_room : state :=
  after [OpConnect 1 "R1" "alice"; OpConnect 2 "R1" "bob"; OpConnect 3 "R1" "carol"].

(** The same room after the transports of Bob and Carol broke, the server
    not having noticed yet. *)
Definition two_dropped : state :=
  after [OpConnect 1 "R1" "alice"; OpConnect 2 "R1" "bob"; OpConnect 3 "R1" "carol";
         OpTransportClosed 2; OpTransportClosed 3].

(** The same, Alice being flagged as typing. *)
Definition two_dropped_alice_typing : state :=
  after [OpConnect 1 "R1" "alice"; OpConnect 2 "R1" "bob"; OpConnect 3 "R1" "carol";
         OpSetTyping "R1" "alice" "Alice";
         OpTransportClosed 2; OpTransportClosed 3].

(** Alice has two sessions in room R1. *)
Definition alice_twice : state :=
  after [OpConnect 1 "R1" "alice"; OpConnect 2 "R1" "alice"].

(** Alice connected to room R1, sent a [typing] frame and left. *)
Definition typed_and_left : state :=
  after [OpConnect 1 "R1" "alice";
         OpFrame accepting_db 1 "R1" "alice" "Alice" (Some (JObj [("type", JStr "typing")]));
         OpDisconnect 1].

(** Bob is alone in room R1. *)
Definition bob_alone : state := after [OpConnect 1 "R1" "bob"].

(** Alice is connected to room R1 and flagged as typing there. *)
Definition alice_typing : state :=
  after [OpConnect 1 "R1" "alice";
         OpFrame accepting_db 1 "R1" "alice" "Alice" (Some (JObj [("type", JStr "typing")]))].

(** The rooms that have an entry in the typing dictionary. *)
Definition typing_rooms (s : state) : gset string := dom (typing_users s).

(** The room in which a call flags a user as typing, when it is such a
    call: [set_typing] called by a route, or the turn of a session for a
    [typing] frame. *)
Definition flags_typing_in (o : op) : option string :=
  match o with
  | OpSetTyping g _ _ => Some g
  | OpFrame _ _ g _ _ (Some (JObj message)) =>
      if is_str (dict_get "type" JNull message) "typing" then Some g else None
  | _ => None
  end.

(** ** Notions for the further properties *)

(** At most one connection of the room has a broken transport. *)
Definition at_most_one_broken (g : string) (s : state) : Prop :=
  forall c1 c2, c1 ∈ members g s -> c2 ∈ members g s ->
                c1 ∈ closed s -> c2 ∈ closed s -> c1 = c2.

(** The connections of the room that belong to the user. *)
Definition connections_of (g u : string) (s : state) : list nat :=
  filter (fun c => fst <$> connection_info s !! c = Some u)
    (elements (members g s)).

(** * The token, the session and the data store

    [groups-backend/auth.py], the opening and the end of a session in
    [groups-backend/websocket_routes.py], and [fetch_user_profiles] and
    [Database.send_message] of [groups-backend/database.py].  What the
    libraries and the tables answer is the environment: a record of
    functions, an answer being data or an exception. *)

(** ** [auth.py]: [decode_token] and [get_current_user] *)

(** How [jwt.decode] ends: the claims of a token it accepts, a
    [JWTError], or another exception. *)
Inductive jwt_reply : Type :=
| JwtClaims (payload : list (string * json))
| JwtRejected
| JwtFailed.

(** How [supabase.auth.get_user] ends: a user, an answer without user,
    or an exception (of the call or of [create_client]). *)
Inductive supabase_reply : Type :=
| SbUser (user_id email : json)
| SbNoUser
| SbRaised.

(** What [auth.py] reads from [settings] and from the two libraries. *)
Record auth_env : Type := {
  jwt_secret : string;
  jwt_decode : string -> jwt_reply;
  supabase_get_user : string -> supabase_reply
}.

(** How a function of [auth.py] ends: a value, an [HTTPException] of
    status 401 with its detail, or another exception. *)
Inductive auth_result (A : Type) : Type :=
| Authd (a : A)
| Http401 (detail : string)
| Crashed.
Arguments Authd {A} a.
Arguments Http401 {A} detail.
Arguments Crashed {A}.

(** Whatever goes wrong inside the [try], the [HTTPException] raised
    there included, is caught and raised again as 401 "Invalid token". *)
Definition decode_token_with_supabase (env : auth_env) (token : string)
    : auth_result (list (string * json)) :=
  match supabase_get_user env token with
  | SbUser user_id email =>
      Authd [("sub", user_id); ("email", email); ("role", JStr "authenticated")]
  | SbNoUser => Http401 "Invalid token"
  | SbRaised => Http401 "Invalid token"
  end.

Definition decode_token (env : auth_env) (token : string)
    : auth_result (list (string * json)) :=
  if negb (String.eqb (jwt_secret env) EmptyString) then
    match jwt_decode env token with
    | JwtClaims payload => Authd payload
    | JwtRejected => decode_token_with_supabase env token
    | JwtFailed => Crashed
    end
  else decode_token_with_supabase env token.

(** [AuthUser]; the fields [id], [email] and [role]. *)
Record AuthUser : Type := {
  auth_id : json;
  auth_email : json;
  auth_role : json
}.

Definition get_current_user (env : auth_env) (token : string) : auth_result AuthUser :=
  match decode_token env token with
  | Authd payload =>
      let user_id := dict_get "sub" JNull payload in
      let email := dict_get "email" JNull payload in
      let role := dict_get "role" (JStr "authenticated") payload in
      if truthy user_id
      then Authd {| auth_id := user_id; auth_email := email; auth_role := role |}
      else Http401 "Invalid token payload"
  | Http401 detail => Http401 detail
  | Crashed => Http401 "Authentication failed"
  end.

(** ** [websocket_routes.py]: the opening of a session *)

(** How [execute()] ends: the [data] of the response, or an exception
    whose text is [msg]. *)
Inductive reply : Type :=
| Data (data : json)
| Fault (msg : string).

(** The tables the endpoint reads before it registers the connection. *)
Record store : Type := {
  (** [group_members] for a group and a user *)
  membership_rows : string -> json -> reply;
  (** [groups] for a group, [single()] *)
  group_row : string -> reply;
  (** [profiles], column [full_name], for a user, [single()] *)
  profile_row : json -> reply
}.

(** [Database.get_group]: [Data JNull] stands for [None]. *)
Definition get_group (st : store) (group_id : string) (user_id : json) : reply :=
  match membership_rows st group_id user_id with
  | Data rows => if truthy rows then group_row st group_id else Data JNull
  | Fault msg => Fault msg
  end.

Fixpoint is_prefix (p s : string) : bool :=
  match p, s with
  | EmptyString, _ => true
  | String a p', String b s' => Ascii.eqb a b && is_prefix p' s'
  | String _ _, EmptyString => false
  end.

(** [needle in hay] *)
Fixpoint contains (needle hay : string) : bool :=
  is_prefix needle hay ||
  match hay with
  | EmptyString => false
  | String _ rest => contains needle rest
  end.

(** [s.split("@")[0]]: the part of [s] before its first ["@"]. *)
Fixpoint before_at (s : string) : string :=
  match s with
  | EmptyString => EmptyString
  | String c rest => if Ascii.eqb c "@" then EmptyString else String c (before_at rest)
  end.

(** The name under which the session announces that its user is typing
    (lines 82 to 95); [None] when an exception leaves the endpoint.  A
    response whose [data] is not a dictionary makes [.get] raise an
    [AttributeError], whose text has none of the two marks. *)
Definition display_name (st : store) (user_id user_email : json) : option json :=
  match profile_row st user_id with
  | Data data =>
      if truthy data then
        match data with
        | JObj row => Some (dict_get "full_name" (JStr "Someone") row)
        | _ => Some (JStr "Someone")
        end
      else Some (JStr "Someone")
  | Fault error_str =>
      if contains "PGRST205" error_str || contains "Could not find" error_str then
        if truthy user_email then
          match user_email with
          | JStr e => Some (JStr (before_at e))
          | _ => None
          end
        else Some (JStr "Someone")
      else Some (JStr "Someone")
  end.

(** How the endpoint goes on after [websocket.accept()]: it closes the
    connection with a code and a reason, an exception leaves it, or it
    goes on to [manager.connect] with a user and a name. *)
Inductive opening : Type :=
| Closed (code : nat) (reason : string)
| Aborted
| Accepted (user_id user_name : json).

(** Lines 56 to 95 of [group_chat_websocket]. *)
Definition open_session (env : auth_env) (st : store) (group_id : string)
    (token : option string) : opening :=
  match token with
  | None => Closed 4001 "Missing token"
  | Some t =>
      if String.eqb t EmptyString then Closed 4001 "Missing token"
      else
        match decode_token env t with
        | Authd payload =>
            let user_id := dict_get "sub" JNull payload in
            let user_email := dict_get "email" JNull payload in
            if truthy user_id then
              match get_group st group_id user_id with
              | Fault _ => Aborted
              | Data group =>
                  if truthy group then
                    match display_name st user_id user_email with
                    | Some user_name => Accepted user_id user_name
                    | None => Aborted
                    end
                  else Closed 4003 "Not a member of this group"
              end
            else Closed 4001 "Invalid token"
        | Http401 _ => Closed 4001 "Authentication failed"
        | Crashed => Closed 4001 "Authentication failed"
        end
  end.

(** The turns of the loop for the frames received, each with the data
    store as it answers during the turn. *)
Fixpoint turns (fuel : nat) (ws : nat) (g u name : string)
    (frames : list (database * option json)) (s : state) : outcome :=
  match frames with
  | [] => Done s
  | (db, data) :: rest =>
      and_then (group_chat_websocket_turn fuel db ws g u name data s)
        (turns fuel ws g u name rest)
  end.

(** Lines 98 to 163 of [group_chat_websocket]: the registration, the
    turns of the loop until [receive_text] raises, and the [finally]. *)
Definition serve (fuel : nat) (ws : nat) (g u name : string)
    (frames : list (database * option json)) (s : state) : outcome :=
  and_then (connect fuel ws g u s)
    (fun s => and_then (turns fuel ws g u name frames s) (disconnect fuel ws)).

(** ** [auth.py]: [get_optional_user] *)

(** [s.replace(old, EmptyString)] for a non-empty [old]: the occurrences of
    [old] are removed from left to right, [skip] counting the characters
    of the occurrence being removed that are still to pass. *)
Fixpoint remove_all (old : string) (skip : nat) (s : string) : string :=
  match s with
  | EmptyString => EmptyString
  | String c rest =>
      match skip with
      | S k => remove_all old k rest
      | O =>
          if is_prefix old s then remove_all old (String.length old - 1) rest
          else String c (remove_all old 0 rest)
      end
  end.

(** The header is [None] or a text; every exception is swallowed. *)
Definition get_optional_user (env : auth_env) (authorization : option string)
    : option AuthUser :=
  match authorization with
  | None => None
  | Some a =>
      if String.eqb a EmptyString then None
      else
        let token := remove_all "Bearer " 0 a in
        match decode_token env token with
        | Authd payload =>
            let user_id := dict_get "sub" JNull payload in
            let email := dict_get "email" JNull payload in
            let role := dict_get "role" (JStr "authenticated") payload in
            if truthy user_id
            then Some {| auth_id := user_id; auth_email := email; auth_role := role |}
            else None
        | Http401 _ => None
        | Crashed => None
        end
  end.

(** ** [database.py]: [fetch_user_profiles] *)

(** [a or b]. *)
Definition py_or (a b : json) : json := if truthy a then a else b.

(** [v[k]] for a text [k]; [None] when it raises ([KeyError], or
    [TypeError] when [v] is not a dictionary). *)
Definition item (k : string) (v : json) : option json :=
  match v with
  | JObj fields => dict_lookup k fields
  | _ => None
  end.

(** [d[k] = v] on the items of a dictionary: the value of a key that is
    there is replaced in place, a new key comes last. *)
Fixpoint dict_set (k : string) (v : json) (fields : list (string * json))
    : list (string * json) :=
  match fields with
  | [] => [(k, v)]
  | (k', v') :: rest =>
      if String.eqb k k' then (k', v) :: rest else (k', v') :: dict_set k v rest
  end.

(** Whether a value can be the key of a dictionary. *)
Definition hashable (v : json) : bool :=
  match v with
  | JArr _ | JObj _ => false
  | _ => true
  end.

(** [a == b] for two keys: [True] is [1] and [False] is [0]. *)
Definition key_eqb (a b : json) : bool :=
  match a, b with
  | JNull, JNull => true
  | JStr x, JStr y => String.eqb x y
  | JBool x, JBool y => Bool.eqb x y
  | JNum x, JNum y => Z.eqb x y
  | JBool x, JNum y | JNum y, JBool x => Z.eqb (if x then 1 else 0) y
  | _, _ => false
  end.

(** [profile_map]: the items of a dictionary whose keys are any
    hashable values, in the order of their insertion. *)
Fixpoint map_get (k : json) (m : list (json * json)) : option json :=
  match m with
  | [] => None
  | (k', v) :: rest => if key_eqb k k' then Some v else map_get k rest
  end.

Fixpoint map_set (k v : json) (m : list (json * json)) : list (json * json) :=
  match m with
  | [] => [(k, v)]
  | (k', v') :: rest =>
      if key_eqb k k' then (k', v) :: rest else (k', v') :: map_set k v rest
  end.

(** How [auth.admin.get_user_by_id] ends: a user with its metadata (the
    items of [user_metadata], none when it is [None]) and its e-mail, an
    answer without user, or an exception. *)
Inductive admin_reply : Type :=
| AuthFound (user_metadata : list (string * json)) (email : option string)
| AuthNoUser
| AuthRaised.

(** What [fetch_user_profiles] reads: the select on [profiles] for a
    list of ids, whether [get_supabase_admin] returns a client, and the
    auth API.  The answer to a request depends on the request only. *)
Record profile_env : Type := {
  select_profiles : list string -> reply;
  admin_available : bool;
  get_user_by_id : string -> admin_reply
}.

(** The loop over the rows of [profiles]; the first row that has no
    [id], or an [id] that cannot be a key, raises, which ends the loop
    with the rows stored so far. *)
Fixpoint load_profiles (rows : list json) (m : list (json * json)) : list (json * json) :=
  match rows with
  | [] => m
  | p :: rest =>
      match item "id" p with
      | Some k => if hashable k then load_profiles rest (map_set k p m) else m
      | None => m
      end
  end.

(** The [try] on the table [profiles].  An answer whose [data] is not a
    list makes the loop raise before it stores anything. *)
Definition profiles_from (r : reply) : list (json * json) :=
  match r with
  | Data (JArr rows) => load_profiles rows []
  | _ => []
  end.

Definition fallback_profile (user_id : string) : json :=
  JObj [("id", JStr user_id); ("full_name", JNull);
        ("avatar_url", JNull); ("email", JNull)].

(** The entry built from a user of the auth API.  The conditional
    expression binds more loosely than [or]: without e-mail the name is
    [None] whatever the metadata hold. *)
Definition auth_profile (user_id : string) (user_metadata : list (string * json))
    (email : option string) : json :=
  let email_value := match email with Some e => JStr e | None => JNull end in
  let full_name :=
    if truthy email_value then
      py_or (py_or (dict_get "full_name" JNull user_metadata)
                   (dict_get "name" JNull user_metadata))
            (JStr (before_at (match email with Some e => e | None => EmptyString end)))
    else JNull in
  let avatar_url :=
    py_or (dict_get "avatar_url" JNull user_metadata)
          (dict_get "picture" JNull user_metadata) in
  JObj [("id", JStr user_id); ("full_name", full_name);
        ("avatar_url", avatar_url); ("email", email_value)].

(** The loop over the missing users, with an admin client. *)
Fixpoint from_auth (env : profile_env) (missing : list string) (m : list (json * json))
    : list (json * json) :=
  match missing with
  | [] => m
  | user_id :: rest =>
      from_auth env rest
        match get_user_by_id env user_id with
        | AuthFound user_metadata email =>
            map_set (JStr user_id) (auth_profile user_id user_metadata email) m
        | AuthNoUser => m
        | AuthRaised => map_set (JStr user_id) (fallback_profile user_id) m
        end
  end.

(** The loop of the outer [except], when there is no admin client. *)
Fixpoint fallback_all (missing : list string) (m : list (json * json))
    : list (json * json) :=
  match missing with
  | [] => m
  | user_id :: rest =>
      fallback_all rest
        match map_get (JStr user_id) m with
        | Some _ => m
        | None => map_set (JStr user_id) (fallback_profile user_id) m
        end
  end.

Definition fetch_user_profiles (env : profile_env) (user_ids : list string)
    : list (json * json) :=
  match user_ids with
  | [] => []
  | _ =>
      let profile_map := profiles_from (select_profiles env user_ids) in
      let missing_user_ids :=
        filter (fun uid => map_get (JStr uid) profile_map = None) user_ids in
      match missing_user_ids with
      | [] => profile_map
      | _ =>
          if admin_available env then from_auth env missing_user_ids profile_map
          else fallback_all missing_user_ids profile_map
      end
  end.

(** ** Notions for the properties of [fetch_user_profiles] *)

(** The rows of an answer of the table [profiles] that the loop can
    iterate: those of a list, none otherwise. *)
Definition table_rows (r : reply) : list json :=
  match r with
  | Data (JArr rows) => rows
  | _ => []
  end.

(** The rows the loop stores: those before the first row that has no
    [id], or an [id] that cannot be a key. *)
Fixpoint stored_rows (rows : list json) : list json :=
  match rows with
  | [] => []
  | p :: rest =>
      match item "id" p with
      | Some k => if hashable k then p :: stored_rows rest else []
      | None => []
      end
  end.

(** Whether the [id] of a row is the text [user_id]. *)
Definition row_of (user_id : string) (p : json) : bool :=
  match item "id" p with
  | Some k => key_eqb (JStr user_id) k
  | None => false
  end.

(** The row of the table for a user: the last of the stored rows whose
    [id] is that of the user. *)
Definition table_entry (user_id : string) (rows : list json) : option json :=
  last (filter (fun p => row_of user_id p) (stored_rows rows)).

(** ** [database.py]: [Database.send_message] *)

(** The inserts and updates a call sends to the store. *)
Inductive db_stmt : Type :=
| InsertMessage (message_data : list (string * json))
| TouchGroup (group_id : string).

(** The tables as [Database] sees them.  [touch_group] and
    [upsert_read] tell whether the statement goes through ([false]: it
    raises); the data they answer with are not read. *)
Record tables : Type := {
  (** [group_members], column [role], for a group and a user, [single()] *)
  role_row : string -> string -> reply;
  (** [groups], column [only_admins_can_message], for a group, [single()] *)
  policy_row : string -> reply;
  (** the insert into [group_messages] *)
  insert_message : list (string * json) -> reply;
  (** the update of [updated_at] in [groups] *)
  touch_group : string -> bool;
  profiles : profile_env;
  (** the upsert into [group_message_reads] *)
  upsert_read : json -> string -> bool
}.

(** [group.data["only_admins_can_message"] and
    membership.data["role"] != "admin"]; [None] when a subscript
    raises.  The role is read only when the flag is set. *)
Definition denied (group membership : json) : option bool :=
  match item "only_admins_can_message" group with
  | None => None
  | Some flag =>
      if truthy flag then
        match item "role" membership with
        | None => None
        | Some role => Some (negb (is_str role "admin"))
        end
      else Some false
  end.

(** [v is None] *)
Definition is_none (v : json) : bool :=
  match v with
  | JNull => true
  | _ => false
  end.

(** The dictionary that is inserted: the four fields, then the keyword
    arguments that are not [None]. *)
Definition message_data (group_id user_id content : string) (message_type : json)
    (kwargs : list (string * json)) : list (string * json) :=
  foldl (fun d kv => dict_set kv.1 kv.2 d)
    [("group_id", JStr group_id); ("sender_id", JStr user_id);
     ("content", JStr content); ("message_type", message_type)]
    (filter (fun kv => negb (is_none kv.2)) kwargs).

(** The statements sent, and how the call ends. *)
Definition Database_send_message (tb : tables) (group_id user_id content : string)
    (message_type : json) (kwargs : list (string * json)) : list db_stmt * db_reply :=
  match role_row tb group_id user_id with
  | Fault _ => ([], Raised)
  | Data membership =>
      if truthy membership then
        match policy_row tb group_id with
        | Fault _ => ([], Raised)
        | Data group =>
            match denied group membership with
            | None => ([], Raised)
            | Some true => ([], Returned JNull)
            | Some false =>
                let row := message_data group_id user_id content message_type kwargs in
                match insert_message tb row with
                | Fault _ => ([InsertMessage row], Raised)
                | Data result =>
                    let sent := [InsertMessage row; TouchGroup group_id] in
                    if touch_group tb group_id then
                      if truthy result then
                        let profile_map := fetch_user_profiles (profiles tb) [user_id] in
                        match result with
                        | JArr (JObj first :: _) =>
                            (sent,
                             Returned
                               (JObj (dict_set "sender"
                                        (default JNull (map_get (JStr user_id) profile_map))
                                        first)))
                        | _ => (sent, Raised)
                        end
                      else (sent, Returned JNull)
                    else (sent, Raised)
                end
            end
        end
      else ([], Returned JNull)
  end.

(** The data store of the endpoint, over the tables. *)
Definition database_of (tb : tables) : database :=
  {| send_message := fun group_id user_id content message_type reply_to_id =>
       (Database_send_message tb group_id user_id content message_type
          [("reply_to_id", reply_to_id)]).2;
     upsert_read_ok := upsert_read tb |}.
(** ** Scenarios over the tables *)

(** The tables of a group in which only admins write: Alice is an
    admin, Bob the owner, nobody else is a member; the table [profiles]
    is missing and there is no admin client. *)
Definition admin_only_tables : tables :=
  {| role_row := fun _ u =>
       if String.eqb u "alice" then Data (JObj [("role", JStr "admin")])
       else if String.eqb u "bob" then Data (JObj [("role", JStr "owner")])
       else Fault "PGRST116";
     policy_row := fun _ => Data (JObj [("only_admins_can_message", JBool true)]);
     insert_message := fun row => Data (JArr [JObj (("id", JStr "m1") :: row)]);
     touch_group := fun _ => true;
     profiles := {| select_profiles := fun _ => Fault "PGRST205";
                    admin_available := false;
                    get_user_by_id := fun _ => AuthNoUser |};
     upsert_read := fun _ _ => true |}.

(** The same tables, the update of the group failing. *)
Definition no_touch_tables : tables :=
  {| role_row := role_row admin_only_tables;
     policy_row := policy_row admin_only_tables;
     insert_message := insert_message admin_only_tables;
     touch_group := fun _ => false;
     profiles := profiles admin_only_tables;
     upsert_read := upsert_read admin_only_tables |}.

(** * Properties *)

(** ** Records, outcomes and the loop of the broadcast *)

Lemma set_wire_same (s : state) : set_wire (wire s) s = s.
Proof. by destruct s. Qed.

Lemma set_lock_same (s : state) : set_lock (lock s) s = s.
Proof. by destruct s. Qed.

Lemma set_lock_twice (b b' : bool) (s : state) :
  set_lock b (set_lock b' s) = set_lock b s.
Proof. done. Qed.

Lemma set_wire_twice (l l' : list send_record) (s : state) :
  set_wire l (set_wire l' s) = set_wire l s.
Proof. done. Qed.

Lemma and_then_state (o : outcome) (k : state -> outcome) (s' : state) :
  outcome_state (and_then o k) = Some s' ->
  (exists s1, o = Done s1 /\ outcome_state (k s1) = Some s') \/ o = Hang s'.
Proof.
  destruct o as [s1|s1|]; simpl; intros H.
  - left. by exists s1.
  - right. congruence.
  - discriminate.
Qed.

Lemma and_then_done (o : outcome) (k : state -> outcome) (s' : state) :
  and_then o k = Done s' -> exists s1, o = Done s1 /\ k s1 = Done s'.
Proof. destruct o as [s1|s1|]; simpl; intros H; try discriminate. by exists s1. Qed.

Lemma broadcast_loop_spec (conns : list nat) (exclude : option nat) (frame : json)
    (s : state) (dead : list nat) :
  broadcast_loop conns exclude frame s dead =
  (set_wire (wire s ++ attempts frame (closed s) (targets exclude conns)) s,
   dead ++ filter (fun c => c ∈ closed s) (targets exclude conns)).
Proof.
  revert s dead. induction conns as [|c conns IH]; intros s dead; simpl.
  - by rewrite !app_nil_r, set_wire_same.
  - unfold targets. rewrite filter_cons. destruct (decide (Some c = exclude)) as [He|He].
    + rewrite decide_False by (intros Hn; by apply Hn).
      apply IH.
    + rewrite decide_True by done.
      unfold send_text. rewrite filter_cons.
      destruct (decide (c ∈ closed s)) as [Hc|Hc].
      * rewrite IH. simpl. unfold attempts, targets.
        rewrite bool_decide_false by (intros Hn; by apply Hn).
        rewrite set_wire_twice, <- !app_assoc. done.
      * rewrite IH. simpl. unfold attempts, targets.
        rewrite bool_decide_true by done.
        rewrite set_wire_twice, <- !app_assoc. done.
Qed.

(** A broadcast to a room that has an entry: the sends of the loop, then
    the disconnect of each connection whose send raised. *)
Lemma broadcast_to_group_unfold (fuel : nat) (g : string) (m : json) (e : option nat)
    (s : state) (cs : gset nat) :
  group_connections s !! g = Some cs ->
  broadcast_to_group (S fuel) g m e s =
  cleanup (disconnect fuel)
    (filter (fun c => c ∈ closed s) (targets e (elements cs)))
    (set_wire (wire s ++ attempts m (closed s) (targets e (elements cs))) s).
Proof. intros H. cbn [broadcast_to_group]. by rewrite H, broadcast_loop_spec. Qed.

Lemma attempts_frame (frame : json) (shut : gset nat) (cs : list nat) (P : json -> Prop) :
  P frame -> Forall (fun r : send_record => P r.1.2) (attempts frame shut cs).
Proof. intros HP. unfold attempts. apply Forall_fmap, Forall_forall. by intros. Qed.

(** ** A relation kept by every call of the engine *)

Section engine.
Variable P : json -> Prop.
Variable R : state -> state -> Prop.
Hypothesis P_offline : forall u t, P (user_offline_event u (isoformat t)).
Hypothesis R_refl : forall s, R s s.
Hypothesis R_trans : forall s1 s2 s3, R s1 s2 -> R s2 s3 -> R s1 s3.
Hypothesis R_lock : forall b s, R s (set_lock b s).
Hypothesis R_send : forall s l,
  Forall (fun r : send_record => P r.1.2) l -> R s (set_wire (wire s ++ l) s).
Hypothesis R_forget : forall s ws u g,
  connection_info s !! ws = Some (u, g) -> R s (forget ws u g s).

Lemma cleanup_rel (disc : nat -> state -> outcome) (dead : list nat) :
  (forall ws s s', outcome_state (disc ws s) = Some s' -> R s s') ->
  forall s s', outcome_state (cleanup disc dead s) = Some s' -> R s s'.
Proof.
  intros Hd. induction dead as [|c dead IH]; intros s s' H; simpl in H.
  - injection H as <-. apply R_refl.
  - apply and_then_state in H as [(s1 & Hc & H)|Hc].
    + eapply R_trans; [|by apply IH]. apply (Hd c). by rewrite Hc.
    + apply (Hd c). by rewrite Hc.
Qed.

Lemma engine_rel (fuel : nat) :
  (forall g m e s s', P m ->
     outcome_state (broadcast_to_group fuel g m e s) = Some s' -> R s s') /\
  (forall ws s s', outcome_state (disconnect fuel ws s) = Some s' -> R s s').
Proof.
  induction fuel as [|fuel [IHb IHd]]; [by split|]. split.
  - intros g m e s s' Hm H. simpl in H.
    destruct (group_connections s !! g) as [conns|].
    + rewrite broadcast_loop_spec in H.
      eapply R_trans; [|eapply cleanup_rel; [apply IHd|apply H]].
      apply R_send. by apply attempts_frame.
    + injection H as <-. apply R_refl.
  - intros ws s s' H. simpl in H. unfold with_lock in H.
    destruct (lock s).
    + injection H as <-. apply R_refl.
    + apply and_then_state in H as [(s1 & Hb & H)|Hb].
      * injection H as <-.
        eapply R_trans; [|apply R_lock].
        eapply R_trans; [apply (R_lock true)|].
        simpl in Hb.
        destruct (connection_info s !! ws) as [[u g]|] eqn:Hinfo.
        -- eapply R_trans; [apply R_forget; simpl; apply Hinfo|].
           eapply IHb; cycle 1; [by rewrite Hb|apply P_offline].
        -- injection Hb as <-. apply R_refl.
      * eapply R_trans; [apply (R_lock true)|].
        simpl in Hb.
        destruct (connection_info s !! ws) as [[u g]|] eqn:Hinfo; [|done].
        eapply R_trans; [apply R_forget; simpl; apply Hinfo|].
        eapply IHb; cycle 1; [by rewrite Hb|apply P_offline].
Qed.

Lemma broadcast_rel (fuel : nat) (g : string) (m : json) (e : option nat)
    (s s' : state) :
  P m -> outcome_state (broadcast_to_group fuel g m e s) = Some s' -> R s s'.
Proof. apply engine_rel. Qed.

Lemma disconnect_rel (fuel : nat) (ws : nat) (s s' : state) :
  outcome_state (disconnect fuel ws s) = Some s' -> R s s'.
Proof. apply engine_rel. Qed.
End engine.

(** ** The frames the manager builds, and a relation kept by every call of
    the system *)

Lemma send_to_user_loop_spec (conns : list nat) (user_id : string) (frame : json)
    (s : state) :
  exists l, send_to_user_loop conns user_id frame s = set_wire (wire s ++ l) s /\
            Forall (fun r : send_record => r.1.2 = frame) l.
Proof.
  revert s. induction conns as [|c conns IH]; intros s; simpl.
  - exists []. by rewrite app_nil_r, set_wire_same.
  - destruct (connection_info s !! c) as [[owner g]|]; [|apply IH].
    destruct (String.eqb owner user_id); [|apply IH].
    destruct (IH (send_text c frame s).1) as (l & -> & Hl).
    unfold send_text. destruct (decide (c ∈ closed s)); simpl.
    + exists ((c, frame, false) :: l). rewrite set_wire_twice, <- app_assoc.
      split; [done|]. by constructor.
    + exists ((c, frame, true) :: l). rewrite set_wire_twice, <- app_assoc.
      split; [done|]. by constructor.
Qed.

Section system.
Variable R : state -> state -> Prop.
Hypothesis R_refl : forall s, R s s.
Hypothesis R_trans : forall s1 s2 s3, R s1 s2 -> R s2 s3 -> R s1 s3.
Hypothesis R_lock : forall b s, R s (set_lock b s).
Hypothesis R_send : forall s l,
  Forall (fun r : send_record => emitted r.1.2) l -> R s (set_wire (wire s ++ l) s).
Hypothesis R_forget : forall s ws u g,
  connection_info s !! ws = Some (u, g) -> R s (forget ws u g s).
Hypothesis R_register : forall s ws g u,
  connection_info s !! ws = None -> R s (register ws g u s).
Hypothesis R_typing : forall s v, R s (set_typing_users v s).
Hypothesis R_db : forall s v, R s (set_db_log v s).
Hypothesis R_closed : forall s v, R s (set_closed v s).
Hypothesis R_clock : forall s v, R s (set_clock v s).

Lemma broadcast_event_rel (fuel : nat) (g : string) (m : json) (e : option nat)
    (s s' : state) :
  outbound m -> outcome_state (broadcast_to_group fuel g m e s) = Some s' -> R s s'.
Proof.
  intros Hm. apply (broadcast_rel emitted R); auto.
  - intros u t. left. constructor.
  - by left.
Qed.

Lemma locked_then_broadcast_rel (fuel : nat) (g : string) (e : option nat)
    (body : state -> state) (ev : state -> json) (s s' : state) :
  (forall s, outbound (ev s)) ->
  R (set_lock true s) (body (set_lock true s)) ->
  outcome_state
    (and_then (with_lock (fun s => Done (body s)) s)
       (fun s => broadcast_to_group fuel g (ev s) e s)) = Some s' ->
  R s s'.
Proof.
  intros Hev Hbody H. unfold with_lock in H. destruct (lock s).
  - injection H as <-. apply R_refl.
  - simpl in H. apply broadcast_event_rel in H; [|apply Hev].
    eapply R_trans; [|apply H].
    eapply R_trans; [apply (R_lock true)|].
    eapply R_trans; [apply Hbody|]. apply R_lock.
Qed.

Lemma set_typing_rel (fuel : nat) (g u name : string) (s s' : state) :
  outcome_state (set_typing fuel g u name s) = Some s' -> R s s'.
Proof.
  unfold set_typing.
  apply (locked_then_broadcast_rel fuel g None
           (fun s => flag_typing g u s)
           (fun s => typing_start_event u name (utcnow_iso s))).
  - intros s0. constructor.
  - apply R_typing.
Qed.

Lemma clear_typing_rel (fuel : nat) (g u : string) (s s' : state) :
  outcome_state (clear_typing fuel g u s) = Some s' -> R s s'.
Proof.
  unfold clear_typing.
  apply (locked_then_broadcast_rel fuel g None
           (fun s => unflag_typing g u s)
           (fun s => typing_stop_event u (utcnow_iso s))).
  - intros s0. constructor.
  - unfold unflag_typing. destruct (typing_users _ !! g); [apply R_typing|apply R_refl].
Qed.

Lemma connect_rel (fuel : nat) (ws : nat) (g u : string) (s s' : state) :
  connection_info s !! ws = None ->
  outcome_state (connect fuel ws g u s) = Some s' -> R s s'.
Proof.
  intros Hnew. unfold connect.
  apply (locked_then_broadcast_rel fuel g (Some ws)
           (fun s => register ws g u s)
           (fun s => user_online_event u (utcnow_iso s))).
  - intros s0. constructor.
  - by apply R_register.
Qed.

Lemma on_message_rel (fuel : nat) (db : database) (g u : string)
    (message : list (string * json)) (s s' : state) :
  outcome_state (on_message fuel db g u message s) = Some s' -> R s s'.
Proof.
  unfold on_message. intros H.
  destruct (dict_get "data" (JObj message) message);
    try (injection H as <-; apply R_refl).
  destruct (if truthy _ then _ else _);
    try (injection H as <-; apply R_refl).
  destruct (negb _); [|injection H as <-; apply R_refl].
  eapply R_trans; [apply R_db|].
  destruct (send_message _ _ _ _ _ _) as [new_msg|]; [|injection H as <-; apply R_refl].
  destruct (truthy new_msg); [|injection H as <-; apply R_refl].
  apply and_then_state in H as [(s1 & Hb & H)|Hb].
  - eapply R_trans; [|apply (clear_typing_rel _ _ _ _ _ H)].
    eapply broadcast_event_rel; [|unfold broadcast_message in Hb; by rewrite Hb].
    constructor.
  - eapply broadcast_event_rel; [|unfold broadcast_message in Hb; by rewrite Hb].
    constructor.
Qed.

Lemma group_chat_websocket_turn_rel (fuel : nat) (db : database) (ws : nat)
    (g u name : string) (data : option json) (s s' : state) :
  outcome_state (group_chat_websocket_turn fuel db ws g u name data s) = Some s' -> R s s'.
Proof.
  unfold group_chat_websocket_turn. intros H.
  destruct data as [[| | | | |message]|];
    try (injection H as <-; apply R_refl).
  destruct (is_str _ "message"); [by eapply on_message_rel|].
  destruct (is_str _ "typing"); [by eapply set_typing_rel|].
  destruct (is_str _ "stop_typing"); [by eapply clear_typing_rel|].
  destruct (is_str _ "read").
  { unfold on_read in H. destruct (truthy _); [|injection H as <-; apply R_refl].
    destruct (upsert_read_ok _ _ _); injection H as <-.
    - eapply R_trans; apply R_db.
    - apply R_db. }
  destruct (is_str _ "ping"); [|injection H as <-; apply R_refl].
  injection H as <-. unfold send_text.
  destruct (decide (ws ∈ closed s)); simpl; apply R_send;
    repeat constructor; by right.
Qed.

Lemma run_op_rel (fuel : nat) (o : op) (s s' : state) :
  allowed o s -> outcome_state (run_op fuel o s) = Some s' -> R s s'.
Proof.
  destruct o; simpl; intros Hal H;
    try (eapply broadcast_event_rel; [|exact H]; constructor).
  - by eapply connect_rel.
  - by eapply group_chat_websocket_turn_rel.
  - eapply (disconnect_rel emitted R); eauto.
    intros u t. left. constructor.
  - by eapply set_typing_rel.
  - by eapply clear_typing_rel.
  - unfold broadcast_mention, send_to_user in H.
    destruct (group_connections s !! group_id); injection H as <-; [|apply R_refl].
    destruct (send_to_user_loop_spec (elements g) mentioned_user_id
                (mention_event message_id (utcnow_iso s)) s) as (l & -> & Hl).
    apply R_send. eapply Forall_impl; [apply Hl|].
    intros r ->. left. constructor.
  - injection H as <-. apply R_closed.
  - injection H as <-. apply R_clock.
Qed.
End system.

(** ** The registry invariant *)

Lemma wf_ext (s s' : state) :
  group_connections s' = group_connections s ->
  connection_info s' = connection_info s -> wf s -> wf s'.
Proof.
  intros Hg Hi [H1 H2 H3]. split; rewrite ?Hg, ?Hi; auto.
Qed.

Lemma wf_init (t : datetime) : wf (init t).
Proof. split; simpl; intros *; by rewrite lookup_empty. Qed.

Lemma wf_register (ws : nat) (g u : string) (s : state) :
  connection_info s !! ws = None -> wf s -> wf (register ws g u s).
Proof.
  intros Hnew [H1 H2 H3]. split; unfold register; simpl.
  - intros g' cs Hg'. destruct (decide (g = g')) as [<-|Hne].
    + rewrite lookup_insert_eq in Hg'. injection Hg' as <-. set_solver.
    + rewrite lookup_insert_ne in Hg' by done. by eapply H1.
  - intros g' cs c Hg' Hc. destruct (decide (ws = c)) as [<-|Hc'].
    + destruct (decide (g = g')) as [<-|Hne].
      * exists u. by rewrite lookup_insert_eq.
      * rewrite lookup_insert_ne in Hg' by done.
        destruct (H2 _ _ _ Hg' Hc) as [u' Hu']. congruence.
    + rewrite lookup_insert_ne by done.
      destruct (decide (g = g')) as [<-|Hne].
      * rewrite lookup_insert_eq in Hg'. injection Hg' as <-.
        apply elem_of_union in Hc as [Hc|Hc]; [|set_solver].
        destruct (group_connections s !! g) as [cs|] eqn:Hg; simpl in Hc; [|set_solver].
        by eapply H2.
      * rewrite lookup_insert_ne in Hg' by done. by eapply H2.
  - intros c u' g' Hc. destruct (decide (ws = c)) as [<-|Hc'].
    + rewrite lookup_insert_eq in Hc. injection Hc as <- <-.
      eexists. rewrite lookup_insert_eq. split; [done|set_solver].
    + rewrite lookup_insert_ne in Hc by done.
      destruct (H3 _ _ _ Hc) as (cs & Hcs & Hin).
      destruct (decide (g = g')) as [<-|Hne].
      * eexists. rewrite lookup_insert_eq. split; [done|].
        rewrite Hcs. simpl. set_solver.
      * exists cs. by rewrite lookup_insert_ne.
Qed.

Lemma forget_connection_info (ws : nat) (u g : string) (s : state) :
  connection_info (forget ws u g s) = delete ws (connection_info s).
Proof.
  unfold forget. simpl. destruct (group_connections s !! g) as [cs|]; simpl.
  - destruct (decide (cs ∖ {[ws]} = ∅)); simpl; by destruct (typing_users s !! g).
  - by destruct (typing_users s !! g).
Qed.

Lemma forget_group_connections (ws : nat) (u g : string) (s : state) :
  group_connections (forget ws u g s) =
  match group_connections s !! g with
  | Some cs =>
      if decide (cs ∖ {[ws]} = ∅) then delete g (group_connections s)
      else <[g := cs ∖ {[ws]}]> (group_connections s)
  | None => group_connections s
  end.
Proof.
  unfold forget. simpl. destruct (group_connections s !! g) as [cs|]; simpl.
  - destruct (decide (cs ∖ {[ws]} = ∅)); simpl; by destruct (typing_users s !! g).
  - by destruct (typing_users s !! g).
Qed.

Lemma wf_forget (ws : nat) (u g : string) (s : state) :
  connection_info s !! ws = Some (u, g) -> wf s -> wf (forget ws u g s).
Proof.
  intros Hinfo Hwf. destruct (wf_member s Hwf _ _ _ Hinfo) as (cs & Hcs & Hin).
  destruct Hwf as [H1 H2 H3].
  split; rewrite ?forget_connection_info, forget_group_connections, Hcs;
    destruct (decide (cs ∖ {[ws]} = ∅)) as [He|He].
  - intros g' cs' Hg'. apply lookup_delete_Some in Hg' as [_ Hg']. by eapply H1.
  - intros g' cs' Hg'. destruct (decide (g = g')) as [<-|Hne].
    + rewrite lookup_insert_eq in Hg'. by injection Hg' as <-.
    + rewrite lookup_insert_ne in Hg' by done. by eapply H1.
  - intros g' cs' c Hg' Hc. apply lookup_delete_Some in Hg' as [Hne Hg'].
    destruct (H2 _ _ _ Hg' Hc) as [u' Hu']. exists u'.
    rewrite lookup_delete_ne; [done|]. intros <-. congruence.
  - intros g' cs' c Hg' Hc. destruct (decide (g = g')) as [<-|Hne].
    + rewrite lookup_insert_eq in Hg'. injection Hg' as <-.
      apply elem_of_difference in Hc as [Hc Hws].
      destruct (H2 g cs c Hcs Hc) as [u' Hu']. exists u'.
      rewrite lookup_delete_ne; [done|]. intros ->. apply Hws.
      by apply elem_of_singleton.
    + rewrite lookup_insert_ne in Hg' by done.
      destruct (H2 _ _ _ Hg' Hc) as [u' Hu']. exists u'.
      rewrite lookup_delete_ne; [done|]. intros <-. congruence.
  - intros c u' g' Hc. apply lookup_delete_Some in Hc as [Hne Hc].
    destruct (H3 _ _ _ Hc) as (cs' & Hcs' & Hin').
    exists cs'. split; [|done]. rewrite lookup_delete_ne; [done|].
    intros <-. assert (cs' = cs) as -> by congruence. set_solver.
  - intros c u' g' Hc. apply lookup_delete_Some in Hc as [Hne Hc].
    destruct (H3 _ _ _ Hc) as (cs' & Hcs' & Hin').
    destruct (decide (g = g')) as [<-|Hne'].
    + eexists. rewrite lookup_insert_eq. split; [done|].
      assert (cs' = cs) as -> by congruence. set_solver.
    + exists cs'. by rewrite lookup_insert_ne.
Qed.

(** Every call of the system keeps the invariant. *)
Lemma run_op_wf (fuel : nat) (o : op) (s s' : state) :
  allowed o s -> outcome_state (run_op fuel o s) = Some s' -> wf s -> wf s'.
Proof.
  apply (run_op_rel (fun s s' => wf s -> wf s')); auto.
  - intros b s0. by apply wf_ext.
  - intros s0 l _. by apply wf_ext.
  - intros s0 ws u g. apply wf_forget.
  - intros s0 ws g u. apply wf_register.
  - intros s0 v. by apply wf_ext.
  - intros s0 v. by apply wf_ext.
  - intros s0 v. by apply wf_ext.
  - intros s0 v. by apply wf_ext.
Qed.

Lemma reachable_wf (s : state) : reachable s -> wf s.
Proof.
  induction 1 as [t|s s' o n _ IH Hal Hs'].
  - apply wf_init.
  - by eapply run_op_wf.
Qed.

Lemma forget_env (ws : nat) (u g : string) (s : state) :
  lock (forget ws u g s) = lock s /\ closed (forget ws u g s) = closed s /\
  wire (forget ws u g s) = wire s /\ clock (forget ws u g s) = clock s /\
  db_log (forget ws u g s) = db_log s.
Proof.
  unfold forget. simpl. destruct (group_connections s !! g) as [cs|]; simpl.
  - destruct (decide (cs ∖ {[ws]} = ∅)); simpl; by destruct (typing_users s !! g).
  - by destruct (typing_users s !! g).
Qed.

Lemma forget_lock (ws : nat) (u g : string) (s : state) :
  lock (forget ws u g s) = lock s.
Proof. apply forget_env. Qed.

Lemma forget_typing_users (ws : nat) (u g : string) (s : state) :
  typing_users (forget ws u g s) =
  match typing_users s !! g with
  | Some users => <[g := users ∖ {[u]}]> (typing_users s)
  | None => typing_users s
  end.
Proof.
  unfold forget. simpl. destruct (group_connections s !! g) as [cs|]; simpl.
  - destruct (decide (cs ∖ {[ws]} = ∅)); simpl; by destruct (typing_users s !! g).
  - by destruct (typing_users s !! g).
Qed.

(** ** The lock, and how much fuel a call needs *)

Lemma disconnect_locked (fuel : nat) (ws : nat) (s : state) :
  lock s = true -> disconnect (S fuel) ws s = Hang s.
Proof. intros H. simpl. unfold with_lock. by rewrite H. Qed.

Lemma disconnect_unknown (fuel : nat) (ws : nat) (s : state) :
  lock s = false -> connection_info s !! ws = None ->
  disconnect (S fuel) ws s = Done s.
Proof.
  intros Hl Hi. simpl. unfold with_lock. rewrite Hl. simpl. rewrite Hi. simpl.
  by rewrite set_lock_twice, <- Hl, set_lock_same.
Qed.

Lemma cleanup_locked (fuel : nat) (dead : list nat) (s : state) :
  lock s = true ->
  cleanup (disconnect (S fuel)) dead s =
  match dead with [] => Done s | _ => Hang s end.
Proof.
  intros H. destruct dead as [|c dead]; [done|].
  cbn [cleanup]. by rewrite disconnect_locked.
Qed.

(** A broadcast made while the lock is held: it returns when every send
    went through, and waits for ever on the lock otherwise. *)
Lemma broadcast_to_group_locked (fuel : nat) (g : string) (m : json)
    (e : option nat) (s : state) :
  lock s = true ->
  broadcast_to_group (S (S fuel)) g m e s =
  match group_connections s !! g with
  | None => Done s
  | Some conns =>
      let s' := set_wire (wire s ++ attempts m (closed s) (targets e (elements conns))) s in
      match filter (fun c => c ∈ closed s) (targets e (elements conns)) with
      | [] => Done s'
      | _ => Hang s'
      end
  end.
Proof.
  intros H. cbn [broadcast_to_group].
  destruct (group_connections s !! g) as [conns|]; [|done].
  rewrite broadcast_loop_spec. by rewrite cleanup_locked.
Qed.

Lemma cleanup_ext (d1 d2 : nat -> state -> outcome) (dead : list nat) (s : state) :
  (forall c s, d1 c s = d2 c s) -> cleanup d1 dead s = cleanup d2 dead s.
Proof.
  intros H. revert s. induction dead as [|c dead IH]; intros s; [done|].
  simpl. rewrite H. destruct (d2 c s); simpl; auto.
Qed.

Lemma disconnect_fuel (n : nat) (ws : nat) (s : state) :
  disconnect (3 + n) ws s = disconnect 3 ws s.
Proof.
  change (3 + n) with (S (S (S n))). cbn [disconnect]. unfold with_lock.
  destruct (lock s); [done|]. f_equal.
  destruct (connection_info (set_lock true s) !! ws) as [[u g]|]; [|done].
  by rewrite !broadcast_to_group_locked by (by rewrite forget_lock).
Qed.

Lemma broadcast_to_group_fuel (n : nat) (g : string) (m : json) (e : option nat)
    (s : state) :
  broadcast_to_group (4 + n) g m e s = broadcast_to_group 4 g m e s.
Proof.
  change (4 + n) with (S (3 + n)). cbn [broadcast_to_group].
  destruct (group_connections s !! g) as [conns|]; [|done].
  rewrite broadcast_loop_spec. apply cleanup_ext. intros c s0. apply disconnect_fuel.
Qed.

Lemma and_then_total (o : outcome) (k : state -> outcome) :
  is_Some (outcome_state o) -> (forall s, is_Some (outcome_state (k s))) ->
  is_Some (outcome_state (and_then o k)).
Proof.
  destruct o as [s|s|]; simpl; intros Ho Hk; [apply Hk|by eexists|done].
Qed.

Lemma with_lock_total (body : state -> outcome) (s : state) :
  is_Some (outcome_state (body (set_lock true s))) ->
  is_Some (outcome_state (with_lock body s)).
Proof.
  intros H. unfold with_lock. destruct (lock s); [by eexists|].
  apply and_then_total; [apply H|]. by eexists.
Qed.

Lemma disconnect_total (n : nat) (ws : nat) (s : state) :
  is_Some (outcome_state (disconnect (3 + n) ws s)).
Proof.
  rewrite disconnect_fuel. cbn [disconnect].
  apply with_lock_total.
  destruct (connection_info (set_lock true s) !! ws) as [[u g]|]; [|by eexists].
  rewrite broadcast_to_group_locked by (by rewrite forget_lock).
  destruct (group_connections _ !! g); [|by eexists].
  simpl. destruct (filter _ _); by eexists.
Qed.

Lemma cleanup_total (disc : nat -> state -> outcome) (dead : list nat) (s : state) :
  (forall c s, is_Some (outcome_state (disc c s))) ->
  is_Some (outcome_state (cleanup disc dead s)).
Proof.
  intros H. revert s. induction dead as [|c dead IH]; intros s; [by eexists|].
  cbn [cleanup]. by apply and_then_total.
Qed.

Lemma broadcast_to_group_total (n : nat) (g : string) (m : json) (e : option nat)
    (s : state) :
  is_Some (outcome_state (broadcast_to_group (4 + n) g m e s)).
Proof.
  change (4 + n) with (S (3 + n)). cbn [broadcast_to_group].
  destruct (group_connections s !! g) as [conns|]; [|by eexists].
  rewrite broadcast_loop_spec. apply cleanup_total. intros c s0.
  apply disconnect_total.
Qed.

(** Every call of the system ends, in a return or on the lock, with four
    units of fuel or more. *)
Lemma run_op_total (n : nat) (o : op) (s : state) :
  is_Some (outcome_state (run_op (4 + n) o s)).
Proof.
  assert (Hb : forall g m e s, is_Some (outcome_state (broadcast_to_group (4 + n) g m e s)))
    by (intros; apply broadcast_to_group_total).
  assert (Hc : forall g u s, is_Some (outcome_state (clear_typing (4 + n) g u s))).
  { intros g u s0. unfold clear_typing. apply and_then_total; [|intros; apply Hb].
    apply with_lock_total. by eexists. }
  assert (Ht : forall g u name s,
             is_Some (outcome_state (set_typing (4 + n) g u name s))).
  { intros g u name s0. unfold set_typing. apply and_then_total; [|intros; apply Hb].
    apply with_lock_total. by eexists. }
  destruct o; cbn [run_op]; try apply Hb; try apply Hc; try apply Ht;
    try (by eexists).
  - unfold connect. apply and_then_total; [|intros; apply Hb].
    apply with_lock_total. by eexists.
  - unfold group_chat_websocket_turn.
    destruct data as [[| | | | |message]|]; try (by eexists).
    destruct (is_str _ "message").
    { unfold on_message. destruct (dict_get "data" _ _); try (by eexists).
      destruct (if truthy _ then _ else _); try (by eexists).
      destruct (negb _); [|by eexists].
      destruct (send_message _ _ _ _ _ _) as [new_msg|]; [|by eexists].
      destruct (truthy new_msg); [|by eexists].
      apply and_then_total; [apply Hb|intros; apply Hc]. }
    destruct (is_str _ "typing"); [apply Ht|].
    destruct (is_str _ "stop_typing"); [apply Hc|].
    destruct (is_str _ "read").
    { unfold on_read. destruct (truthy _); [|by eexists].
      destruct (upsert_read_ok _ _ _); by eexists. }
    destruct (is_str _ "ping"); by eexists.
  - change (4 + n) with (3 + S n). apply disconnect_total.
  - unfold broadcast_mention, send_to_user.
    destruct (group_connections s !! group_id); by eexists.
Qed.

(** ** What a call of the engine can change *)

Lemma shrinks_refl (s : state) : shrinks s s.
Proof. split; try done. exists []. by rewrite app_nil_r. Qed.

Lemma shrinks_trans (s1 s2 s3 : state) : shrinks s1 s2 -> shrinks s2 s3 -> shrinks s1 s3.
Proof.
  intros [A1 A2 A3 [l1 A4] A5 A6 A7] [B1 B2 B3 [l2 B4] B5 B6 B7]. split.
  - by transitivity (connection_info s2).
  - intros g. by transitivity (members g s2).
  - intros g. by transitivity (typing g s2).
  - exists (l1 ++ l2). by rewrite B4, A4, app_assoc.
  - congruence.
  - congruence.
  - congruence.
Qed.

Lemma shrinks_forget (s : state) (ws : nat) (u g : string) :
  shrinks s (forget ws u g s).
Proof.
  destruct (forget_env ws u g s) as (_ & Hc & Hw & Hk & Hd).
  split; try done.
  - rewrite forget_connection_info. apply delete_subseteq.
  - intros g'. unfold members. rewrite forget_group_connections.
    destruct (group_connections s !! g) as [cs|] eqn:Hcs; [|done].
    destruct (decide (cs ∖ {[ws]} = ∅)).
    + destruct (decide (g = g')) as [<-|Hne].
      * rewrite lookup_delete_eq. simpl. apply empty_subseteq.
      * by rewrite lookup_delete_ne.
    + destruct (decide (g = g')) as [<-|Hne].
      * rewrite lookup_insert_eq, Hcs. simpl. apply subseteq_difference_l. done.
      * by rewrite lookup_insert_ne.
  - intros g'. unfold typing. rewrite forget_typing_users.
    destruct (typing_users s !! g) as [us|] eqn:Hus; [|done].
    destruct (decide (g = g')) as [<-|Hne].
    + rewrite lookup_insert_eq, Hus. simpl. apply subseteq_difference_l. done.
    + by rewrite lookup_insert_ne.
  - exists []. by rewrite app_nil_r.
Qed.

Lemma engine_shrinks (fuel : nat) :
  (forall g m e s s',
     outcome_state (broadcast_to_group fuel g m e s) = Some s' -> shrinks s s') /\
  (forall ws s s', outcome_state (disconnect fuel ws s) = Some s' -> shrinks s s').
Proof.
  assert (Hlock : forall b s, shrinks s (set_lock b s)).
  { intros b s. split; try done. exists []. by rewrite app_nil_r. }
  assert (Hsend : forall s l, Forall (fun _ : send_record => True) l ->
                              shrinks s (set_wire (wire s ++ l) s)).
  { intros s l _. split; try done. by exists l. }
  destruct (engine_rel (fun _ => True) shrinks (fun _ _ => I) shrinks_refl
              shrinks_trans Hlock Hsend
              (fun s ws u g _ => shrinks_forget s ws u g) fuel) as [Hb Hd].
  split; [|done]. intros g m e s s'. by apply Hb.
Qed.

Lemma broadcast_shrinks (fuel : nat) (g : string) (m : json) (e : option nat)
    (s s' : state) :
  outcome_state (broadcast_to_group fuel g m e s) = Some s' -> shrinks s s'.
Proof. apply engine_shrinks. Qed.

Lemma disconnect_shrinks (fuel : nat) (ws : nat) (s s' : state) :
  outcome_state (disconnect fuel ws s) = Some s' -> shrinks s s'.
Proof. apply engine_shrinks. Qed.

Lemma shrinks_info_none (s s' : state) (c : nat) :
  shrinks s s' -> connection_info s !! c = None -> connection_info s' !! c = None.
Proof.
  intros [H _ _ _ _ _ _] Hc. destruct (connection_info s' !! c) as [p|] eqn:Hp; [|done].
  eapply lookup_weaken in Hp; [|apply H]. congruence.
Qed.

(** A disconnect that returns has dropped the record of the connection
    and released the lock. *)
Lemma disconnect_done (fuel : nat) (ws : nat) (s s' : state) :
  disconnect fuel ws s = Done s' ->
  connection_info s' !! ws = None /\ lock s' = false.
Proof.
  destruct fuel as [|fuel]; [done|]. cbn [disconnect]. unfold with_lock.
  destruct (lock s); [done|]. intros H.
  apply and_then_done in H as (s1 & Hb & H). injection H as <-. split; [|done].
  simpl. simpl in Hb. destruct (connection_info s !! ws) as [[u g]|] eqn:Hi.
  - eapply shrinks_info_none.
    + eapply broadcast_shrinks. by rewrite Hb.
    + rewrite forget_connection_info. apply lookup_delete_eq.
  - by injection Hb as <-.
Qed.

Lemma cleanup_done (fuel : nat) (dead : list nat) (s s' : state) :
  cleanup (disconnect fuel) dead s = Done s' ->
  forall c, c ∈ dead -> connection_info s' !! c = None.
Proof.
  revert s. induction dead as [|d dead IH]; intros s H c Hc.
  - by apply elem_of_nil in Hc.
  - cbn [cleanup] in H. apply and_then_done in H as (s1 & Hd & H).
    apply elem_of_cons in Hc as [->|Hc]; [|by eapply IH].
    eapply shrinks_info_none; [|by eapply disconnect_done].
    eapply (cleanup_rel shrinks shrinks_refl shrinks_trans (disconnect fuel) dead).
    + intros ws s0 s0'. apply disconnect_shrinks.
    + by rewrite H.
Qed.

(** When a broadcast returns, every connection whose send raised has
    lost its record. *)
Lemma broadcast_done_evicts (fuel : nat) (g : string) (m : json) (e : option nat)
    (s s' : state) (c : nat) :
  broadcast_to_group fuel g m e s = Done s' ->
  c ∈ members g s -> Some c <> e -> c ∈ closed s ->
  connection_info s' !! c = None.
Proof.
  destruct fuel as [|fuel]; [done|]. cbn [broadcast_to_group]. unfold members.
  destruct (group_connections s !! g) as [conns|]; simpl; [|set_solver].
  rewrite broadcast_loop_spec. intros H Hc He Hcl.
  eapply cleanup_done; [apply H|]. simpl.
  apply list_elem_of_filter. split; [done|].
  apply list_elem_of_filter. split; [done|]. by apply elem_of_elements.
Qed.

(** In a state of the system, a broadcast to everyone that returns
    leaves no connection with a broken transport in the room. *)
Lemma broadcast_done_open (fuel : nat) (g : string) (m : json) (s s' : state) (c : nat) :
  wf s -> broadcast_to_group fuel g m None s = Done s' ->
  c ∈ members g s' -> c ∉ closed s'.
Proof.
  intros Hwf H Hc Hcl.
  assert (Hs : shrinks s s') by (eapply broadcast_shrinks; by rewrite H).
  assert (Hwf' : wf s').
  { eapply (broadcast_rel (fun _ => True) (fun s s' => wf s -> wf s'));
      [..|by rewrite H|done]; auto.
    - intros b s0. by apply wf_ext.
    - intros s0 l _. by apply wf_ext.
    - intros s0 ws u g0. apply wf_forget. }
  assert (connection_info s' !! c = None) as Hnone.
  { eapply broadcast_done_evicts; [apply H|by apply (shr_members _ _ Hs)|done|].
    by rewrite <- (shr_closed _ _ Hs). }
  unfold members in Hc.
  destruct (group_connections s' !! g) as [cs|] eqn:Hcs; simpl in Hc; [|set_solver].
  destruct (wf_info _ Hwf' _ _ _ Hcs Hc) as [u Hu]. congruence.
Qed.

Lemma attempts_all_open (frame : json) (shut : gset nat) (cs : list nat) :
  (forall c, c ∈ cs -> c ∉ shut) ->
  attempts frame shut cs = (fun c => (c, frame, true)) <$> cs /\
  filter (fun c => c ∈ shut) cs = [].
Proof.
  intros H. induction cs as [|c cs IH]; [done|].
  destruct IH as [IH1 IH2]. { intros c' Hc'. apply H. by right. }
  assert (c ∉ shut) as Hc by (apply H; by left).
  unfold attempts in *. rewrite fmap_cons, IH1, bool_decide_true by done.
  split; [done|]. by rewrite filter_cons, decide_False.
Qed.

(** A broadcast none of whose sends raises: it returns, and only the
    wire has changed. *)
Lemma broadcast_all_open (fuel : nat) (g : string) (m : json) (e : option nat)
    (s : state) :
  (forall c, c ∈ members g s -> Some c <> e -> c ∉ closed s) ->
  broadcast_to_group (S fuel) g m e s =
  Done (set_wire
          (wire s ++ ((fun c => (c, m, true)) <$> targets e (elements (members g s)))) s).
Proof.
  intros H. cbn [broadcast_to_group]. unfold members in *.
  destruct (group_connections s !! g) as [conns|]; simpl in *.
  - rewrite broadcast_loop_spec.
    destruct (attempts_all_open m (closed s) (targets e (elements conns))) as [-> ->].
    + intros c Hc. apply list_elem_of_filter in Hc as [He Hc].
      apply H; [by apply elem_of_elements|done].
    + done.
  - rewrite elements_empty. simpl. by rewrite app_nil_r, set_wire_same.
Qed.

(** ** Scenarios are states of the system *)

Lemma run_trace_reachable (ops : list op) (s s' : state) :
  reachable s -> run_trace ops s = Some s' -> reachable s'.
Proof.
  revert s. induction ops as [|o ops IH]; intros s Hs H; simpl in H.
  - by injection H as <-.
  - destruct (allowedb o s) eqn:Hal; [|done].
    destruct (outcome_state (run_op 4 o s)) as [s1|] eqn:Hs1; [|done].
    apply (IH s1); [|done].
    apply (reachable_step s s1 o 0); [done| |done].
    destruct o; simpl in *; try done. by apply bool_decide_eq_true in Hal.
Qed.

Lemma after_reachable (ops : list op) :
  is_Some (run_trace ops (init t0)) -> reachable (after ops).
Proof.
  intros [s H]. unfold after. rewrite H. simpl.
  eapply run_trace_reachable; [apply reachable_init|apply H].
Qed.

Lemma three_in_room_reachable : reachable three_in_room.
Proof. apply after_reachable. vm_compute. by eexists. Qed.

Lemma two_dropped_reachable : reachable two_dropped.
Proof. apply after_reachable. vm_compute. by eexists. Qed.

Lemma two_dropped_alice_typing_reachable : reachable two_dropped_alice_typing.
Proof. apply after_reachable. vm_compute. by eexists. Qed.

Lemma alice_twice_reachable : reachable alice_twice.
Proof. apply after_reachable. vm_compute. by eexists. Qed.

Lemma typed_and_left_reachable : reachable typed_and_left.
Proof. apply after_reachable. vm_compute. by eexists. Qed.

Lemma bob_alone_reachable : reachable bob_alone.
Proof. apply after_reachable. vm_compute. by eexists. Qed.

Lemma alice_typing_reachable : reachable alice_typing.
Proof. apply after_reachable. vm_compute. by eexists. Qed.

(** The scenarios, spelled out. *)
Lemma three_in_room_content :
  group_connections three_in_room = {["R1" := {[1; 2; 3]}]} /\
  connection_info three_in_room =
    {[1 := ("alice", "R1"); 2 := ("bob", "R1"); 3 := ("carol", "R1")]} /\
  typing_users three_in_room = ∅ /\ closed three_in_room = ∅ /\
  lock three_in_room = false.
Proof. vm_compute. by repeat split. Qed.

Lemma two_dropped_content :
  group_connections two_dropped = {["R1" := {[1; 2; 3]}]} /\
  connection_info two_dropped =
    {[1 := ("alice", "R1"); 2 := ("bob", "R1"); 3 := ("carol", "R1")]} /\
  typing_users two_dropped = ∅ /\ closed two_dropped = {[2; 3]} /\
  lock two_dropped = false.
Proof. vm_compute. by repeat split. Qed.

Lemma two_dropped_alice_typing_content :
  group_connections two_dropped_alice_typing = {["R1" := {[1; 2; 3]}]} /\
  connection_info two_dropped_alice_typing =
    {[1 := ("alice", "R1"); 2 := ("bob", "R1"); 3 := ("carol", "R1")]} /\
  typing_users two_dropped_alice_typing = {["R1" := {["alice"]}]} /\
  closed two_dropped_alice_typing = {[2; 3]} /\
  lock two_dropped_alice_typing = false.
Proof. vm_compute. by repeat split. Qed.

Lemma alice_twice_content :
  group_connections alice_twice = {["R1" := {[1; 2]}]} /\
  connection_info alice_twice = {[1 := ("alice", "R1"); 2 := ("alice", "R1")]} /\
  closed alice_twice = ∅ /\ lock alice_twice = false.
Proof. vm_compute. by repeat split. Qed.

Lemma typed_and_left_content :
  group_connections typed_and_left = ∅ /\ connection_info typed_and_left = ∅ /\
  typing_users typed_and_left = {["R1" := ∅]} /\ lock typed_and_left = false.
Proof. vm_compute. by repeat split. Qed.

Lemma bob_alone_content :
  group_connections bob_alone = {["R1" := {[1]}]} /\
  connection_info bob_alone = {[1 := ("bob", "R1")]} /\
  typing_users bob_alone = ∅ /\ closed bob_alone = ∅ /\ lock bob_alone = false.
Proof. vm_compute. by repeat split. Qed.

Lemma members_spec (g : string) (s : state) (c : nat) :
  c ∈ members g s <-> exists cs, group_connections s !! g = Some cs /\ c ∈ cs.
Proof.
  unfold members. destruct (group_connections s !! g) as [cs|]; simpl.
  - split; [by exists cs|]. by intros (cs' & [= <-] & H).
  - split; [set_solver|]. by intros (cs' & ? & _).
Qed.

(** ** The claims on the registry *)

(** Why the system registers a handle once: a second [connect] of a
    registered handle, to another room, leaves it in both rooms. *)
Lemma second_connect_two_rooms :
  connect 4 1 "R2" "alice" bob_alone = Done (final (connect 4 1 "R2" "alice" bob_alone)) /\
  1 ∈ members "R1" (final (connect 4 1 "R2" "alice" bob_alone)) /\
  1 ∈ members "R2" (final (connect 4 1 "R2" "alice" bob_alone)).
Proof. vm_compute. by repeat split. Qed.

(** C3.  In every state of the system a connection handle is in the
    membership set of at most one room: a handle found in the sets of the
    rooms [g1] and [g2] means that [g1] and [g2] are the same room.  The
    system registers a handle on the activation of its session (once, the
    manager holding no record for it) and removes it on teardown and on
    the cleanup after a send that raised. *)
Theorem one_room_per_connection (s : state) (c : nat) (g1 g2 : string) :
  reachable s -> c ∈ members g1 s -> c ∈ members g2 s -> g1 = g2.
Proof.
  intros Hs H1 H2. apply reachable_wf in Hs.
  apply members_spec in H1 as (cs1 & Hg1 & Hc1).
  apply members_spec in H2 as (cs2 & Hg2 & Hc2).
  destruct (wf_info s Hs _ _ _ Hg1 Hc1) as [u1 Hu1].
  destruct (wf_info s Hs _ _ _ Hg2 Hc2) as [u2 Hu2].
  congruence.
Qed.

Lemma one_room_per_connection_witness :
  reachable three_in_room /\ 2 ∈ members "R1" three_in_room /\ "R1" = "R1".
Proof.
  assert (H : 2 ∈ members "R1" three_in_room) by (vm_compute; reflexivity).
  split; [apply three_in_room_reachable|]. split; [exact H|].
  exact (one_room_per_connection three_in_room 2 "R1" "R1"
           three_in_room_reachable H H).
Defined.

(** ** The entries of the typing dictionary *)

Lemma typing_rooms_insert (g : string) (us : gset string) (s : state) :
  is_Some (typing_users s !! g) ->
  dom (<[g := us]> (typing_users s)) = typing_rooms s.
Proof.
  intros H. unfold typing_rooms. rewrite dom_insert_L.
  apply elem_of_dom in H. set_solver.
Qed.

Lemma typing_rooms_forget (ws : nat) (u g : string) (s : state) :
  typing_rooms (forget ws u g s) = typing_rooms s.
Proof.
  unfold typing_rooms at 1. rewrite forget_typing_users.
  destruct (typing_users s !! g) as [us|] eqn:H; [|done].
  apply typing_rooms_insert. by rewrite H.
Qed.

Lemma typing_rooms_unflag (g u : string) (s : state) :
  typing_rooms (unflag_typing g u s) = typing_rooms s.
Proof.
  unfold unflag_typing.
  destruct (typing_users s !! g) as [us|] eqn:H; [|done].
  unfold typing_rooms at 1. cbn. apply typing_rooms_insert. by rewrite H.
Qed.

Lemma typing_rooms_flag (g u : string) (s : state) :
  typing_rooms (flag_typing g u s) = typing_rooms s ∪ {[g]}.
Proof. unfold typing_rooms, flag_typing. cbn. rewrite dom_insert_L. set_solver. Qed.

(** The broadcast and the disconnect neither make nor delete an entry. *)
Lemma engine_typing_rooms (fuel : nat) :
  (forall g m e s s',
     outcome_state (broadcast_to_group fuel g m e s) = Some s' ->
     typing_rooms s' = typing_rooms s) /\
  (forall ws s s',
     outcome_state (disconnect fuel ws s) = Some s' -> typing_rooms s' = typing_rooms s).
Proof.
  destruct (engine_rel (fun _ => True) (fun s s' => typing_rooms s' = typing_rooms s))
    with (fuel := fuel) as [Hb Hd]; try done.
  - intros s1 s2 s3 H1 H2. congruence.
  - intros s ws u g _. apply typing_rooms_forget.
  - split; [|done]. intros g m e s s'. by apply Hb.
Qed.

Lemma broadcast_typing_rooms (fuel : nat) (g : string) (m : json) (e : option nat)
    (s s' : state) :
  outcome_state (broadcast_to_group fuel g m e s) = Some s' ->
  typing_rooms s' = typing_rooms s.
Proof. apply engine_typing_rooms. Qed.

Lemma disconnect_typing_rooms (fuel : nat) (ws : nat) (s s' : state) :
  outcome_state (disconnect fuel ws s) = Some s' -> typing_rooms s' = typing_rooms s.
Proof. apply engine_typing_rooms. Qed.

Lemma locked_then_broadcast_typing_rooms (fuel : nat) (g : string) (e : option nat)
    (body : state -> state) (ev : state -> json) (s s' : state) :
  outcome_state
    (and_then (with_lock (fun s => Done (body s)) s)
       (fun s => broadcast_to_group fuel g (ev s) e s)) = Some s' ->
  typing_rooms s' =
  if lock s then typing_rooms s else typing_rooms (body (set_lock true s)).
Proof.
  unfold with_lock. destruct (lock s); [by intros [= <-]|].
  cbn [and_then]. intros H. by apply broadcast_typing_rooms in H.
Qed.

Lemma clear_typing_typing_rooms (fuel : nat) (g u : string) (s s' : state) :
  outcome_state (clear_typing fuel g u s) = Some s' -> typing_rooms s' = typing_rooms s.
Proof.
  intros H. apply locked_then_broadcast_typing_rooms in H. rewrite H.
  destruct (lock s); [done|]. by rewrite typing_rooms_unflag.
Qed.

Lemma set_typing_typing_rooms (fuel : nat) (g u name : string) (s s' : state) :
  outcome_state (set_typing fuel g u name s) = Some s' ->
  typing_rooms s' = if lock s then typing_rooms s else typing_rooms s ∪ {[g]}.
Proof.
  intros H. apply locked_then_broadcast_typing_rooms in H. rewrite H.
  destruct (lock s); [done|]. by rewrite typing_rooms_flag.
Qed.

Lemma on_message_typing_rooms (fuel : nat) (db : database) (g u : string)
    (message : list (string * json)) (s s' : state) :
  outcome_state (on_message fuel db g u message s) = Some s' ->
  typing_rooms s' = typing_rooms s.
Proof.
  unfold on_message. intros H.
  destruct (dict_get "data" (JObj message) message); try (by injection H as <-).
  destruct (if truthy _ then _ else _); try (by injection H as <-).
  destruct (negb _); [|by injection H as <-].
  destruct (send_message _ _ _ _ _ _) as [new_msg|]; [|by injection H as <-].
  destruct (truthy new_msg); [|by injection H as <-].
  apply and_then_state in H as [(s1 & Hb & H)|Hb].
  - apply clear_typing_typing_rooms in H. rewrite H.
    unfold broadcast_message in Hb.
    eapply eq_trans; [eapply broadcast_typing_rooms; by rewrite Hb|done].
  - unfold broadcast_message in Hb.
    eapply eq_trans; [eapply broadcast_typing_rooms; by rewrite Hb|done].
Qed.

(** No call deletes an entry of the typing dictionary, and only a call
    that flags a user as typing in a room makes the entry of that room. *)
Lemma run_op_typing_rooms (fuel : nat) (o : op) (s s' : state) :
  outcome_state (run_op fuel o s) = Some s' ->
  typing_rooms s ⊆ typing_rooms s' /\
  typing_rooms s' ⊆
    typing_rooms s ∪ match flags_typing_in o with Some g => {[g]} | None => ∅ end.
Proof.
  assert (Heq : typing_rooms s' = typing_rooms s ->
                typing_rooms s ⊆ typing_rooms s' /\
                typing_rooms s' ⊆
                  typing_rooms s ∪
                  match flags_typing_in o with Some g => {[g]} | None => ∅ end)
    by (intros ->; set_solver).
  assert (Hset : forall g : string,
            typing_rooms s' = (if lock s then typing_rooms s else typing_rooms s ∪ {[g]}) ->
            typing_rooms s ⊆ typing_rooms s' /\ typing_rooms s' ⊆ typing_rooms s ∪ {[g]})
    by (intros g ->; destruct (lock s); set_solver).
  destruct o; cbn [run_op flags_typing_in]; intros H;
    try (apply Heq; eapply broadcast_typing_rooms; exact H).
  - apply Heq. unfold connect in H.
    apply locked_then_broadcast_typing_rooms in H. rewrite H. by destruct (lock s).
  - clear Heq. unfold group_chat_websocket_turn in H.
    destruct data as [[| | | | |message]|];
      try (injection H as <-; set_solver).
    destruct (is_str (dict_get "type" JNull message) "message") eqn:Hm.
    { apply on_message_typing_rooms in H. rewrite H. set_solver. }
    destruct (is_str (dict_get "type" JNull message) "typing").
    { apply Hset. by eapply set_typing_typing_rooms. }
    assert (Hr : typing_rooms s' = typing_rooms s); [|rewrite Hr; set_solver].
    destruct (is_str _ "stop_typing"); [by eapply clear_typing_typing_rooms|].
    destruct (is_str _ "read").
    { unfold on_read in H. destruct (truthy _); [|by injection H as <-].
      destruct (upsert_read_ok _ _ _); by injection H as <-. }
    destruct (is_str _ "ping"); injection H as <-; [|done].
    unfold send_text. by destruct (decide _).
  - apply Heq. by eapply disconnect_typing_rooms.
  - apply Hset. by eapply set_typing_typing_rooms.
  - apply Heq. by eapply clear_typing_typing_rooms.
  - apply Heq. unfold broadcast_mention, send_to_user in H.
    destruct (group_connections s !! group_id); injection H as <-; [|done].
    destruct (send_to_user_loop_spec (elements g) mentioned_user_id
                (mention_event message_id (utcnow_iso s)) s) as (l & -> & _). done.
  - apply Heq. by injection H as <-.
  - apply Heq. by injection H as <-.
Qed.

(** The entry of a room after a step that keeps the entries and lets the
    typing sets only lose users. *)
Lemma typing_entry_shrunk (g : string) (us : gset string) (s s' : state) :
  shrinks s s' -> typing_rooms s' = typing_rooms s ->
  typing_users s !! g = Some us ->
  exists us', typing_users s' !! g = Some us' /\ us' ⊆ us.
Proof.
  intros Hsh Hr Hus.
  assert (Hin : g ∈ typing_rooms s') by (rewrite Hr; apply elem_of_dom; by rewrite Hus).
  unfold typing_rooms in Hin. apply elem_of_dom in Hin as [us' Hus']. exists us'. split; [done|].
  pose proof (shr_typing s s' Hsh g) as Hsub. unfold typing in Hsub.
  by rewrite Hus, Hus' in Hsub.
Qed.

Lemma clear_typing_entry (fuel : nat) (g u : string) (us : gset string) (s s' : state) :
  lock s = false -> typing_users s !! g = Some us ->
  outcome_state (clear_typing fuel g u s) = Some s' ->
  exists us', typing_users s' !! g = Some us' /\ us' ⊆ us ∖ {[u]}.
Proof.
  intros Hl Hus H. unfold clear_typing, with_lock in H. rewrite Hl in H.
  cbn [and_then] in H.
  eapply typing_entry_shrunk;
    [by eapply broadcast_shrinks|by eapply broadcast_typing_rooms|].
  unfold unflag_typing. cbn. rewrite Hus. cbn. by rewrite lookup_insert_eq.
Qed.

Lemma disconnect_entry (fuel : nat) (ws : nat) (u g : string) (us : gset string)
    (s s' : state) :
  lock s = false -> connection_info s !! ws = Some (u, g) ->
  typing_users s !! g = Some us ->
  outcome_state (disconnect fuel ws s) = Some s' ->
  exists us', typing_users s' !! g = Some us' /\ us' ⊆ us ∖ {[u]}.
Proof.
  intros Hl Hi Hus H. destruct fuel as [|fuel]; [done|].
  cbn [disconnect] in H. unfold with_lock in H. rewrite Hl in H.
  cbn [connection_info set_lock] in H. rewrite Hi in H.
  assert (Hf : typing_users (forget ws u g (set_lock true s)) !! g = Some (us ∖ {[u]})).
  { rewrite forget_typing_users. cbn. rewrite Hus. by rewrite lookup_insert_eq. }
  apply and_then_state in H as [(s1 & Hb & H)|Hb].
  - injection H as <-. cbn.
    eapply typing_entry_shrunk; [| |exact Hf].
    + eapply broadcast_shrinks. by rewrite Hb.
    + eapply broadcast_typing_rooms. by rewrite Hb.
  - eapply typing_entry_shrunk; [| |exact Hf].
    + eapply broadcast_shrinks. by rewrite Hb.
    + eapply broadcast_typing_rooms. by rewrite Hb.
Qed.

(** C4, as stated, fails: after Alice, who was typing, has left room R1,
    the room has no connection and no entry in the dictionary of the
    rooms, and the typing dictionary keeps the entry of R1, whose set is
    empty.  [clear_typing] and [disconnect] discard the user from the set
    and never delete the entry. *)
Lemma typing_entry_kept_empty :
  ~ (forall s, reachable s ->
       (forall g cs, group_connections s !! g = Some cs -> cs <> ∅) /\
       (forall g us, typing_users s !! g = Some us -> us <> ∅)).
Proof.
  intros H. destruct (H typed_and_left typed_and_left_reachable) as [_ Ht].
  apply (Ht "R1" ∅); vm_compute; reflexivity.
Qed.

(** C4, amended.  In every state of the system the dictionary of the
    rooms holds no entry whose set is empty: the entry of a room is made
    by the first registration and deleted with the last connection, so a
    room without connections has no entry and no user online.  The typing
    dictionary is empty at the start; no call deletes one of its entries,
    and the entry of a room is made only by a call that flags a user as
    typing in that room ([set_typing], or the turn for a [typing] frame),
    which makes it whenever the lock is free.  [clear_typing] and
    [disconnect] take the user out of the set and keep the entry, also
    when the set becomes empty; the typing users of such a room are the
    empty list. *)
Theorem no_empty_room (s : state) (g : string) :
  reachable s ->
  (forall cs, group_connections s !! g = Some cs -> cs <> ∅) /\
  (members g s = ∅ -> group_connections s !! g = None /\ get_online_users g s = []) /\
  (forall t, typing_rooms (init t) = ∅) /\
  (forall fuel o s',
     outcome_state (run_op fuel o s) = Some s' ->
     (g ∈ typing_rooms s -> g ∈ typing_rooms s') /\
     (g ∈ typing_rooms s' -> g ∉ typing_rooms s -> flags_typing_in o = Some g)) /\
  (forall fuel u name s',
     lock s = false -> outcome_state (set_typing fuel g u name s) = Some s' ->
     g ∈ typing_rooms s') /\
  (forall fuel u us s',
     lock s = false -> typing_users s !! g = Some us ->
     outcome_state (clear_typing fuel g u s) = Some s' ->
     exists us', typing_users s' !! g = Some us' /\ us' ⊆ us ∖ {[u]}) /\
  (forall fuel ws u us s',
     lock s = false -> connection_info s !! ws = Some (u, g) ->
     typing_users s !! g = Some us ->
     outcome_state (disconnect fuel ws s) = Some s' ->
     exists us', typing_users s' !! g = Some us' /\ us' ⊆ us ∖ {[u]}) /\
  (forall us, typing_users s !! g = Some us -> us = ∅ -> get_typing_users g s = []).
Proof.
  intros Hs. apply reachable_wf in Hs.
  split; [|split; [|split; [|split; [|split; [|split; [|split]]]]]].
  - intros cs. apply (wf_nonempty s Hs).
  - unfold members, get_online_users. intros He.
    destruct (group_connections s !! g) as [cs|] eqn:Hcs; [|done].
    simpl in He. by destruct (wf_nonempty s Hs g cs Hcs).
  - intros t. apply dom_empty_L.
  - intros fuel o s' H. apply run_op_typing_rooms in H as [H1 H2]. split.
    + apply H1.
    + intros Hin Hnot. specialize (H2 g Hin).
      destruct (flags_typing_in o) as [g'|]; set_solver.
  - intros fuel u name s' Hl H. apply set_typing_typing_rooms in H.
    rewrite H, Hl. set_solver.
  - intros fuel u us s'. apply clear_typing_entry.
  - intros fuel ws u us s'. apply disconnect_entry.
  - intros us Hus ->. unfold get_typing_users. rewrite Hus. simpl.
    apply elements_empty.
Qed.

Lemma no_empty_room_witness :
  group_connections typed_and_left !! "R1" = None /\
  get_online_users "R1" typed_and_left = [] /\
  typing_users typed_and_left !! "R1" = Some ∅ /\
  get_typing_users "R1" typed_and_left = [] /\
  exists us',
    typing_users (final (clear_typing 4 "R1" "alice" alice_typing)) !! "R1" = Some us' /\
    us' ⊆ {["alice"]} ∖ {["alice"]}.
Proof.
  destruct (no_empty_room typed_and_left "R1" typed_and_left_reachable)
    as (_ & H2 & _ & _ & _ & _ & _ & H3).
  destruct (no_empty_room alice_typing "R1" alice_typing_reachable)
    as (_ & _ & _ & _ & _ & H4 & _).
  assert (Ht : typing_users typed_and_left !! "R1" = Some ∅)
    by (vm_compute; reflexivity).
  destruct H2 as [H2 H2']; [vm_compute; reflexivity|].
  split; [exact H2|]. split; [exact H2'|]. split; [exact Ht|].
  split; [exact (H3 ∅ Ht eq_refl)|].
  apply (H4 4 "alice" {["alice"]}); vm_compute; reflexivity.
Defined.

(** C5, as stated, fails: with two sessions of Alice in room R1,
    [get_online_users] lists her twice. *)
Lemma online_users_repeat :
  ~ (forall s g, reachable s -> NoDup (get_online_users g s)).
Proof.
  intros H. specialize (H alice_twice "R1" alice_twice_reachable).
  assert (He : get_online_users "R1" alice_twice = ["alice"; "alice"])
    by (vm_compute; reflexivity).
  rewrite He in H. apply NoDup_cons in H as [H _]. apply H. by left.
Qed.

(** C5, amended.  For every room, [get_online_users] returns the user
    identifier of each connection in the membership set of the room, one
    entry for each connection: a user with several live connections in
    the room occurs once for each of them.  The result is empty for an
    unknown room. *)
Theorem online_users_per_connection (s : state) (g : string) :
  reachable s ->
  Forall2 (fun c u => connection_info s !! c = Some (u, g))
    (elements (members g s)) (get_online_users g s) /\
  (group_connections s !! g = None -> get_online_users g s = []).
Proof.
  intros Hs. apply reachable_wf in Hs. unfold get_online_users, members. split.
  - destruct (group_connections s !! g) as [cs|] eqn:Hcs; simpl.
    + assert (H : forall c, c ∈ elements cs ->
                            exists u, connection_info s !! c = Some (u, g)).
      { intros c Hc. apply elem_of_elements in Hc. by eapply (wf_info s Hs). }
      induction (elements cs) as [|c l IH]; [constructor|].
      destruct (H c) as [u Hu]; [by left|].
      simpl. rewrite Hu. simpl. constructor; [done|].
      apply IH. intros c' Hc'. apply H. by right.
    + rewrite elements_empty. constructor.
  - by intros ->.
Qed.

Lemma online_users_per_connection_witness :
  Forall2 (fun c u => connection_info alice_twice !! c = Some (u, "R1"))
    (elements (members "R1" alice_twice)) (get_online_users "R1" alice_twice) /\
  length (get_online_users "R1" alice_twice) = 2.
Proof.
  split; [|vm_compute; reflexivity].
  exact (proj1 (online_users_per_connection alice_twice "R1" alice_twice_reachable)).
Defined.

(** C2.  A second [disconnect] of a connection, made after a first one
    has returned, finds no record for the connection and changes nothing:
    it returns in the state it was called in, so the registry, the typing
    sets and the wire are the same. *)
Theorem disconnect_twice (fuel fuel' : nat) (ws : nat) (s s1 : state) :
  disconnect fuel ws s = Done s1 ->
  connection_info s1 !! ws = None /\ disconnect (S fuel') ws s1 = Done s1.
Proof.
  intros H. apply disconnect_done in H as [Hi Hl].
  split; [done|]. by apply disconnect_unknown.
Qed.

Lemma disconnect_twice_witness :
  disconnect 4 2 three_in_room = Done (final (disconnect 4 2 three_in_room)) /\
  connection_info (final (disconnect 4 2 three_in_room)) !! 2 = None /\
  disconnect 4 2 (final (disconnect 4 2 three_in_room)) =
  Done (final (disconnect 4 2 three_in_room)).
Proof.
  assert (H : disconnect 4 2 three_in_room = Done (final (disconnect 4 2 three_in_room)))
    by (vm_compute; reflexivity).
  split; [exact H|].
  exact (disconnect_twice 4 3 2 three_in_room _ H).
Defined.

(** ** The claims on the broadcast *)

Lemma cleanup_wire (P : json -> Prop) (n : nat) (dead : list nat) (s : state) :
  (forall u t, P (user_offline_event u (isoformat t))) ->
  exists s' l, outcome_state (cleanup (disconnect (3 + n)) dead s) = Some s' /\
               wire s' = wire s ++ l /\ Forall (fun r : send_record => P r.1.2) l.
Proof.
  intros HP.
  destruct (cleanup_total (disconnect (3 + n)) dead s) as [s' Hs'].
  { intros c s0. apply disconnect_total. }
  exists s'.
  assert (exists l, wire s' = wire s ++ l /\ Forall (fun r : send_record => P r.1.2) l)
    as (l & Hl & HPl); [|by exists l].
  apply (cleanup_rel
           (fun a b => exists l, wire b = wire a ++ l /\
                                 Forall (fun r : send_record => P r.1.2) l))
    with (disc := disconnect (3 + n)) (dead := dead); [| | |done].
  - intros a. exists []. by rewrite app_nil_r.
  - intros a b c (l1 & H1 & HP1) (l2 & H2 & HP2). exists (l1 ++ l2).
    rewrite H2, H1, app_assoc. split; [done|]. by apply Forall_app.
  - apply (disconnect_rel P); auto.
    + intros a. exists []. by rewrite app_nil_r.
    + intros a b c (l1 & H1 & HP1) (l2 & H2 & HP2). exists (l1 ++ l2).
      rewrite H2, H1, app_assoc. split; [done|]. by apply Forall_app.
    + intros b a. exists []. by rewrite app_nil_r.
    + intros a l Hl. by exists l.
    + intros a ws u g _. exists []. destruct (forget_env ws u g a) as (_ & _ & -> & _).
      by rewrite app_nil_r.
Qed.

(** Every broadcast, with four units of fuel or more, ends and has sent
    the frame to each connection of the room but the excluded one. *)
Lemma broadcast_fans_out (n : nat) (g : string) (m : json) (e : option nat) (s : state) :
  fanned_out e g m s (broadcast_to_group (4 + n) g m e s).
Proof.
  change (4 + n) with (S (3 + n)). cbn [broadcast_to_group]. unfold fanned_out, members.
  destruct (group_connections s !! g) as [conns|]; simpl.
  - rewrite broadcast_loop_spec.
    destruct (cleanup_wire is_user_offline n
                (filter (fun c => c ∈ closed s) (targets e (elements conns)))
                (set_wire (wire s ++ attempts m (closed s) (targets e (elements conns))) s))
      as (s' & l & Hs' & Hw & Hl).
    { intros u t. by exists u, t. }
    exists s', (attempts m (closed s) (targets e (elements conns))), l.
    simpl in Hw.
    split; [done|]. split; [by rewrite Hw, <- app_assoc|]. split; [|split; [|done]].
    + unfold attempts. apply NoDup_fmap_2.
      * intros c1 c2 H. by injection H.
      * apply NoDup_filter, NoDup_elements.
    + intros rec. unfold attempts, targets. rewrite list_elem_of_fmap. split.
      * intros (c' & -> & Hc'). apply list_elem_of_filter in Hc' as [He Hc'].
        exists c'. split; [done|]. split; [by apply elem_of_elements|done].
      * intros (c' & -> & Hc' & He). exists c'. split; [done|].
        apply list_elem_of_filter. split; [done|by apply elem_of_elements].
  - exists s, [], []. rewrite app_nil_r. split; [done|]. split; [done|].
    split; [constructor|]. split; [|constructor].
    intros rec. split; [by intros ?%elem_of_nil|]. intros (c' & _ & Hc' & _).
    by apply elem_of_empty in Hc'.
Qed.

Lemma register_env (ws : nat) (g u : string) (s : state) :
  lock (register ws g u s) = lock s /\ closed (register ws g u s) = closed s /\
  wire (register ws g u s) = wire s /\ clock (register ws g u s) = clock s /\
  typing_users (register ws g u s) = typing_users s /\
  db_log (register ws g u s) = db_log s.
Proof. done. Qed.

Lemma connect_unlocked (fuel : nat) (ws : nat) (g u : string) (s : state) :
  lock s = false ->
  connect fuel ws g u s =
  broadcast_to_group fuel g (user_online_event u (utcnow_iso s)) (Some ws)
    (register ws g u s).
Proof.
  intros Hl. unfold connect, with_lock. rewrite Hl. simpl.
  assert (set_lock false (register ws g u (set_lock true s)) = register ws g u s) as ->.
  { destruct s. simpl in Hl. by subst. }
  done.
Qed.

(** C6.  A broadcast with an excluded connection sends the event to
    every connection of the room but the excluded one.  After the
    registration of [c] in the room [r] for the user [u], [c] is a member
    of [r], and a broadcast of [e] to [r] that leaves [c] out ends having
    made one send of [e] to each other connection of [r] and none to [c];
    each send is taken by the transport unless the transport is broken,
    and whatever follows on the wire is a [user_offline] frame of the
    cleanup.  The [user_online] event that [connect] broadcasts on the
    registration is sent in this way, the new connection left out. *)
Theorem broadcast_skips_excluded (n : nat) (c : nat) (r u : string) (e : json)
    (s : state) :
  lock s = false ->
  c ∈ members r (register c r u s) /\
  fanned_out (Some c) r e (register c r u s)
    (broadcast_to_group (4 + n) r e (Some c) (register c r u s)) /\
  fanned_out (Some c) r (user_online_event u (utcnow_iso s)) (register c r u s)
    (connect (4 + n) c r u s).
Proof.
  intros Hl. split; [|split].
  - unfold members, register. simpl. rewrite lookup_insert_eq. simpl.
    apply elem_of_union_r. by apply elem_of_singleton.
  - apply broadcast_fans_out.
  - rewrite connect_unlocked by done. apply broadcast_fans_out.
Qed.

Lemma broadcast_skips_excluded_witness :
  4 ∈ members "R1" (register 4 "R1" "dave" two_dropped) /\
  fanned_out (Some 4) "R1" (JStr "hello") (register 4 "R1" "dave" two_dropped)
    (broadcast_to_group 4 "R1" (JStr "hello") (Some 4)
       (register 4 "R1" "dave" two_dropped)) /\
  fanned_out (Some 4) "R1" (user_online_event "dave" (utcnow_iso two_dropped))
    (register 4 "R1" "dave" two_dropped)
    (connect 4 4 "R1" "dave" two_dropped).
Proof.
  apply (broadcast_skips_excluded 0 4 "R1" "dave" (JStr "hello") two_dropped).
  vm_compute. reflexivity.
Defined.

(** ** The claims on the inbound frames *)

(** C10.  An inbound frame that parses as JSON and whose [type] is none
    of [message], [typing], [stop_typing], [read] and [ping] (or is
    missing, or that is not an object at all) is ignored: the turn of the
    loop returns in the state it started in, so neither the registry, nor
    the typing sets, nor the wire, nor the data store has changed, and
    the loop goes on. *)
Theorem unknown_kind_ignored (fuel : nat) (db : database) (ws : nat)
    (g u name : string) (frame : json) (s : state) :
  (forall message k,
     frame = JObj message ->
     k ∈ ["message"; "typing"; "stop_typing"; "read"; "ping"] ->
     dict_get "type" JNull message <> JStr k) ->
  group_chat_websocket_turn fuel db ws g u name (Some frame) s = Done s.
Proof.
  intros H. unfold group_chat_websocket_turn.
  destruct frame as [| | | | |message]; try done.
  assert (Hk : forall k, k ∈ ["message"; "typing"; "stop_typing"; "read"; "ping"] ->
                         is_str (dict_get "type" JNull message) k = false).
  { intros k Hk. specialize (H message k eq_refl Hk).
    destruct (dict_get "type" JNull message) as [| | |t| |]; simpl; try done.
    destruct (String.eqb_spec t k); [congruence|done]. }
  rewrite !Hk; [done|..]; repeat constructor.
Qed.

Lemma unknown_kind_ignored_witness :
  group_chat_websocket_turn 4 accepting_db 1 "R1" "alice" "Alice"
    (Some (JObj [("type", JStr "subscribe"); ("content", JStr "hello")]))
    three_in_room = Done three_in_room.
Proof.
  apply unknown_kind_ignored. intros message k [= <-] Hk Heq. vm_compute in Heq.
  injection Heq as <-.
  repeat (apply elem_of_cons in Hk as [Hk|Hk]; [discriminate|]).
  by apply elem_of_nil in Hk.
Defined.

(** ** The claim on the outbound frames *)

Lemma wire_emitted (s : state) :
  reachable s -> Forall (fun r : send_record => emitted r.1.2) (wire s).
Proof.
  induction 1 as [t|s s' o n _ IH Hal Hs']; [constructor|].
  revert IH.
  apply (run_op_rel
           (fun a b => Forall (fun r : send_record => emitted r.1.2) (wire a) ->
                       Forall (fun r : send_record => emitted r.1.2) (wire b)))
    with (fuel := 4 + n) (o := o); auto.
  - intros a l Hl Ha. simpl. by apply Forall_app.
  - intros a ws u g _. by destruct (forget_env ws u g a) as (_ & _ & -> & _).
Qed.

(** C9, as stated, fails: the time stamp of a frame is a text, the ISO
    8601 form of the clock, and not a number of milliseconds.  Here the
    [user_online] frame sent to Alice when Bob joined room R1. *)
Lemma timestamp_is_text :
  ~ (forall s c f ok, reachable s -> (c, f, ok) ∈ wire s ->
       f = pong \/
       exists kind ms, frame_field "type" f = Some (JStr kind) /\
                       frame_field "timestamp" f = Some (JNum ms)).
Proof.
  intros H.
  destruct (H three_in_room 1
              (user_online_event "bob" "2024-05-07T09:03:00.001500") true
              three_in_room_reachable) as [Hp|(kind & ms & _ & Hts)].
  - vm_compute. apply list_elem_of_here.
  - discriminate.
  - vm_compute in Hts. discriminate.
Qed.

(** C9, amended.  Every frame the system has put on a transport, the
    [pong] reply apart, carries its kind as a text in the field [type]
    and a time stamp made by the server, which is the ISO 8601 text of a
    reading of the clock; the time stamp is in the field [timestamp],
    except for the kind [message_edited], which has no field [timestamp]
    and carries it in the field [edited_at]. *)
Theorem frames_tagged (s : state) (c : nat) (f : json) (ok : bool) :
  reachable s -> (c, f, ok) ∈ wire s ->
  f = pong \/
  exists kind t,
    frame_field "type" f = Some (JStr kind) /\
    (frame_field "timestamp" f = Some (JStr (isoformat t)) \/
     (kind = "message_edited" /\ frame_field "timestamp" f = None /\
      frame_field "edited_at" f = Some (JStr (isoformat t)))).
Proof.
  intros Hs Hin. apply wire_emitted in Hs.
  rewrite Forall_forall in Hs. destruct (Hs _ Hin) as [Hout|Hp]; [|by left].
  right. simpl in Hout.
  destruct Hout; eexists _, t; (split; [reflexivity|]);
    first [left; reflexivity | right; by repeat split].
Qed.

Lemma frames_tagged_witness :
  user_online_event "bob" "2024-05-07T09:03:00.001500" = pong \/
  exists kind t,
    frame_field "type" (user_online_event "bob" "2024-05-07T09:03:00.001500")
      = Some (JStr kind) /\
    (frame_field "timestamp" (user_online_event "bob" "2024-05-07T09:03:00.001500")
       = Some (JStr (isoformat t)) \/
     (kind = "message_edited" /\
      frame_field "timestamp" (user_online_event "bob" "2024-05-07T09:03:00.001500")
        = None /\
      frame_field "edited_at" (user_online_event "bob" "2024-05-07T09:03:00.001500")
        = Some (JStr (isoformat t)))).
Proof.
  apply (frames_tagged three_in_room 1 _ true three_in_room_reachable).
  vm_compute. apply list_elem_of_here.
Defined.

(** ** The claims on the typing flags *)

Lemma targets_None (l : list nat) : targets None l = l.
Proof.
  unfold targets. induction l as [|c l IH]; [done|].
  rewrite filter_cons, decide_True by done. by rewrite IH.
Qed.

Lemma cleanup_done_lock (fuel : nat) (dead : list nat) (s s' : state) :
  cleanup (disconnect fuel) dead s = Done s' -> lock s' = lock s.
Proof.
  revert s. induction dead as [|c dead IH]; intros s H.
  - by injection H as <-.
  - cbn [cleanup] in H. apply and_then_done in H as (s1 & Hd & H).
    rewrite (IH _ H).
    assert (lock s = false) as ->.
    { destruct (lock s) eqn:Hl; [|done].
      destruct fuel as [|fuel]; [done|]. by rewrite disconnect_locked in Hd. }
    by apply disconnect_done in Hd as [_ ->].
Qed.

(** A broadcast that returns leaves the lock as it found it. *)
Lemma broadcast_done_lock (fuel : nat) (g : string) (m : json) (e : option nat)
    (s s' : state) :
  broadcast_to_group fuel g m e s = Done s' -> lock s' = lock s.
Proof.
  destruct fuel as [|fuel]; [done|]. cbn [broadcast_to_group].
  destruct (group_connections s !! g) as [conns|]; [|by intros [= <-]].
  rewrite broadcast_loop_spec. intros H. by apply cleanup_done_lock in H.
Qed.

Lemma with_lock_done (f : state -> state) (s s' : state) :
  with_lock (fun s => Done (f s)) s = Done s' ->
  lock s = false /\ s' = set_lock false (f (set_lock true s)).
Proof.
  unfold with_lock. destruct (lock s); [done|]. simpl. by intros [= <-].
Qed.

Lemma unflag_typing_spec (g u : string) (s : state) :
  typing g (unflag_typing g u s) = typing g s ∖ {[u]} /\
  group_connections (unflag_typing g u s) = group_connections s /\
  connection_info (unflag_typing g u s) = connection_info s /\
  lock (unflag_typing g u s) = lock s.
Proof.
  unfold unflag_typing, typing.
  destruct (typing_users s !! g) as [us|] eqn:Hus; simpl.
  - by rewrite lookup_insert_eq.
  - rewrite Hus. simpl. split; [|done]. set_solver.
Qed.

Lemma unflag_typing_absent (g u : string) (s : state) :
  u ∉ typing g s -> unflag_typing g u s = s.
Proof.
  unfold unflag_typing, typing. intros Hu.
  destruct (typing_users s !! g) as [us|] eqn:Hus; [|done]. simpl in Hu.
  assert (us ∖ {[u]} = us) as -> by set_solver.
  rewrite insert_id by done. by destruct s.
Qed.

(** C8, as stated, fails: the second [clear_typing] is not without
    effect.  With Bob alone in room R1, after Alice was flagged and
    unflagged, a second [clear_typing] for Alice sends Bob one more
    [typing_stop] frame. *)
Lemma second_clear_typing_broadcasts :
  ~ (forall r u name s s1 s2, reachable s ->
       set_typing 4 r u name s = Done s1 ->
       clear_typing 4 r u s1 = Done s2 ->
       (u ∉ get_typing_users r s2) /\ clear_typing 4 r u s2 = Done s2).
Proof.
  intros H.
  destruct (H "R1" "alice" "Alice" bob_alone
              (final (set_typing 4 "R1" "alice" "Alice" bob_alone))
              (final (clear_typing 4 "R1" "alice"
                        (final (set_typing 4 "R1" "alice" "Alice" bob_alone))))
              bob_alone_reachable) as [_ H2]; try (vm_compute; reflexivity).
  apply (f_equal (fun o => length (wire (final o)))) in H2.
  vm_compute in H2. discriminate.
Qed.

(** C8, amended.  When [set_typing] for the user [u] in the room [r] and
    then [clear_typing] for [u] in [r] have returned, [u] is not among
    the typing users of [r].  A second [clear_typing] for [u] in [r] then
    returns with the typing sets and the registry as they were; it is
    not without effect: it sends a [typing_stop] frame for [u] once more
    to every connection of the room, and all these sends go through. *)
Theorem clear_typing_twice (fuel1 fuel2 fuel3 : nat) (r u name : string)
    (s s1 s2 : state) :
  reachable s ->
  set_typing fuel1 r u name s = Done s1 ->
  clear_typing fuel2 r u s1 = Done s2 ->
  (u ∉ get_typing_users r s2) /\
  clear_typing (S fuel3) r u s2 =
  Done (set_wire
          (wire s2 ++
           ((fun c => (c, typing_stop_event u (utcnow_iso s2), true))
              <$> elements (members r s2))) s2).
Proof.
  intros Hs H1 H2.
  assert (Hwf1 : wf s1).
  { apply reachable_wf in Hs.
    apply (run_op_wf fuel1 (OpSetTyping r u name) s s1); [done| |done].
    simpl. by rewrite H1. }
  unfold clear_typing in H2. apply and_then_done in H2 as (s1' & Hl & Hb).
  apply with_lock_done in Hl as [Hl ->].
  destruct (unflag_typing_spec r u (set_lock true s1)) as (Ht & Hg & Hi & Hk).
  set (sa := set_lock false (unflag_typing r u (set_lock true s1))) in *.
  assert (Hwfa : wf sa).
  { apply (wf_ext s1); [| |done]; subst sa; simpl; by rewrite ?Hg, ?Hi. }
  assert (Hsh : shrinks sa s2) by (eapply broadcast_shrinks; by rewrite Hb).
  assert (Hu : u ∉ typing r s2).
  { intros Hu. apply (shr_typing _ _ Hsh) in Hu.
    change (typing r sa) with (typing r (unflag_typing r u (set_lock true s1))) in Hu.
    rewrite Ht in Hu. set_solver. }
  split.
  { unfold get_typing_users. fold (typing r s2). by rewrite elem_of_elements. }
  assert (Hl2 : lock s2 = false) by (by rewrite (broadcast_done_lock _ _ _ _ _ _ Hb)).
  unfold clear_typing, with_lock. rewrite Hl2.
  replace (unflag_typing r u (set_lock true s2)) with (set_lock true s2)
    by (symmetry; by apply unflag_typing_absent).
  cbn [and_then]. rewrite set_lock_twice, <- Hl2, set_lock_same.
  rewrite broadcast_all_open, targets_None; [done|].
  intros c Hc _. by eapply broadcast_done_open.
Qed.

Lemma clear_typing_twice_witness :
  ("alice" ∉ get_typing_users "R1"
     (final (clear_typing 4 "R1" "alice"
               (final (set_typing 4 "R1" "alice" "Alice" bob_alone))))) /\
  wire (final (clear_typing 4 "R1" "alice"
                 (final (clear_typing 4 "R1" "alice"
                           (final (set_typing 4 "R1" "alice" "Alice" bob_alone))))))
  = wire (final (clear_typing 4 "R1" "alice"
                   (final (set_typing 4 "R1" "alice" "Alice" bob_alone))))
    ++ [(1, typing_stop_event "alice" "2024-05-07T09:03:00.001500", true)].
Proof.
  destruct (clear_typing_twice 4 4 3 "R1" "alice" "Alice" bob_alone
              (final (set_typing 4 "R1" "alice" "Alice" bob_alone))
              (final (clear_typing 4 "R1" "alice"
                        (final (set_typing 4 "R1" "alice" "Alice" bob_alone))))
              bob_alone_reachable) as [Hu H3]; try (vm_compute; reflexivity).
  split; [exact Hu|]. rewrite H3. vm_compute. reflexivity.
Defined.

(** ** Four units of fuel are as good as more *)

Lemma and_then_ext (o : outcome) (k1 k2 : state -> outcome) :
  (forall s, k1 s = k2 s) -> and_then o k1 = and_then o k2.
Proof. intros H. destruct o; simpl; auto. Qed.

Lemma clear_typing_fuel (n : nat) (g u : string) (s : state) :
  clear_typing (4 + n) g u s = clear_typing 4 g u s.
Proof. unfold clear_typing. apply and_then_ext. intros. apply broadcast_to_group_fuel. Qed.

Lemma set_typing_fuel (n : nat) (g u name : string) (s : state) :
  set_typing (4 + n) g u name s = set_typing 4 g u name s.
Proof. unfold set_typing. apply and_then_ext. intros. apply broadcast_to_group_fuel. Qed.

Lemma on_message_fuel (n : nat) (db : database) (g u : string)
    (message : list (string * json)) (s : state) :
  on_message (4 + n) db g u message s = on_message 4 db g u message s.
Proof.
  unfold on_message. destruct (dict_get "data" _ _); try done.
  destruct (if truthy _ then _ else _); try done.
  destruct (negb _); [|done].
  destruct (send_message _ _ _ _ _ _) as [new_msg|]; [|done].
  destruct (truthy new_msg); [|done].
  unfold broadcast_message. rewrite broadcast_to_group_fuel.
  apply and_then_ext. intros. apply clear_typing_fuel.
Qed.

Lemma group_chat_websocket_turn_fuel (n : nat) (db : database) (ws : nat)
    (g u name : string) (data : option json) (s : state) :
  group_chat_websocket_turn (4 + n) db ws g u name data s =
  group_chat_websocket_turn 4 db ws g u name data s.
Proof.
  unfold group_chat_websocket_turn. destruct data as [[| | | | |message]|]; try done.
  rewrite on_message_fuel, set_typing_fuel, clear_typing_fuel. done.
Qed.

Lemma run_op_fuel (n : nat) (o : op) (s : state) :
  run_op (4 + n) o s = run_op 4 o s.
Proof.
  destruct o; cbn [run_op];
    try (unfold broadcast_message, broadcast_message_edit, broadcast_message_delete,
           broadcast_member_joined, broadcast_member_left, broadcast_reaction,
           broadcast_pin, broadcast_poll, broadcast_poll_vote, broadcast_read;
         apply broadcast_to_group_fuel);
    try done.
  - unfold connect. apply and_then_ext. intros. apply broadcast_to_group_fuel.
  - apply group_chat_websocket_turn_fuel.
  - change (4 + n) with (3 + S n). rewrite disconnect_fuel.
    symmetry. apply (disconnect_fuel 1).
  - apply set_typing_fuel.
  - apply clear_typing_fuel.
Qed.

(** ** The cleanup after a send that raised *)

Lemma forget_members (ws : nat) (u g : string) (s : state) :
  members g (forget ws u g s) = members g s ∖ {[ws]}.
Proof.
  unfold members. rewrite forget_group_connections.
  destruct (group_connections s !! g) as [cs|] eqn:Hcs; simpl.
  - destruct (decide (cs ∖ {[ws]} = ∅)) as [He|He].
    + by rewrite lookup_delete_eq, He.
    + by rewrite lookup_insert_eq.
  - rewrite Hcs. simpl. set_solver.
Qed.

(** The disconnect of a registered connection, the lock being free: the
    record is dropped, a [user_offline] frame is sent to the connections
    left in the room, and the call returns when all these sends went
    through; when one raised, it waits for ever on the lock it holds. *)
Lemma disconnect_known (n : nat) (ws : nat) (u g : string) (s : state) :
  lock s = false -> connection_info s !! ws = Some (u, g) ->
  disconnect (3 + n) ws s =
  let s1 := forget ws u g (set_lock true s) in
  let s2 :=
    set_wire (wire s1 ++ attempts (user_offline_event u (utcnow_iso s)) (closed s)
                           (elements (members g s1))) s1 in
  match filter (fun c => c ∈ closed s) (elements (members g s1)) with
  | [] => Done (set_lock false s2)
  | _ => Hang s2
  end.
Proof.
  intros Hl Hi. rewrite disconnect_fuel. cbn [disconnect]. unfold with_lock.
  rewrite Hl. change (connection_info (set_lock true s)) with (connection_info s).
  rewrite Hi. rewrite broadcast_to_group_locked by (by rewrite forget_lock).
  destruct (forget_env ws u g (set_lock true s)) as (_ & Hc & _ & Hk & _).
  unfold utcnow_iso, members. rewrite Hc, Hk. simpl closed. simpl clock.
  destruct (group_connections (forget ws u g (set_lock true s)) !! g) as [cs|]; simpl.
  - rewrite targets_None. by destruct (filter _ _).
  - rewrite elements_empty. simpl. by rewrite app_nil_r, set_wire_same.
Qed.

(** The teardown of a session, when another connection of the room has
    a broken transport: the [user_offline] frame is sent while the lock
    is held, the send to the broken transport raises, and the cleanup of
    that broadcast waits for ever on the lock. *)
Lemma disconnect_hangs_on_failure (n : nat) (ws c : nat) (u g : string) (s : state) :
  lock s = false -> connection_info s !! ws = Some (u, g) ->
  c ∈ members g s -> c <> ws -> c ∈ closed s ->
  exists s', disconnect (3 + n) ws s = Hang s' /\ lock s' = true /\
             c ∈ members g s' /\ connection_info s' !! ws = None.
Proof.
  intros Hl Hu Hc Hne Hcl. rewrite (disconnect_known n ws u g) by done.
  cbv zeta. rewrite forget_members.
  assert (Hrest : c ∈ filter (fun c => c ∈ closed s)
                             (elements (members g (set_lock true s) ∖ {[ws]}))).
  { apply list_elem_of_filter. split; [done|]. apply elem_of_elements.
    apply elem_of_difference. split; [done|]. by rewrite elem_of_singleton. }
  destruct (filter _ (elements _)) as [|d rest]; [by apply elem_of_nil in Hrest|].
  eexists. split; [reflexivity|].
  set (s2 := forget ws u g (set_lock true s)).
  change (lock s2 = true /\ c ∈ members g s2 /\ connection_info s2 !! ws = None).
  unfold s2. rewrite forget_lock, forget_members, forget_connection_info.
  split; [done|]. split; [|apply lookup_delete_eq].
  apply elem_of_difference. split; [done|]. by rewrite elem_of_singleton.
Qed.

(** C1 fails on the code when two sends of one broadcast raise.  In a
    state of the system where the lock is free, let two connections of
    the room have a broken transport, none of them the excluded one.  A
    broadcast to the room then never returns: the cleanup removes the
    first connection whose send raised, announces it while holding the
    lock, gets a second failure in that announcement, and waits for ever
    on the lock it holds.  In the state it is stuck in, the lock is held
    and a connection whose send raised is still registered in the room. *)
Theorem broadcast_two_failures_hang (n : nat) (g : string) (m : json)
    (e : option nat) (s : state) (c1 c2 : nat) :
  reachable s -> lock s = false ->
  c1 ∈ members g s -> c2 ∈ members g s -> c1 <> c2 ->
  Some c1 <> e -> Some c2 <> e -> c1 ∈ closed s -> c2 ∈ closed s ->
  exists s' c,
    broadcast_to_group (4 + n) g m e s = Hang s' /\
    lock s' = true /\
    c ∈ closed s' /\ Some c <> e /\
    c ∈ members g s' /\ is_Some (connection_info s' !! c).
Proof.
  intros Hs Hl H1 H2 Hne He1 He2 Hc1 Hc2. apply reachable_wf in Hs.
  pose proof H1 as H1'. apply members_spec in H1' as (cs & Hcs & Hin1).
  assert (Hm : members g s = cs) by (unfold members; by rewrite Hcs).
  rewrite Hm in H2.
  change (4 + n) with (S (3 + n)). rewrite (broadcast_to_group_unfold _ _ _ _ _ cs Hcs).
  assert (Hdead : forall c, c ∈ cs -> Some c <> e -> c ∈ closed s ->
            c ∈ filter (fun c => c ∈ closed s) (targets e (elements cs))).
  { intros c Hc Hce Hcc. apply list_elem_of_filter. split; [done|].
    apply list_elem_of_filter. split; [done|]. by apply elem_of_elements. }
  pose proof (Hdead c1 Hin1 He1 Hc1) as Hd1.
  pose proof (Hdead c2 H2 He2 Hc2) as Hd2.
  destruct (filter (fun c => c ∈ closed s) (targets e (elements cs)))
    as [|d rest] eqn:Hf; [by apply elem_of_nil in Hd1|].
  assert (Hd : d ∈ cs /\ Some d <> e /\ d ∈ closed s).
  { assert (d ∈ filter (fun c => c ∈ closed s) (targets e (elements cs))) as Hd
      by (rewrite Hf; by left).
    apply list_elem_of_filter in Hd as [Hdc Hd].
    apply list_elem_of_filter in Hd as [Hde Hd]. by apply elem_of_elements in Hd. }
  destruct Hd as (Hdin & Hde & Hdc).
  assert (exists d', d' <> d /\ d' ∈ cs /\ Some d' <> e /\ d' ∈ closed s)
    as (d' & Hd'ne & Hd'in & Hd'e & Hd'c).
  { destruct (decide (d = c1)) as [->|Hd1'].
    - exists c2. split; [done|]. done.
    - exists c1. split; [done|]. done. }
  destruct (wf_info s Hs g cs d Hcs Hdin) as [u Hu].
  destruct (wf_info s Hs g cs d' Hcs Hd'in) as [u' Hu'].
  remember (set_wire (wire s ++ attempts m (closed s) (targets e (elements cs))) s)
    as s1 eqn:Hs1.
  assert (Hl1 : lock s1 = false) by (by subst s1).
  assert (Hc1' : closed s1 = closed s) by (by subst s1).
  assert (Hi1 : connection_info s1 = connection_info s) by (by subst s1).
  assert (Hm1 : members g (set_lock true s1) = cs) by (by subst s1).
  clear Hs1.
  cbn [cleanup]. rewrite (disconnect_known n d u g) by (by rewrite ?Hi1).
  cbv zeta. rewrite forget_members, Hm1, Hc1'.
  assert (Hrest : d' ∈ filter (fun c => c ∈ closed s) (elements (cs ∖ {[d]}))).
  { apply list_elem_of_filter. split; [done|]. apply elem_of_elements.
    apply elem_of_difference. split; [done|]. by rewrite elem_of_singleton. }
  destruct (filter _ (elements _)) as [|d2 rest2]; [by apply elem_of_nil in Hrest|].
  cbn [and_then]. eexists _, d'. split; [reflexivity|].
  set (s2 := forget d u g (set_lock true s1)).
  change (lock s2 = true /\ d' ∈ closed s2 /\ Some d' <> e /\
          d' ∈ members g s2 /\ is_Some (connection_info s2 !! d')).
  destruct (forget_env d u g (set_lock true s1)) as (Hfl & Hfc & _).
  unfold s2. rewrite Hfl, Hfc, forget_members, forget_connection_info, Hm1.
  simpl. rewrite Hc1', Hi1, lookup_delete_ne, Hu' by done.
  split; [done|]. split; [done|]. split; [done|]. split; [|by eexists].
  apply elem_of_difference. split; [done|]. by rewrite elem_of_singleton.
Qed.

Lemma broadcast_two_failures_hang_witness :
  exists s' c,
    broadcast_to_group 4 "R1" (new_message_event (JStr "hello") (utcnow_iso two_dropped))
      None two_dropped = Hang s' /\
    lock s' = true /\
    c ∈ closed s' /\ Some c <> None /\
    c ∈ members "R1" s' /\ is_Some (connection_info s' !! c).
Proof.
  apply (broadcast_two_failures_hang 0 "R1" _ None two_dropped 2 3);
    [apply two_dropped_reachable|vm_compute; reflexivity..|done|done|done|
     vm_compute; reflexivity|vm_compute; reflexivity].
Defined.

(** The same broadcast, evaluated: Bob and Carol have dropped; the call
    hangs with the lock held, Carol still registered in room R1, and no
    [user_offline] frame about Carol on the wire.  (Which of the two is
    left registered follows the order of the iteration over the set.) *)
Lemma broadcast_two_failures_evaluated (n : nat) :
  exists s',
    broadcast_message (4 + n) "R1" (JStr "hello") two_dropped = Hang s' /\
    lock s' = true /\
    connection_info s' !! 2 = None /\
    connection_info s' !! 3 = Some ("carol", "R1") /\
    3 ∈ members "R1" s' /\
    length (sends_about "user_offline" "bob" s') = 2 /\
    sends_about "user_offline" "carol" s' = [].
Proof.
  unfold broadcast_message. rewrite broadcast_to_group_fuel.
  eexists. split; [vm_compute; reflexivity|]. vm_compute. by repeat split.
Qed.

Lemma filter_only (P : nat -> Prop) `{!forall x, Decision (P x)} (l : list nat) (c : nat) :
  NoDup l -> c ∈ l -> P c -> (forall x, x ∈ l -> x <> c -> ~ P x) ->
  filter P l = [c].
Proof.
  induction l as [|x l IH]; intros Hnd Hc HP Hothers.
  - by apply elem_of_nil in Hc.
  - apply NoDup_cons in Hnd as [Hx Hnd]. rewrite filter_cons.
    destruct (decide (x = c)) as [->|Hxc].
    + rewrite decide_True by done. f_equal.
      clear IH. induction l as [|y l IH]; [done|].
      apply NoDup_cons in Hnd as [_ Hnd].
      rewrite filter_cons, decide_False.
      * apply IH; [by intros ?; apply Hx; right|done| |].
        -- by left.
        -- intros z Hz. apply Hothers. apply elem_of_cons in Hz as [->|Hz]; [by left|].
           right. by right.
      * apply Hothers; [right; by left|]. intros ->. apply Hx. by left.
    + rewrite decide_False by (apply Hothers; [by left|done]).
      apply elem_of_cons in Hc as [->|Hc]; [done|].
      apply IH; try done. intros z Hz. apply Hothers. by right.
Qed.

(** What C1 says holds when exactly one send of the broadcast raises: in
    a state of the system where the lock is free, let [c] be the only
    connection of the room with a broken transport.  A broadcast whose
    send to [c] raises returns; [c] is then neither in the room nor in
    the records, and after the sends of the broadcast the wire has one
    [user_offline] frame about the user of [c] for each connection left
    in the room, none for [c]. *)
Lemma broadcast_one_failure (n : nat) (g : string) (m : json) (e : option nat)
    (s : state) (c : nat) (u : string) :
  reachable s -> lock s = false ->
  connection_info s !! c = Some (u, g) -> Some c <> e -> c ∈ closed s ->
  (forall c', c' ∈ members g s -> c' <> c -> c' ∉ closed s) ->
  exists s',
    broadcast_to_group (4 + n) g m e s = Done s' /\
    (c ∉ members g s') /\ connection_info s' !! c = None /\
    members g s' = members g s ∖ {[c]} /\
    wire s' =
      wire s ++ attempts m (closed s) (targets e (elements (members g s)))
      ++ ((fun c' => (c', user_offline_event u (utcnow_iso s), true))
            <$> elements (members g s ∖ {[c]})).
Proof.
  intros Hs Hl Hu Hce Hcc Hopen. apply reachable_wf in Hs.
  destruct (wf_member s Hs c u g Hu) as (cs & Hcs & Hin).
  assert (Hm : members g s = cs) by (unfold members; by rewrite Hcs).
  rewrite Hm in *.
  change (4 + n) with (S (3 + n)). rewrite (broadcast_to_group_unfold _ _ _ _ _ cs Hcs).
  rewrite (filter_only (fun c => c ∈ closed s) (targets e (elements cs)) c); cycle 1.
  { apply NoDup_filter, NoDup_elements. }
  { apply list_elem_of_filter. split; [done|]. by apply elem_of_elements. }
  { done. }
  { intros x Hx Hxc. apply list_elem_of_filter in Hx as [_ Hx].
    apply elem_of_elements in Hx. by apply Hopen. }
  remember (set_wire (wire s ++ attempts m (closed s) (targets e (elements cs))) s)
    as s1 eqn:Hs1.
  assert (Hl1 : lock s1 = false) by (by subst s1).
  assert (Hc1 : closed s1 = closed s) by (by subst s1).
  assert (Hi1 : connection_info s1 = connection_info s) by (by subst s1).
  assert (Hm1 : members g (set_lock true s1) = cs) by (by subst s1).
  assert (Hw1 : wire (set_lock true s1)
                = wire s ++ attempts m (closed s) (targets e (elements cs)))
    by (by subst s1).
  assert (Hk1 : utcnow_iso s1 = utcnow_iso s) by (by subst s1).
  clear Hs1.
  cbn [cleanup]. rewrite (disconnect_known n c u g) by (by rewrite ?Hi1).
  cbv zeta. rewrite forget_members, Hm1, Hc1, Hk1.
  destruct (attempts_all_open (user_offline_event u (utcnow_iso s)) (closed s)
              (elements (cs ∖ {[c]}))) as [-> ->].
  { intros c' Hc'. apply elem_of_elements, elem_of_difference in Hc' as [Hc' Hne].
    apply Hopen; [done|]. intros ->. apply Hne. by apply elem_of_singleton. }
  cbn [and_then]. eexists. split; [reflexivity|].
  set (s2 := forget c u g (set_lock true s1)).
  destruct (forget_env c u g (set_lock true s1)) as (_ & _ & Hfw & _).
  change ((c ∉ members g s2) /\ connection_info s2 !! c = None /\
          members g s2 = cs ∖ {[c]} /\
          wire s2 ++
            ((fun c' => (c', user_offline_event u (utcnow_iso s), true))
               <$> elements (cs ∖ {[c]})) =
          wire s ++ attempts m (closed s) (targets e (elements cs)) ++
            ((fun c' => (c', user_offline_event u (utcnow_iso s), true))
               <$> elements (cs ∖ {[c]}))).
  unfold s2. rewrite forget_members, forget_connection_info, Hm1, Hfw, Hw1.
  rewrite lookup_delete_eq, <- app_assoc.
  split; [|done]. intros Hc. apply elem_of_difference in Hc as [_ Hc].
  apply Hc. by apply elem_of_singleton.
Qed.

(** ** The [message] frames *)

(** A message whose content is empty once trimmed is dropped: no call
    to the data store, no send, no change of state. *)
Lemma blank_message_dropped (fuel : nat) (db : database) (ws : nat)
    (g u name : string) (message : list (string * json)) (text : string) (s : state) :
  message_frame message text -> strip text = EmptyString ->
  group_chat_websocket_turn fuel db ws g u name (Some (JObj message)) s = Done s.
Proof.
  intros (Ht & msg_data & Hd & Hc) Hblank. unfold group_chat_websocket_turn.
  rewrite Ht. unfold on_message. rewrite Hd, Hc, Hblank. done.
Qed.

Lemma message_frame_call (g u : string) (message : list (string * json)) (text : string) :
  message_frame message text -> strip text <> EmptyString ->
  exists msg_data,
    dict_get "data" (JObj message) message = JObj msg_data /\
    store_call g u message =
    DbSendMessage g u (strip text) (dict_get "message_type" (JStr "text") msg_data)
      (dict_get "reply_to_id" JNull msg_data).
Proof.
  intros (Ht & msg_data & Hd & Hc) Hne. exists msg_data. split; [done|].
  unfold store_call. rewrite Hd.
  destruct (truthy (dict_get "content" JNull msg_data)).
  - by rewrite Hc.
  - injection Hc as <-. by destruct Hne.
Qed.

(** A message that the data store does not store (the call raises, or
    answers nothing) is not broadcast: the call is made, and nothing else
    changes. *)
Lemma rejected_message_not_broadcast (fuel : nat) (db : database) (ws : nat)
    (g u name : string) (message : list (string * json)) (text : string) (s : state) :
  message_frame message text -> strip text <> EmptyString ->
  (store_reply db (store_call g u message) = Raised \/
   exists v, store_reply db (store_call g u message) = Returned v /\ truthy v = false) ->
  group_chat_websocket_turn fuel db ws g u name (Some (JObj message)) s =
  Done (set_db_log (db_log s ++ [store_call g u message]) s).
Proof.
  intros Hf Hne Hrep.
  destruct (message_frame_call g u message text Hf Hne) as (msg_data & Hd & Hcall).
  destruct Hf as (Ht & msg_data' & Hd' & Hc).
  assert (msg_data' = msg_data) as -> by congruence.
  rewrite Hcall in *. simpl in Hrep.
  unfold group_chat_websocket_turn. rewrite Ht. unfold on_message. rewrite Hd, Hc.
  destruct (String.eqb_spec (strip text) EmptyString); [done|]. cbn [negb].
  destruct Hrep as [->|(v & -> & Hv)]; [done|]. by rewrite Hv.
Qed.

Lemma unflag_typing_env (g u : string) (s : state) :
  members g (unflag_typing g u s) = members g s /\
  closed (unflag_typing g u s) = closed s /\
  wire (unflag_typing g u s) = wire s /\
  utcnow_iso (unflag_typing g u s) = utcnow_iso s /\
  db_log (unflag_typing g u s) = db_log s /\
  set_lock false (unflag_typing g u (set_lock true s)) =
  unflag_typing g u (set_lock false s).
Proof. unfold unflag_typing. simpl. by destruct (typing_users s !! g). Qed.

(** [clear_typing] when the lock is free and no connection of the room
    has a broken transport. *)
Lemma clear_typing_all_open (fuel : nat) (g u : string) (s : state) :
  lock s = false -> (forall c, c ∈ members g s -> c ∉ closed s) ->
  clear_typing (S fuel) g u s =
  Done (set_wire
          (wire s ++ ((fun c => (c, typing_stop_event u (utcnow_iso s), true))
                        <$> elements (members g s)))
          (unflag_typing g u s)).
Proof.
  intros Hl Hopen. unfold clear_typing, with_lock. rewrite Hl. cbn [and_then].
  destruct (unflag_typing_env g u s) as (Hm & Hc & Hw & Hk & _ & ->).
  rewrite <- Hl, set_lock_same.
  rewrite broadcast_all_open, targets_None, Hm, Hw, Hk; [done|].
  intros c Hc' _. rewrite Hc. apply Hopen. by rewrite <- Hm.
Qed.

(** A message that the data store has stored, when the lock is free and
    no connection of the room has a broken transport: the turn returns,
    having sent the stored message as a [new_message] frame to every
    connection of the room, then a [typing_stop] frame about the sender
    to every connection of the room, and the sender is not flagged as
    typing. *)
Lemma stored_message_broadcast (fuel : nat) (db : database) (ws : nat)
    (g u name : string) (message : list (string * json)) (text : string)
    (new_msg : json) (s : state) :
  message_frame message text -> strip text <> EmptyString ->
  store_reply db (store_call g u message) = Returned new_msg -> truthy new_msg = true ->
  lock s = false -> (forall c, c ∈ members g s -> c ∉ closed s) ->
  exists s',
    group_chat_websocket_turn (S fuel) db ws g u name (Some (JObj message)) s = Done s' /\
    (u ∉ get_typing_users g s') /\
    group_connections s' = group_connections s /\
    connection_info s' = connection_info s /\
    db_log s' = db_log s ++ [store_call g u message] /\
    wire s' =
      wire s
      ++ ((fun c => (c, new_message_event new_msg (utcnow_iso s), true))
            <$> elements (members g s))
      ++ ((fun c => (c, typing_stop_event u (utcnow_iso s), true))
            <$> elements (members g s)).
Proof.
  intros Hf Hne Hrep Hv Hl Hopen.
  destruct (message_frame_call g u message text Hf Hne) as (msg_data & Hd & Hcall).
  destruct Hf as (Ht & msg_data' & Hd' & Hc).
  assert (msg_data' = msg_data) as -> by congruence.
  rewrite Hcall in *. simpl in Hrep.
  unfold group_chat_websocket_turn. rewrite Ht. unfold on_message. rewrite Hd, Hc.
  destruct (String.eqb_spec (strip text) EmptyString); [done|]. cbn [negb].
  rewrite Hrep, Hv. unfold broadcast_message.
  rewrite broadcast_all_open, targets_None by (intros c Hc' _; by apply Hopen).
  cbn [and_then].
  remember (set_wire _ (set_db_log _ s)) as s1 eqn:Hs1.
  assert (Hl1 : lock s1 = false) by (by subst s1).
  assert (Hm1 : members g s1 = members g s) by (by subst s1).
  assert (Hc1 : closed s1 = closed s) by (by subst s1).
  assert (Hk1 : utcnow_iso s1 = utcnow_iso s) by (by subst s1).
  assert (Hg1 : group_connections s1 = group_connections s) by (by subst s1).
  assert (Hi1 : connection_info s1 = connection_info s) by (by subst s1).
  assert (Hd1 : db_log s1 = db_log s ++
                [DbSendMessage g u (strip text)
                   (dict_get "message_type" (JStr "text") msg_data)
                   (dict_get "reply_to_id" JNull msg_data)]) by (by subst s1).
  assert (Hw1 : wire s1 = wire s ++
                ((fun c => (c, new_message_event new_msg (utcnow_iso s), true))
                   <$> elements (members g s))) by (by subst s1).
  clear Hs1.
  rewrite clear_typing_all_open; [|done|intros c Hc'; rewrite Hc1; apply Hopen; by rewrite <- Hm1].
  eexists. split; [reflexivity|].
  destruct (unflag_typing_spec g u s1) as (Hty & Hgc & Hci & _).
  destruct (unflag_typing_env g u s1) as (_ & _ & _ & _ & Hdb & _).
  split; [|split; [|split; [|split]]].
  - unfold get_typing_users. rewrite elem_of_elements.
    change (u ∉ typing g (unflag_typing g u s1)). rewrite Hty. set_solver.
  - simpl. by rewrite Hgc.
  - simpl. by rewrite Hci.
  - simpl. by rewrite Hdb.
  - simpl. by rewrite Hw1, Hk1, Hm1, <- app_assoc.
Qed.

(** C7 fails on the code when two sends of the broadcast of the stored
    message raise.  Alice, Bob and Carol are in room R1, Alice is flagged
    as typing, the transports of Bob and Carol are broken; Alice sends
    the message hello and the data store stores it.  The [new_message]
    frame is sent, the cleanup of the broadcast waits for ever on the
    lock, [clear_typing] is never reached, and Alice stays flagged as
    typing.  The defect is the one of C1: [disconnect] broadcasts while
    it holds the lock. *)
Theorem stored_message_keeps_typing_flag (n : nat) :
  exists s',
    group_chat_websocket_turn (4 + n) accepting_db 1 "R1" "alice" "Alice"
      (Some (JObj [("type", JStr "message"); ("content", JStr "hello")]))
      two_dropped_alice_typing = Hang s' /\
    lock s' = true /\
    get_typing_users "R1" two_dropped_alice_typing = ["alice"] /\
    get_typing_users "R1" s' = ["alice"] /\
    db_log s' = [DbSendMessage "R1" "alice" "hello" (JStr "text") JNull] /\
    sends_about "typing_stop" "alice" s' = [].
Proof.
  rewrite group_chat_websocket_turn_fuel.
  eexists. split; [vm_compute; reflexivity|]. vm_compute. by repeat split.
Qed.

(** * Further properties of the manager *)

(** ** The registry *)

(** X1.  In every state of the system the two dictionaries of the
    registry agree: a connection is in the membership set of a room
    exactly when its record names that room. *)
Theorem registry_agrees (s : state) (c : nat) (g : string) :
  reachable s ->
  (c ∈ members g s <-> exists u, connection_info s !! c = Some (u, g)).
Proof.
  intros Hs. apply reachable_wf in Hs. split.
  - intros Hc. apply members_spec in Hc as (cs & Hcs & Hc).
    by eapply (wf_info s Hs).
  - intros [u Hu]. apply members_spec. by eapply (wf_member s Hs).
Qed.

Lemma registry_agrees_witness :
  2 ∈ members "R1" three_in_room <->
  exists u, connection_info three_in_room !! 2 = Some (u, "R1").
Proof. exact (registry_agrees three_in_room 2 "R1" three_in_room_reachable). Defined.

Lemma forget_members_other (ws c : nat) (u g g' : string) (s : state) :
  c <> ws -> (c ∈ members g' (forget ws u g s) <-> c ∈ members g' s).
Proof.
  intros Hne. destruct (decide (g' = g)) as [->|Hg].
  - rewrite forget_members, elem_of_difference, elem_of_singleton. naive_solver.
  - unfold members. rewrite forget_group_connections.
    destruct (group_connections s !! g) as [cs|]; [|done].
    destruct (decide (cs ∖ {[ws]} = ∅)).
    + by rewrite lookup_delete_ne.
    + by rewrite lookup_insert_ne.
Qed.

(** A disconnect leaves the other connections where they are. *)
Lemma disconnect_other (n : nat) (d c : nat) (s s' : state) :
  c <> d -> outcome_state (disconnect (3 + n) d s) = Some s' ->
  connection_info s' !! c = connection_info s !! c /\
  (forall g, c ∈ members g s' <-> c ∈ members g s).
Proof.
  intros Hne H. destruct (lock s) eqn:Hl.
  { change (3 + n) with (S (2 + n)) in H.
    rewrite disconnect_locked in H by done. by injection H as <-. }
  destruct (connection_info s !! d) as [[u g]|] eqn:Hd.
  - rewrite (disconnect_known n d u g) in H by done. cbv zeta in H.
    assert (Hs' : connection_info s' = connection_info (forget d u g (set_lock true s)) /\
                  forall g0, members g0 s' = members g0 (forget d u g (set_lock true s))).
    { destruct (filter _ _); simpl in H; injection H as <-; by split. }
    destruct Hs' as [-> Hm]. rewrite forget_connection_info. split.
    + by rewrite lookup_delete_ne.
    + intros g0. rewrite Hm.
      by rewrite (forget_members_other d c u g g0 (set_lock true s)).
  - change (3 + n) with (S (2 + n)) in H.
    rewrite disconnect_unknown in H by done. by injection H as <-.
Qed.

Lemma cleanup_other (n : nat) (dead : list nat) (c : nat) (s s' : state) :
  c ∉ dead -> outcome_state (cleanup (disconnect (3 + n)) dead s) = Some s' ->
  connection_info s' !! c = connection_info s !! c /\
  (forall g, c ∈ members g s' <-> c ∈ members g s).
Proof.
  revert s. induction dead as [|d dead IH]; intros s Hc H.
  - by injection H as <-.
  - apply not_elem_of_cons in Hc as [Hne Hc]. cbn [cleanup] in H.
    apply and_then_state in H as [(s1 & Hd & H)|Hd].
    + destruct (IH s1 Hc H) as [-> Hm].
      destruct (disconnect_other n d c s s1 Hne) as [-> Hm1]; [by rewrite Hd|].
      split; [done|]. intros g. by rewrite Hm, Hm1.
    + apply (disconnect_other n d c s s' Hne). by rewrite Hd.
Qed.

(** X2.  When the lock is free, [connect] registers the connection
    whatever happens to the broadcast of [user_online]: in the state the
    call ends in, returned or stuck, the connection has its record
    [(user, room)] and is in the membership set of the room. *)
Theorem connect_registers (n : nat) (ws : nat) (g u : string) (s s' : state) :
  lock s = false ->
  outcome_state (connect (4 + n) ws g u s) = Some s' ->
  connection_info s' !! ws = Some (u, g) /\ ws ∈ members g s'.
Proof.
  intros Hl H. rewrite connect_unlocked in H by done.
  assert (Hreg : connection_info (register ws g u s) !! ws = Some (u, g))
    by (unfold register; simpl; apply lookup_insert_eq).
  assert (Hmem : ws ∈ members g (register ws g u s)).
  { unfold members, register. simpl. rewrite lookup_insert_eq. simpl.
    apply elem_of_union_r. by apply elem_of_singleton. }
  pose proof Hmem as Hmem'. apply members_spec in Hmem' as (cs & Hcs & _).
  change (4 + n) with (S (3 + n)) in H.
  rewrite (broadcast_to_group_unfold _ _ _ _ _ cs Hcs) in H.
  apply cleanup_other with (c := ws) in H.
  - destruct H as [-> Hm]. split; [done|]. by apply Hm.
  - intros Hin. apply list_elem_of_filter in Hin as [_ Hin].
    apply list_elem_of_filter in Hin as [Hin _]. by apply Hin.
Qed.

Lemma connect_registers_witness :
  connection_info (final (connect 4 4 "R1" "dave" two_dropped)) !! 4
    = Some ("dave", "R1") /\
  4 ∈ members "R1" (final (connect 4 4 "R1" "dave" two_dropped)).
Proof.
  apply (connect_registers 0 4 "R1" "dave" two_dropped); vm_compute; reflexivity.
Defined.

(** ** The teardown *)

Lemma forget_typing (ws : nat) (u g g' : string) (s : state) :
  typing g' (forget ws u g s) =
  if decide (g' = g) then typing g s ∖ {[u]} else typing g' s.
Proof.
  unfold typing. rewrite forget_typing_users.
  destruct (typing_users s !! g) as [us|] eqn:Hus.
  - destruct (decide (g' = g)) as [->|Hne].
    + by rewrite lookup_insert_eq.
    + by rewrite lookup_insert_ne.
  - destruct (decide (g' = g)) as [->|Hne]; [|done].
    rewrite Hus. simpl. set_solver.
Qed.

Lemma forget_members_all (ws : nat) (u g g' : string) (s : state) :
  members g' (forget ws u g s) =
  if decide (g' = g) then members g s ∖ {[ws]} else members g' s.
Proof.
  destruct (decide (g' = g)) as [->|Hne]; [apply forget_members|].
  unfold members. rewrite forget_group_connections.
  destruct (group_connections s !! g) as [cs|]; [|done].
  destruct (decide (cs ∖ {[ws]} = ∅)).
  - by rewrite lookup_delete_ne.
  - by rewrite lookup_insert_ne.
Qed.

Lemma filter_nil_iff (P : nat -> Prop) `{!forall x, Decision (P x)} (l : list nat) :
  filter P l = [] <-> forall x, x ∈ l -> ~ P x.
Proof.
  split.
  - intros Hf x Hx HP. assert (x ∈ filter P l) as Hin by (by apply list_elem_of_filter).
    rewrite Hf in Hin. by apply elem_of_nil in Hin.
  - intros Hf. induction l as [|x l IH]; [done|].
    rewrite filter_cons, decide_False by (apply Hf; by left).
    apply IH. intros y Hy. apply Hf. by right.
Qed.

(** X3.  The disconnect of a registered connection, the lock being
    free, returns exactly when no other connection of its room has a
    broken transport; otherwise the [user_offline] announcement, made
    while the lock is held, runs into the broken transport and the call
    waits for ever on the lock. *)
Theorem disconnect_returns_iff (n : nat) (ws : nat) (u g : string) (s : state) :
  lock s = false -> connection_info s !! ws = Some (u, g) ->
  ((exists s', disconnect (3 + n) ws s = Done s') <->
   (forall c, c ∈ members g s -> c <> ws -> c ∉ closed s)) /\
  ((exists s', disconnect (3 + n) ws s = Hang s') <->
   (exists c, c ∈ members g s /\ c <> ws /\ c ∈ closed s)).
Proof.
  intros Hl Hu. rewrite (disconnect_known n ws u g) by done. cbv zeta.
  rewrite forget_members. change (members g (set_lock true s)) with (members g s).
  pose proof (filter_nil_iff (fun c => c ∈ closed s)
                (elements (members g s ∖ {[ws]}))) as Hnil.
  assert (Hall : (forall x, x ∈ elements (members g s ∖ {[ws]}) -> x ∉ closed s) <->
                 (forall c, c ∈ members g s -> c <> ws -> c ∉ closed s)).
  { split.
    - intros H c Hc Hne. apply H. apply elem_of_elements, elem_of_difference.
      split; [done|]. by rewrite elem_of_singleton.
    - intros H x Hx. apply elem_of_elements, elem_of_difference in Hx as [Hx Hne].
      apply H; [done|]. intros ->. apply Hne. by apply elem_of_singleton. }
  destruct (filter _ _) as [|d rest] eqn:Hf.
  - assert (Hopen : forall c, c ∈ members g s -> c <> ws -> c ∉ closed s)
      by (by apply Hall, Hnil).
    split.
    + split; [done|]. intros _. by eexists.
    + split; [by intros [s' ?]|]. intros (c & Hc & Hne & Hcl). by destruct (Hopen c).
  - assert (Hd : d ∈ filter (fun c => c ∈ closed s) (elements (members g s ∖ {[ws]})))
      by (rewrite Hf; by left).
    apply list_elem_of_filter in Hd as [Hdc Hd].
    apply elem_of_elements, elem_of_difference in Hd as [Hd Hne].
    assert (d <> ws) as Hne' by (intros ->; apply Hne; by apply elem_of_singleton).
    split.
    + split; [by intros [s' ?]|]. intros Hopen. by destruct (Hopen d).
    + split; [|intros _; by eexists]. intros _. by exists d.
Qed.

Lemma disconnect_returns_iff_witness :
  ((exists s', disconnect 3 1 two_dropped = Done s') <->
   (forall c, c ∈ members "R1" two_dropped -> c <> 1 -> c ∉ closed two_dropped)) /\
  ((exists s', disconnect 3 1 two_dropped = Hang s') <->
   (exists c, c ∈ members "R1" two_dropped /\ c <> 1 /\ c ∈ closed two_dropped)).
Proof.
  apply (disconnect_returns_iff 0 1 "alice" "R1" two_dropped); vm_compute; reflexivity.
Defined.

(** X4.  What a disconnect that returns has done.  For a registered
    connection of the user [u] in the room [g], the lock being free and
    no other connection of the room being broken: the record of the
    connection is deleted and no other; the connection leaves the set of
    its room and no other set changes; the entry of the room is deleted
    when the connection was the last one; [u] is no longer flagged as
    typing in [g], also when [u] has another connection there; each
    connection left in the room is sent one [user_offline] frame about
    [u]; the lock is free again. *)
Theorem disconnect_effect (n : nat) (ws : nat) (u g : string) (s : state) :
  lock s = false -> connection_info s !! ws = Some (u, g) ->
  (forall c, c ∈ members g s -> c <> ws -> c ∉ closed s) ->
  exists s',
    disconnect (3 + n) ws s = Done s' /\
    connection_info s' = delete ws (connection_info s) /\
    (forall g', members g' s' =
                if decide (g' = g) then members g s ∖ {[ws]} else members g' s) /\
    (members g s ⊆ {[ws]} -> group_connections s' !! g = None) /\
    (forall g', typing g' s' =
                if decide (g' = g) then typing g s ∖ {[u]} else typing g' s) /\
    wire s' = wire s ++ ((fun c => (c, user_offline_event u (utcnow_iso s), true))
                           <$> elements (members g s ∖ {[ws]})) /\
    lock s' = false.
Proof.
  intros Hl Hu Hopen. rewrite (disconnect_known n ws u g) by done. cbv zeta.
  rewrite forget_members. change (members g (set_lock true s)) with (members g s).
  destruct (attempts_all_open (user_offline_event u (utcnow_iso s)) (closed s)
              (elements (members g s ∖ {[ws]}))) as [-> ->].
  { intros c Hc. apply elem_of_elements, elem_of_difference in Hc as [Hc Hne].
    apply Hopen; [done|]. intros ->. apply Hne. by apply elem_of_singleton. }
  eexists. split; [reflexivity|].
  set (s2 := forget ws u g (set_lock true s)).
  change (connection_info s2 = delete ws (connection_info s) /\
          (forall g', members g' s2 =
                      if decide (g' = g) then members g s ∖ {[ws]} else members g' s) /\
          (members g s ⊆ {[ws]} -> group_connections s2 !! g = None) /\
          (forall g', typing g' s2 =
                      if decide (g' = g) then typing g s ∖ {[u]} else typing g' s) /\
          wire s2 ++ ((fun c => (c, user_offline_event u (utcnow_iso s), true))
                        <$> elements (members g s ∖ {[ws]})) =
          wire s ++ ((fun c => (c, user_offline_event u (utcnow_iso s), true))
                       <$> elements (members g s ∖ {[ws]})) /\
          false = false).
  destruct (forget_env ws u g (set_lock true s)) as (_ & _ & Hw & _).
  unfold s2. rewrite forget_connection_info, Hw.
  split; [done|].
  split; [intros g'; apply (forget_members_all ws u g g' (set_lock true s))|].
  split; [|split; [intros g'; apply (forget_typing ws u g g' (set_lock true s))|done]].
  intros Hlast. rewrite forget_group_connections. unfold members in Hlast.
  change (group_connections (set_lock true s)) with (group_connections s).
  destruct (group_connections s !! g) as [cs|] eqn:Hcs; [|done]. simpl in Hlast.
  rewrite decide_True by set_solver. apply lookup_delete_eq.
Qed.

Lemma disconnect_effect_witness :
  exists s',
    disconnect 3 2 alice_twice = Done s' /\
    connection_info s' = delete 2 (connection_info alice_twice) /\
    (forall g', members g' s' =
                if decide (g' = "R1") then members "R1" alice_twice ∖ {[2]}
                else members g' alice_twice) /\
    (members "R1" alice_twice ⊆ {[2]} -> group_connections s' !! "R1" = None) /\
    (forall g', typing g' s' =
                if decide (g' = "R1") then typing "R1" alice_twice ∖ {["alice"]}
                else typing g' alice_twice) /\
    wire s' = wire alice_twice
              ++ ((fun c => (c, user_offline_event "alice" (utcnow_iso alice_twice), true))
                    <$> elements (members "R1" alice_twice ∖ {[2]})) /\
    lock s' = false.
Proof.
  apply (disconnect_effect 0 2 "alice" "R1" alice_twice);
    [vm_compute; reflexivity..|].
  intros c _ _. vm_compute. intros [=].
Defined.

(** ** When a broadcast returns *)

(** A broadcast, the lock being free, waits for ever on the lock as soon
    as a send of the loop raised and another connection of the room is
    broken too. *)
Lemma broadcast_second_broken_hangs (n : nat) (g : string) (m : json) (e : option nat)
    (s : state) (cs : gset nat) (d d' : nat) (rest : list nat) :
  wf s -> lock s = false -> group_connections s !! g = Some cs ->
  filter (fun c => c ∈ closed s) (targets e (elements cs)) = d :: rest ->
  d' ∈ cs -> d' <> d -> d' ∈ closed s ->
  exists s', broadcast_to_group (4 + n) g m e s = Hang s'.
Proof.
  intros Hwf Hl Hcs Hf Hd'in Hd'ne Hd'c.
  assert (Hd : d ∈ cs).
  { assert (d ∈ filter (fun c => c ∈ closed s) (targets e (elements cs))) as Hd
      by (rewrite Hf; by left).
    apply list_elem_of_filter in Hd as [_ Hd].
    apply list_elem_of_filter in Hd as [_ Hd]. by apply elem_of_elements in Hd. }
  destruct (wf_info s Hwf g cs d Hcs Hd) as [u Hu].
  change (4 + n) with (S (3 + n)).
  rewrite (broadcast_to_group_unfold _ _ _ _ _ cs Hcs), Hf.
  remember (set_wire (wire s ++ attempts m (closed s) (targets e (elements cs))) s)
    as s1 eqn:Hs1.
  assert (Hl1 : lock s1 = false) by (by subst s1).
  assert (Hc1 : closed s1 = closed s) by (by subst s1).
  assert (Hi1 : connection_info s1 = connection_info s) by (by subst s1).
  assert (Hm1 : members g (set_lock true s1) = cs)
    by (subst s1; unfold members; simpl; by rewrite Hcs).
  clear Hs1.
  cbn [cleanup]. rewrite (disconnect_known n d u g) by (by rewrite ?Hi1).
  cbv zeta. rewrite forget_members, Hm1, Hc1.
  assert (Hrest : d' ∈ filter (fun c => c ∈ closed s) (elements (cs ∖ {[d]}))).
  { apply list_elem_of_filter. split; [done|]. apply elem_of_elements.
    apply elem_of_difference. split; [done|]. by rewrite elem_of_singleton. }
  destruct (filter _ (elements _)) as [|d2 rest2]; [by apply elem_of_nil in Hrest|].
  cbn [and_then]. by eexists.
Qed.

(** X5.  In a state of the system where the lock is free, a broadcast to
    a room returns exactly when at most one connection of the room has a
    broken transport, whichever connection is excluded. *)
Theorem broadcast_returns_iff (n : nat) (g : string) (m : json) (e : option nat)
    (s : state) :
  reachable s -> lock s = false ->
  ((exists s', broadcast_to_group (4 + n) g m e s = Done s') <->
   at_most_one_broken g s).
Proof.
  intros Hs Hl. pose proof (reachable_wf s Hs) as Hwf.
  destruct (group_connections s !! g) as [cs|] eqn:Hcs; cycle 1.
  { split.
    - intros _ c1 c2 Hc1. unfold members in Hc1. rewrite Hcs in Hc1.
      by apply elem_of_empty in Hc1.
    - intros _. exists s. change (4 + n) with (S (3 + n)).
      cbn [broadcast_to_group]. by rewrite Hcs. }
  assert (Hm : members g s = cs) by (unfold members; by rewrite Hcs).
  assert (Hdead : forall c, c ∈ filter (fun c => c ∈ closed s) (targets e (elements cs))
                            <-> c ∈ cs /\ Some c <> e /\ c ∈ closed s).
  { intros c. unfold targets. rewrite !list_elem_of_filter, elem_of_elements.
    naive_solver. }
  destruct (filter (fun c => c ∈ closed s) (targets e (elements cs)))
    as [|d rest] eqn:Hf.
  - split.
    + intros _ c1 c2 Hc1 Hc2 Hb1 Hb2. rewrite Hm in Hc1, Hc2.
      assert (He : forall c, c ∈ cs -> c ∈ closed s -> Some c = e).
      { intros c Hc Hb. destruct (decide (Some c = e)) as [|Hne]; [done|].
        assert (c ∈ @nil nat) as Hin by (by apply Hdead).
        by apply elem_of_nil in Hin. }
      pose proof (He c1 Hc1 Hb1) as He1. pose proof (He c2 Hc2 Hb2) as He2.
      congruence.
    + intros _. eexists. change (4 + n) with (S (3 + n)).
      rewrite (broadcast_to_group_unfold _ _ _ _ _ cs Hcs), Hf. reflexivity.
  - assert (Hd : d ∈ cs /\ Some d <> e /\ d ∈ closed s) by (apply Hdead; by left).
    destruct Hd as (Hdin & Hde & Hdc). split.
    + intros [s' Hdone] c1 c2 Hc1 Hc2 Hb1 Hb2. rewrite Hm in Hc1, Hc2.
      destruct (decide (c1 = c2)) as [|Hne]; [done|]. exfalso.
      assert (exists d', d' ∈ cs /\ d' <> d /\ d' ∈ closed s) as (d' & Hd' & Hd'ne & Hd'c).
      { destruct (decide (c1 = d)) as [->|Hc1d].
        - exists c2. by repeat split.
        - exists c1. by repeat split. }
      destruct (broadcast_second_broken_hangs n g m e s cs d d' rest)
        as [s'' Hh]; try done.
      congruence.
    + intros Hone. destruct (wf_info s Hwf g cs d Hcs Hdin) as [u Hu].
      destruct (broadcast_one_failure n g m e s d u) as (s' & Hdone & _); try done.
      * intros c' Hc' Hne Hb. apply Hne. apply Hone; try done. by rewrite Hm.
      * by exists s'.
Qed.

Lemma broadcast_returns_iff_witness :
  (exists s', broadcast_to_group 4 "R1" (JStr "hello") None two_dropped = Done s') <->
  at_most_one_broken "R1" two_dropped.
Proof.
  apply (broadcast_returns_iff 0 "R1" (JStr "hello") None two_dropped);
    [apply two_dropped_reachable|vm_compute; reflexivity].
Defined.

(** ** Sending to one user *)

Lemma send_to_user_loop_owner (conns : list nat) (u : string) (m : json) (s : state) :
  send_to_user_loop conns u m s =
  set_wire
    (wire s ++ attempts m (closed s)
                 (filter (fun c => fst <$> connection_info s !! c = Some u) conns)) s.
Proof.
  revert s. induction conns as [|c conns IH]; intros s.
  - simpl. by rewrite app_nil_r, set_wire_same.
  - cbn [send_to_user_loop]. rewrite filter_cons.
    destruct (connection_info s !! c) as [[owner g]|] eqn:Hc.
    + destruct (String.eqb_spec owner u) as [->|Hne].
      * rewrite decide_True by done. rewrite IH. unfold send_text, attempts.
        destruct (decide (c ∈ closed s)); simpl.
        -- rewrite bool_decide_false by (intros Hn; by apply Hn).
           by rewrite set_wire_twice, <- app_assoc.
        -- rewrite bool_decide_true by done.
           by rewrite set_wire_twice, <- app_assoc.
      * rewrite decide_False by (simpl; congruence). apply IH.
    + rewrite decide_False by done. apply IH.
Qed.

(** X6.  [send_to_user] makes one send to each connection of the room
    whose record names the user, and to no other; a send that raises
    changes nothing else: the call returns with the registry, the typing
    sets and the lock as they were, and the connection whose transport
    is broken stays registered (unlike with a broadcast). *)
Theorem send_to_user_only_owner (g u : string) (m : json) (s : state) :
  send_to_user g u m s =
    Done (set_wire (wire s ++ attempts m (closed s) (connections_of g u s)) s) /\
  NoDup (connections_of g u s) /\
  (forall c, c ∈ connections_of g u s <->
             c ∈ members g s /\ exists g', connection_info s !! c = Some (u, g')).
Proof.
  split; [|split].
  - unfold send_to_user, connections_of, members.
    destruct (group_connections s !! g) as [cs|]; simpl.
    + by rewrite send_to_user_loop_owner.
    + rewrite elements_empty. simpl. by rewrite app_nil_r, set_wire_same.
  - apply NoDup_filter, NoDup_elements.
  - intros c. unfold connections_of. rewrite list_elem_of_filter, elem_of_elements.
    split.
    + intros [Hu Hc]. split; [done|].
      destruct (connection_info s !! c) as [[owner g']|]; [|done].
      injection Hu as ->. by exists g'.
    + intros [Hc [g' Hu]]. split; [|done]. by rewrite Hu.
Qed.

(** ** The typing flag *)

Lemma flag_typing_env (g u : string) (s : state) :
  members g (flag_typing g u s) = members g s /\
  closed (flag_typing g u s) = closed s /\
  wire (flag_typing g u s) = wire s /\
  utcnow_iso (flag_typing g u s) = utcnow_iso s /\
  set_lock false (flag_typing g u (set_lock true s)) =
  flag_typing g u (set_lock false s).
Proof. done. Qed.

(** X7.  [set_typing], when the lock is free and no connection of the
    room has a broken transport: the call returns, the user is flagged
    as typing in the room (the entry of the room is made if need be) and
    no other flag changes, the registry is as it was, and one
    [typing_start] frame is sent to every connection of the room, the
    connections of the user included. *)
Theorem set_typing_effect (fuel : nat) (g u name : string) (s : state) :
  lock s = false -> (forall c, c ∈ members g s -> c ∉ closed s) ->
  exists s',
    set_typing (S fuel) g u name s = Done s' /\
    (forall g', typing g' s' =
                if decide (g' = g) then typing g s ∪ {[u]} else typing g' s) /\
    group_connections s' = group_connections s /\
    connection_info s' = connection_info s /\
    wire s' = wire s ++ ((fun c => (c, typing_start_event u name (utcnow_iso s), true))
                           <$> elements (members g s)).
Proof.
  intros Hl Hopen. unfold set_typing, with_lock. rewrite Hl. cbn [and_then].
  destruct (flag_typing_env g u s) as (Hm & Hc & Hw & Hk & ->).
  rewrite <- Hl, set_lock_same.
  rewrite broadcast_all_open, targets_None, Hm, Hw, Hk; cycle 1.
  { intros c Hc' _. rewrite Hc. apply Hopen. by rewrite <- Hm. }
  eexists. split; [reflexivity|]. split; [|done].
  intros g'. unfold typing, flag_typing. simpl.
  destruct (decide (g' = g)) as [->|Hne].
  - by rewrite lookup_insert_eq.
  - by rewrite lookup_insert_ne.
Qed.

Lemma set_typing_effect_witness :
  exists s',
    set_typing 4 "R1" "alice" "Alice" three_in_room = Done s' /\
    (forall g', typing g' s' =
                if decide (g' = "R1") then typing "R1" three_in_room ∪ {["alice"]}
                else typing g' three_in_room) /\
    group_connections s' = group_connections three_in_room /\
    connection_info s' = connection_info three_in_room /\
    wire s' = wire three_in_room
              ++ ((fun c => (c, typing_start_event "alice" "Alice"
                                  (utcnow_iso three_in_room), true))
                    <$> elements (members "R1" three_in_room)).
Proof.
  apply (set_typing_effect 3 "R1" "alice" "Alice" three_in_room);
    [vm_compute; reflexivity|].
  intros c _. vm_compute. intros [=].
Defined.

(** * Further properties of the endpoint *)

(** ** The turns of the loop *)

(** X8.  No inbound frame registers a connection: whatever the frame and
    however the turn of the loop ends, the records and the membership
    sets have only lost entries (those of connections whose send
    raised), no transport has been marked broken, the clock is as it
    was, and the wire has only grown, by frames of the manager and
    [pong] replies. *)
Theorem turn_never_registers (fuel : nat) (db : database) (ws : nat)
    (g u name : string) (data : option json) (s s' : state) :
  outcome_state (group_chat_websocket_turn fuel db ws g u name data s) = Some s' ->
  connection_info s' ⊆ connection_info s /\
  (forall g', members g' s' ⊆ members g' s) /\
  closed s' = closed s /\ clock s' = clock s /\
  exists l, wire s' = wire s ++ l /\ Forall (fun r : send_record => emitted r.1.2) l.
Proof.
  apply (group_chat_websocket_turn_rel
           (fun a b => connection_info b ⊆ connection_info a /\
                       (forall g', members g' b ⊆ members g' a) /\
                       closed b = closed a /\ clock b = clock a /\
                       exists l, wire b = wire a ++ l /\
                                 Forall (fun r : send_record => emitted r.1.2) l)).
  - intros a. repeat split; try done. exists []. by rewrite app_nil_r.
  - intros a b c (A1 & A2 & A3 & A4 & l1 & A5 & A6) (B1 & B2 & B3 & B4 & l2 & B5 & B6).
    split; [by transitivity (connection_info b)|].
    split; [intros g'; by transitivity (members g' b)|].
    split; [congruence|]. split; [congruence|].
    exists (l1 ++ l2). rewrite B5, A5, app_assoc. split; [done|]. by apply Forall_app.
  - intros b a. repeat split; try done. exists []. by rewrite app_nil_r.
  - intros a l Hl. repeat split; try done. by exists l.
  - intros a c u0 g0 _. destruct (forget_env c u0 g0 a) as (_ & Hc & Hw & Hk & _).
    split; [rewrite forget_connection_info; apply delete_subseteq|].
    split.
    { intros g'. destruct (shrinks_forget a c u0 g0) as [_ Hm _ _ _ _ _]. apply Hm. }
    split; [done|]. split; [done|]. exists []. by rewrite app_nil_r.
  - intros a v. repeat split; try done. exists []. by rewrite app_nil_r.
  - intros a v. repeat split; try done. exists []. by rewrite app_nil_r.
Qed.

Lemma turn_never_registers_witness :
  connection_info
    (final (group_chat_websocket_turn 4 accepting_db 1 "R1" "alice" "Alice"
              (Some (JObj [("type", JStr "message"); ("content", JStr "hello")]))
              two_dropped))
    ⊆ connection_info two_dropped.
Proof.
  apply (turn_never_registers 4 accepting_db 1 "R1" "alice" "Alice"
           (Some (JObj [("type", JStr "message"); ("content", JStr "hello")]))
           two_dropped).
  vm_compute. reflexivity.
Defined.

(** ** The session *)

Lemma turns_wf (fuel : nat) (ws : nat) (g u name : string)
    (frames : list (database * option json)) (s s' : state) :
  wf s -> outcome_state (turns fuel ws g u name frames s) = Some s' -> wf s'.
Proof.
  revert s. induction frames as [|[db data] frames IH]; intros s Hwf H.
  - by injection H as <-.
  - cbn [turns] in H. apply and_then_state in H as [(s1 & Ht & H)|Ht].
    + apply (IH s1); [|done].
      apply (run_op_wf fuel (OpFrame db ws g u name data) s s1); [done| |done].
      simpl. by rewrite Ht.
    + apply (run_op_wf fuel (OpFrame db ws g u name data) s s'); [done| |done].
      simpl. by rewrite Ht.
Qed.

(** X9.  A session that has run to its end leaves no trace in the
    registry.  From a state of the system in which the manager holds no
    record for the handle, let the endpoint register the connection, take
    any frames and reach its [finally]; when it returns, the handle has
    no record, is in the membership set of no room, and the lock is
    free. *)
Theorem serve_leaves_no_record (fuel : nat) (ws : nat) (g u name : string)
    (frames : list (database * option json)) (s s' : state) :
  reachable s -> connection_info s !! ws = None ->
  serve fuel ws g u name frames s = Done s' ->
  connection_info s' !! ws = None /\ (forall g', ws ∉ members g' s') /\ lock s' = false.
Proof.
  intros Hs Hnew H. apply reachable_wf in Hs. unfold serve in H.
  apply and_then_done in H as (s1 & Hc & H).
  apply and_then_done in H as (s2 & Ht & Hd).
  assert (Hwf1 : wf s1).
  { apply (run_op_wf fuel (OpConnect ws g u) s s1); [done| |done]. simpl. by rewrite Hc. }
  assert (Hwf2 : wf s2) by (apply (turns_wf fuel ws g u name frames s1); [done|by rewrite Ht]).
  assert (Hwf' : wf s').
  { apply (run_op_wf fuel (OpDisconnect ws) s2 s'); [done| |done]. simpl. by rewrite Hd. }
  apply disconnect_done in Hd as [Hnone Hl].
  split; [done|]. split; [|done].
  intros g' Hin. apply members_spec in Hin as (cs & Hcs & Hin).
  destruct (wf_info s' Hwf' g' cs ws Hcs Hin) as [u' Hu']. congruence.
Qed.

Lemma serve_leaves_no_record_witness :
  connection_info
    (final (serve 4 4 "R1" "dave" "Dave"
              [(accepting_db, Some (JObj [("type", JStr "typing")]));
               (accepting_db, Some (JObj [("type", JStr "message");
                                          ("content", JStr "hello")]))]
              three_in_room)) !! 4 = None /\
  (forall g', 4 ∉ members g'
     (final (serve 4 4 "R1" "dave" "Dave"
               [(accepting_db, Some (JObj [("type", JStr "typing")]));
                (accepting_db, Some (JObj [("type", JStr "message");
                                           ("content", JStr "hello")]))]
               three_in_room))) /\
  lock (final (serve 4 4 "R1" "dave" "Dave"
                 [(accepting_db, Some (JObj [("type", JStr "typing")]));
                  (accepting_db, Some (JObj [("type", JStr "message");
                                             ("content", JStr "hello")]))]
                 three_in_room)) = false.
Proof.
  apply (serve_leaves_no_record 4 4 "R1" "dave" "Dave"
           [(accepting_db, Some (JObj [("type", JStr "typing")]));
            (accepting_db, Some (JObj [("type", JStr "message");
                                       ("content", JStr "hello")]))]
           three_in_room);
    [apply three_in_room_reachable|vm_compute; reflexivity..].
Defined.

(** ** The opening of a session *)

(** X10.  The endpoint goes on to register a connection only for a
    verified member: the token is present and not empty, [decode_token]
    returned claims whose [sub] is the user and is not empty, the user
    has a membership row for the group and the group has a row.  When it
    closes the connection instead, the code and the reason are one of
    four; without a token, or with an empty one, it closes with 4001
    "Missing token" whatever the verifier and the tables would say. *)
Theorem open_session_members_only (env : auth_env) (st : store) (g : string)
    (token : option string) :
  (forall user_id user_name,
     open_session env st g token = Accepted user_id user_name ->
     exists t payload rows group,
       token = Some t /\ t <> EmptyString /\
       decode_token env t = Authd payload /\
       user_id = dict_get "sub" JNull payload /\ truthy user_id = true /\
       membership_rows st g user_id = Data rows /\ truthy rows = true /\
       group_row st g = Data group /\ truthy group = true) /\
  (forall code reason,
     open_session env st g token = Closed code reason ->
     (code, reason) ∈ [(4001, "Missing token"); (4001, "Invalid token");
                       (4001, "Authentication failed");
                       (4003, "Not a member of this group")]) /\
  (token = None \/ token = Some EmptyString ->
   open_session env st g token = Closed 4001 "Missing token").
Proof.
  split; [|split].
  - intros user_id user_name. unfold open_session.
    destruct token as [t|]; [|done].
    destruct (String.eqb_spec t EmptyString) as [|Ht]; [done|].
    destruct (decode_token env t) as [payload| |] eqn:Hdec; try done.
    destruct (truthy (dict_get "sub" JNull payload)) eqn:Hsub; [|done].
    unfold get_group.
    destruct (membership_rows st g (dict_get "sub" JNull payload)) as [rows|] eqn:Hrows;
      [|done].
    destruct (truthy rows) eqn:Htr; [|done].
    destruct (group_row st g) as [group|] eqn:Hgroup; [|done].
    destruct (truthy group) eqn:Htg; [|done].
    destruct (display_name st _ _); [|done].
    intros [= <- <-]. by exists t, payload, rows, group.
  - intros code reason. unfold open_session.
    destruct token as [t|]; [|intros [= <- <-]; set_solver].
    destruct (String.eqb t EmptyString); [intros [= <- <-]; set_solver|].
    destruct (decode_token env t) as [payload| |];
      [|intros [= <- <-]; set_solver..].
    destruct (truthy (dict_get "sub" JNull payload)); [|intros [= <- <-]; set_solver].
    destruct (get_group st g _) as [group|]; [|done].
    destruct (truthy group); [|intros [= <- <-]; set_solver].
    by destruct (display_name st _ _).
  - by intros [->| ->].
Qed.

Lemma before_at_spec (e : string) :
  contains "@" (before_at e) = false /\
  exists rest, e = (before_at e ++ rest)%string /\
               (rest = EmptyString \/ is_prefix "@" rest = true).
Proof.
  induction e as [|c e (IH1 & rest & IH2 & IH3)].
  - split; [done|]. exists EmptyString. split; [done|by left].
  - cbn [before_at]. destruct (Ascii.eqb_spec c "@") as [->|Hc].
    + split; [done|]. exists (String "@" e). split; [done|by right].
    + split.
      * cbn [contains is_prefix]. destruct (Ascii.eqb_spec "@" c) as [<-|_]; [done|].
        simpl. exact IH1.
      * exists rest. split; [|done].
        change (String c e = String c (before_at e +:+ rest)). by rewrite <- IH2.
Qed.

(** X11.  The name a session announces.  When the row of the user in
    [profiles] has a [full_name], the name is that value as it is, [null]
    included; the default "Someone" stands in only when the row is empty
    or has no such field.  When the query raised because the table is
    missing (the text of the error has "PGRST205" or "Could not find")
    and the token carries an e-mail text, the name is the part of the
    e-mail before its first "@": it has no "@" and the e-mail is the name
    followed by nothing or by "@...".  Any other error gives "Someone". *)
Theorem display_name_cases (st : store) (user_id : json) :
  (forall row v email,
     profile_row st user_id = Data (JObj row) -> row <> [] ->
     dict_lookup "full_name" row = Some v ->
     display_name st user_id email = Some v) /\
  (forall msg e,
     profile_row st user_id = Fault msg ->
     contains "PGRST205" msg || contains "Could not find" msg = true ->
     e <> EmptyString ->
     exists name rest,
       display_name st user_id (JStr e) = Some (JStr name) /\
       contains "@" name = false /\ e = (name ++ rest)%string /\
       (rest = EmptyString \/ is_prefix "@" rest = true)) /\
  (forall msg email,
     profile_row st user_id = Fault msg ->
     contains "PGRST205" msg || contains "Could not find" msg = false ->
     display_name st user_id email = Some (JStr "Someone")).
Proof.
  split; [|split].
  - intros row v email Hrow Hne Hv. unfold display_name. rewrite Hrow.
    destruct row as [|kv row]; [done|]. cbn [truthy].
    unfold dict_get. by rewrite Hv.
  - intros msg e Hrow Hmark He. unfold display_name. rewrite Hrow, Hmark.
    destruct (before_at_spec e) as (Hno & rest & Heq & Hrest).
    exists (before_at e), rest. split; [|done].
    cbn [truthy]. destruct (String.eqb_spec e EmptyString); [done|]. done.
  - intros msg email Hrow Hmark. unfold display_name. by rewrite Hrow, Hmark.
Qed.

(** ** [get_current_user] *)

(** X12.  [get_current_user] ends in a user or in an HTTP 401, never in
    another exception.  The user it returns has the [sub] of the claims
    [decode_token] returned as its id, which is not empty, and the role
    of the claims, "authenticated" when they have none.  The detail of
    the 401 is "Invalid token" (the verification failed), "Invalid token
    payload" (no [sub]) or "Authentication failed" (any other
    exception). *)
Theorem get_current_user_cases (env : auth_env) (token : string) :
  match get_current_user env token with
  | Authd user =>
      truthy (auth_id user) = true /\
      exists payload,
        decode_token env token = Authd payload /\
        auth_id user = dict_get "sub" JNull payload /\
        auth_email user = dict_get "email" JNull payload /\
        auth_role user = dict_get "role" (JStr "authenticated") payload
  | Http401 detail =>
      detail ∈ ["Invalid token"; "Invalid token payload"; "Authentication failed"]
  | Crashed => False
  end.
Proof.
  unfold get_current_user.
  destruct (decode_token env token) as [payload|detail|] eqn:Hdec.
  - destruct (truthy (dict_get "sub" JNull payload)) eqn:Hsub.
    + split; [done|]. by exists payload.
    + set_solver.
  - assert (detail = "Invalid token") as ->; [|set_solver].
    unfold decode_token, decode_token_with_supabase in Hdec.
    destruct (negb _); [destruct (jwt_decode env token)|];
      destruct (supabase_get_user env token); congruence.
  - set_solver.
Qed.

(** ** [get_optional_user] *)

(** X13.  [get_optional_user] returns a user exactly when the header is
    a non-empty text and [get_current_user] returns that user for the
    header without its occurrences of "Bearer "; every failure of
    [get_current_user] is a [None] here. *)
Theorem get_optional_user_agrees (env : auth_env) (authorization : option string)
    (user : AuthUser) :
  get_optional_user env authorization = Some user <->
  exists a, authorization = Some a /\ a <> EmptyString /\
            get_current_user env (remove_all "Bearer " 0 a) = Authd user.
Proof.
  unfold get_optional_user, get_current_user. split.
  - destruct authorization as [a|]; [|done].
    destruct (String.eqb_spec a EmptyString) as [|Ha]; [done|].
    intros H. exists a. split; [done|]. split; [done|].
    destruct (decode_token env _) as [payload| |]; [|done..].
    destruct (truthy _); [|done]. by injection H as <-.
  - intros (a & -> & Ha & H).
    destruct (String.eqb_spec a EmptyString) as [|_]; [done|].
    destruct (decode_token env _) as [payload| |]; [|done..].
    destruct (truthy _); [|done]. by injection H as <-.
Qed.

(** * Properties of the data store *)

(** ** [fetch_user_profiles] *)

Lemma key_eqb_str (a : string) (k : json) : key_eqb (JStr a) k = true <-> k = JStr a.
Proof.
  destruct k; simpl; try (split; [done|congruence]).
  rewrite String.eqb_eq. split; congruence.
Qed.

Lemma key_eqb_str_r (a : string) (k : json) : key_eqb k (JStr a) = true <-> k = JStr a.
Proof.
  destruct k; simpl; try (split; [done|congruence]).
  rewrite String.eqb_eq. split; congruence.
Qed.

Lemma map_get_set (a : string) (k v : json) (m : list (json * json)) :
  map_get (JStr a) (map_set k v m) =
  if key_eqb (JStr a) k then Some v else map_get (JStr a) m.
Proof.
  induction m as [|[k' v'] m IH].
  - cbn [map_set map_get]. by destruct (key_eqb (JStr a) k).
  - cbn [map_set map_get].
    destruct (key_eqb k k') eqn:Hkk'; cbn [map_get].
    + destruct (key_eqb (JStr a) k') eqn:Hak'.
      * apply key_eqb_str in Hak' as ->. apply key_eqb_str_r in Hkk' as ->.
        by rewrite (proj2 (key_eqb_str a (JStr a))).
      * destruct (key_eqb (JStr a) k) eqn:Hak; [|done].
        apply key_eqb_str in Hak as ->. apply key_eqb_str in Hkk' as ->.
        by rewrite (proj2 (key_eqb_str a (JStr a))) in Hak'.
    + rewrite IH. destruct (key_eqb (JStr a) k') eqn:Hak'; [|done].
      destruct (key_eqb (JStr a) k) eqn:Hak; [|done].
      apply key_eqb_str in Hak' as ->. apply key_eqb_str in Hak as ->.
      by rewrite (proj2 (key_eqb_str a (JStr a))) in Hkk'.
Qed.

Lemma map_get_set_str (a b : string) (v : json) (m : list (json * json)) :
  map_get (JStr a) (map_set (JStr b) v m) =
  if String.eqb a b then Some v else map_get (JStr a) m.
Proof. by rewrite map_get_set. Qed.

Lemma load_profiles_entry (a : string) (rows : list json) (m : list (json * json)) :
  map_get (JStr a) (load_profiles rows m) =
  match table_entry a rows with
  | Some p => Some p
  | None => map_get (JStr a) m
  end.
Proof.
  revert m. induction rows as [|p rows IH]; intros m; [done|].
  unfold table_entry. cbn [load_profiles stored_rows].
  destruct (item "id" p) as [k|] eqn:Hid; [|done].
  destruct (hashable k); [|done].
  assert (Hrow : row_of a p = key_eqb (JStr a) k) by (unfold row_of; by rewrite Hid).
  rewrite IH, map_get_set. unfold table_entry. rewrite filter_cons.
  destruct (decide _) as [Hd|Hd]; rewrite Hrow in Hd.
  - apply Is_true_true in Hd. rewrite Hd, last_cons.
    by destruct (last (filter _ (stored_rows rows))).
  - apply Is_true_false in Hd. by rewrite Hd.
Qed.

Lemma profiles_from_entry (a : string) (r : reply) :
  map_get (JStr a) (profiles_from r) = table_entry a (table_rows r).
Proof.
  unfold profiles_from, table_rows.
  destruct r as [[| | | |rows|]|]; try done.
  rewrite load_profiles_entry. by destruct (table_entry a rows).
Qed.

Lemma stored_rows_prefix (rows : list json) : stored_rows rows `prefix_of` rows.
Proof.
  induction rows as [|p rows IH]; [done|]. cbn [stored_rows].
  destruct (item "id" p) as [k|]; [|apply prefix_nil].
  destruct (hashable k); [|apply prefix_nil]. by apply prefix_cons.
Qed.

Lemma table_entry_row (a : string) (rows : list json) (p : json) :
  table_entry a rows = Some p ->
  p ∈ stored_rows rows /\ p ∈ rows /\ item "id" p = Some (JStr a).
Proof.
  unfold table_entry. intros H. apply last_Some_elem_of in H.
  apply list_elem_of_filter in H as [Hrow Hin].
  split; [done|]. split.
  - destruct (stored_rows_prefix rows) as [rest ->]. apply elem_of_app. by left.
  - unfold row_of in Hrow. destruct (item "id" p) as [k|]; [|done].
    apply Is_true_true in Hrow. by apply key_eqb_str in Hrow as ->.
Qed.

Lemma from_auth_get (env : profile_env) (a : string) (missing : list string)
    (m : list (json * json)) :
  map_get (JStr a) (from_auth env missing m) =
  if bool_decide (a ∈ missing) then
    match get_user_by_id env a with
    | AuthFound user_metadata email => Some (auth_profile a user_metadata email)
    | AuthNoUser => map_get (JStr a) m
    | AuthRaised => Some (fallback_profile a)
    end
  else map_get (JStr a) m.
Proof.
  revert m. induction missing as [|b missing IH]; intros m; [done|].
  cbn [from_auth]. rewrite IH.
  destruct (decide (a = b)) as [<-|Hab].
  - rewrite (bool_decide_eq_true_2 (a ∈ a :: missing)) by left.
    destruct (get_user_by_id env a) as [md e| |];
      rewrite ?map_get_set_str, ?String.eqb_refl; by case_bool_decide.
  - assert (Hm : bool_decide (a ∈ b :: missing) = bool_decide (a ∈ missing)).
    { apply bool_decide_ext. set_solver. }
    rewrite Hm.
    assert (Hget : map_get (JStr a)
                     match get_user_by_id env b with
                     | AuthFound user_metadata email =>
                         map_set (JStr b) (auth_profile b user_metadata email) m
                     | AuthNoUser => m
                     | AuthRaised => map_set (JStr b) (fallback_profile b) m
                     end = map_get (JStr a) m).
    { destruct (get_user_by_id env b); rewrite ?map_get_set_str; [|done|];
        by destruct (String.eqb_spec a b). }
    by rewrite Hget.
Qed.

Lemma fallback_all_get (a : string) (missing : list string) (m : list (json * json)) :
  map_get (JStr a) (fallback_all missing m) =
  match map_get (JStr a) m with
  | Some p => Some p
  | None => if bool_decide (a ∈ missing) then Some (fallback_profile a) else None
  end.
Proof.
  revert m. induction missing as [|b missing IH]; intros m.
  - cbn [fallback_all]. by destruct (map_get (JStr a) m).
  - cbn [fallback_all]. rewrite IH.
    destruct (decide (a = b)) as [<-|Hab].
    + rewrite (bool_decide_eq_true_2 (a ∈ a :: missing)) by left.
      destruct (map_get (JStr a) m) as [p|] eqn:Hm; [by rewrite Hm|].
      by rewrite map_get_set_str, String.eqb_refl.
    + assert (Hm : bool_decide (a ∈ b :: missing) = bool_decide (a ∈ missing)).
      { apply bool_decide_ext. set_solver. }
      rewrite Hm.
      destruct (map_get (JStr b) m); [done|].
      rewrite map_get_set_str. by destruct (String.eqb_spec a b).
Qed.

(** X14.  The entry of a user of the list in the answer of
    [fetch_user_profiles].  It is the row of the table [profiles] for
    that user when there is one: the last row with the id of the user
    among the rows the loop has stored, which are the rows of the answer
    before the first row that has no [id] or an [id] that cannot be a
    key; such a row hides the rows after it, the row of the user
    included.  Otherwise, with an admin client, it is the entry built
    from the user of the auth API, the all-null entry when the API
    raised, and there is no entry at all when the API answered without a
    user; without an admin client it is the all-null entry.  The entry
    is thus determined by the answer of the table, by whether there is
    an admin client, and by what the auth API answers for that user. *)
Theorem fetch_user_profiles_entry (env : profile_env) (user_ids : list string)
    (uid : string) :
  uid ∈ user_ids ->
  map_get (JStr uid) (fetch_user_profiles env user_ids) =
    match table_entry uid (table_rows (select_profiles env user_ids)) with
    | Some p => Some p
    | None =>
        if admin_available env then
          match get_user_by_id env uid with
          | AuthFound user_metadata email => Some (auth_profile uid user_metadata email)
          | AuthNoUser => None
          | AuthRaised => Some (fallback_profile uid)
          end
        else Some (fallback_profile uid)
    end /\
  (forall p, table_entry uid (table_rows (select_profiles env user_ids)) = Some p ->
             p ∈ stored_rows (table_rows (select_profiles env user_ids)) /\
             item "id" p = Some (JStr uid)) /\
  (forall rows bad later,
     table_rows (select_profiles env user_ids) = rows ++ bad :: later ->
     (item "id" bad = None \/ exists k, item "id" bad = Some k /\ hashable k = false) ->
     table_entry uid (table_rows (select_profiles env user_ids)) = table_entry uid rows).
Proof.
  intros Hin. split; [|split].
  - rewrite <- profiles_from_entry. unfold fetch_user_profiles.
    destruct user_ids as [|u0 us] eqn:Hus; [by apply elem_of_nil in Hin|].
    rewrite <- Hus in *. clear Hus u0 us.
    set (m := profiles_from (select_profiles env user_ids)).
    set (missing := filter (fun u => map_get (JStr u) m = None) user_ids).
    assert (Hmiss : uid ∈ missing <-> map_get (JStr uid) m = None).
    { unfold missing. rewrite list_elem_of_filter. naive_solver. }
    destruct (map_get (JStr uid) m) as [p|] eqn:Hm.
    + assert (Hno : uid ∉ missing) by (rewrite Hmiss; congruence).
      destruct missing as [|m0 ms] eqn:Hms; [done|]. rewrite <- Hms in *.
      destruct (admin_available env).
      * rewrite from_auth_get, bool_decide_eq_false_2; done.
      * by rewrite fallback_all_get, Hm.
    + assert (Hyes : uid ∈ missing) by (by rewrite Hmiss).
      destruct missing as [|m0 ms] eqn:Hms; [by apply elem_of_nil in Hyes|].
      rewrite <- Hms in *.
      destruct (admin_available env).
      * rewrite from_auth_get, bool_decide_eq_true_2 by done.
        by destruct (get_user_by_id env uid).
      * by rewrite fallback_all_get, Hm, bool_decide_eq_true_2.
  - intros p H. apply table_entry_row in H as (H1 & _ & H2). by split.
  - intros rows bad later -> Hbad. unfold table_entry. f_equal. f_equal.
    induction rows as [|p rows IH]; cbn [app stored_rows].
    + destruct Hbad as [->|(k & -> & ->)]; done.
    + destruct (item "id" p) as [k|]; [|done].
      destruct (hashable k); [|done]. by rewrite IH.
Qed.

Lemma fetch_user_profiles_entry_witness :
  map_get (JStr "u2")
    (fetch_user_profiles
       {| select_profiles := fun _ =>
            Data (JArr [JObj [("id", JStr "u1"); ("full_name", JStr "Ann")];
                        JObj [("full_name", JStr "Zed")];
                        JObj [("id", JStr "u2"); ("full_name", JStr "Bo Li")]]);
          admin_available := false;
          get_user_by_id := fun _ => AuthNoUser |}
       ["u1"; "u2"])
  = Some (JObj [("id", JStr "u2"); ("full_name", JNull);
                ("avatar_url", JNull); ("email", JNull)]).
Proof.
  refine (proj1 (fetch_user_profiles_entry _ ["u1"; "u2"] "u2" _)).
  set_solver.
Defined.

Lemma before_at_empty (e : string) :
  before_at e = EmptyString -> e = EmptyString \/ is_prefix "@" e = true.
Proof.
  destruct e as [|c e]; [by left|]. cbn [before_at].
  destruct (Ascii.eqb_spec c "@") as [->|_]; [by right|done].
Qed.

Lemma py_or_assoc (a b c : json) : py_or (py_or a b) c = py_or a (py_or b c).
Proof. unfold py_or. destruct (truthy a) eqn:Ha; [by rewrite Ha|done]. Qed.

(** X15.  The name of an entry built from the auth API.  Without an
    e-mail the name is [None], whatever the metadata hold.  With one, the
    name is the [full_name] of the metadata when that is not empty, else
    their [name] when that is not empty, else the part of the e-mail
    before its first "@"; it is empty only when both are and the e-mail
    begins with "@". *)
Theorem auth_profile_full_name (user_id : string) (user_metadata : list (string * json))
    (email : option string) :
  exists v,
    item "full_name" (auth_profile user_id user_metadata email) = Some v /\
    (email = None \/ email = Some EmptyString -> v = JNull) /\
    (forall e, email = Some e -> e <> EmptyString ->
       v = py_or (dict_get "full_name" JNull user_metadata)
             (py_or (dict_get "name" JNull user_metadata) (JStr (before_at e))) /\
       (truthy v = false ->
        truthy (dict_get "full_name" JNull user_metadata) = false /\
        truthy (dict_get "name" JNull user_metadata) = false /\
        is_prefix "@" e = true)).
Proof.
  eexists. split; [reflexivity|]. split.
  - by intros [->| ->].
  - intros e -> He. cbn [truthy].
    destruct (String.eqb_spec e EmptyString) as [|_]; [done|]. cbn [negb].
    rewrite py_or_assoc. split; [done|]. unfold py_or.
    destruct (truthy (dict_get "full_name" JNull user_metadata)) eqn:H1; [congruence|].
    destruct (truthy (dict_get "name" JNull user_metadata)) eqn:H2; [congruence|].
    cbn [truthy]. destruct (String.eqb_spec (before_at e) EmptyString) as [Hb|_]; [|done].
    intros _. by destruct (before_at_empty e Hb).
Qed.

(** ** [Database.send_message] *)

Lemma dict_lookup_set (k k' : string) (v : json) (d : list (string * json)) :
  dict_lookup k (dict_set k' v d) = if String.eqb k k' then Some v else dict_lookup k d.
Proof.
  induction d as [|[k0 v0] d IH]; cbn [dict_set dict_lookup]; [done|].
  destruct (String.eqb_spec k' k0) as [->|Hk0]; cbn [dict_lookup].
  - by destruct (String.eqb k k0).
  - rewrite IH. destruct (String.eqb_spec k k0) as [->|]; [|done].
    by destruct (String.eqb_spec k0 k').
Qed.

Lemma dict_lookup_not_in (k : string) (d : list (string * json)) :
  k ∉ d.*1 -> dict_lookup k d = None.
Proof.
  induction d as [|[k0 v0] d IH]; [done|]. cbn [dict_lookup fmap list_fmap fst].
  intros H. apply not_elem_of_cons in H as [H1 H2].
  destruct (String.eqb_spec k k0); [done|]. by apply IH.
Qed.

Lemma foldl_dict_set (k : string) (l d : list (string * json)) :
  NoDup l.*1 ->
  dict_lookup k (foldl (fun d kv => dict_set kv.1 kv.2 d) d l) =
  match dict_lookup k l with
  | Some v => Some v
  | None => dict_lookup k d
  end.
Proof.
  revert d. induction l as [|[k0 v0] l IH]; intros d Hnd; [done|].
  apply NoDup_cons in Hnd as [Hk0 Hnd]. cbn [foldl dict_lookup fst snd].
  rewrite IH, dict_lookup_set by done.
  destruct (String.eqb_spec k k0) as [->|_]; [|done].
  by rewrite dict_lookup_not_in.
Qed.

Lemma dict_lookup_filter (k : string) (l : list (string * json)) :
  NoDup l.*1 ->
  dict_lookup k (filter (fun kv => negb (is_none kv.2)) l) =
  match dict_lookup k l with
  | Some v => if is_none v then None else Some v
  | None => None
  end.
Proof.
  induction l as [|[k0 v0] l IH]; intros Hnd; [done|].
  apply NoDup_cons in Hnd as [Hk0 Hnd]. rewrite filter_cons. cbn [snd dict_lookup].
  destruct (String.eqb_spec k k0) as [->|Hk].
  - destruct (decide _) as [Hd|Hd]; cbn [snd] in Hd.
    + cbn [dict_lookup]. rewrite String.eqb_refl. by destruct (is_none v0).
    + rewrite IH, dict_lookup_not_in by done.
      destruct (is_none v0); [done|]. by destruct Hd.
  - destruct (decide _); cbn [dict_lookup]; [|by apply IH].
    destruct (String.eqb_spec k k0); [done|]. by apply IH.
Qed.

Lemma filter_keys_NoDup (l : list (string * json)) :
  NoDup l.*1 -> NoDup (filter (fun kv => negb (is_none kv.2)) l).*1.
Proof.
  induction l as [|[k0 v0] l IH]; intros Hnd; [done|].
  apply NoDup_cons in Hnd as [Hk0 Hnd]. rewrite filter_cons.
  destruct (decide _); [|by apply IH].
  cbn [fmap list_fmap fst]. apply NoDup_cons. split; [|by apply IH].
  intros Hin. apply Hk0. apply list_elem_of_fmap in Hin as (kv & -> & Hin).
  apply list_elem_of_filter in Hin as [_ Hin]. apply list_elem_of_fmap. by exists kv.
Qed.

(** X16.  The row [Database.send_message] inserts.  The keyword
    arguments being those of a call (no name twice), the row maps a name
    to the keyword argument of that name when there is one and it is not
    [None], and otherwise to the group, the sender, the content or the
    type of the call when the name is that of one of these four fields;
    it has no other field.  A keyword argument that is [None] is not in
    the row at all: the [reply_to_id] of a message that answers none is
    left out, not sent as [null]. *)
Theorem message_data_fields (group_id user_id content : string) (message_type : json)
    (kwargs : list (string * json)) (k : string) :
  NoDup kwargs.*1 ->
  dict_lookup k (message_data group_id user_id content message_type kwargs) =
  match dict_lookup k kwargs with
  | Some v =>
      if is_none v
      then dict_lookup k [("group_id", JStr group_id); ("sender_id", JStr user_id);
                          ("content", JStr content); ("message_type", message_type)]
      else Some v
  | None => dict_lookup k [("group_id", JStr group_id); ("sender_id", JStr user_id);
                           ("content", JStr content); ("message_type", message_type)]
  end.
Proof.
  intros Hnd. unfold message_data.
  rewrite foldl_dict_set by (by apply filter_keys_NoDup).
  rewrite dict_lookup_filter by done.
  destruct (dict_lookup k kwargs) as [v|]; [|done]. by destruct (is_none v).
Qed.

Lemma message_data_fields_witness :
  dict_lookup "reply_to_id"
    (message_data "R1" "alice" "hello" (JStr "text")
       [("reply_to_id", JNull); ("metadata", JObj [("a", JNum 1)])]) = None.
Proof.
  refine (message_data_fields "R1" "alice" "hello" (JStr "text")
            [("reply_to_id", JNull); ("metadata", JObj [("a", JNum 1)])]
            "reply_to_id" _).
  vm_compute. repeat constructor; set_solver.
Defined.

Lemma denied_false (group membership : json) :
  denied group membership = Some false <->
  exists flag,
    item "only_admins_can_message" group = Some flag /\
    (truthy flag = true -> item "role" membership = Some (JStr "admin")).
Proof.
  unfold denied. split.
  - destruct (item "only_admins_can_message" group) as [flag|]; [|done].
    destruct (truthy flag) eqn:Hf; [|intros _; exists flag; split; [done|congruence]].
    destruct (item "role" membership) as [role|]; [|done].
    intros [= H]. exists flag. split; [done|]. intros _.
    destruct role as [| | |r| |]; try done. simpl in H.
    destruct (String.eqb_spec r "admin") as [Hr|Hr]; [by rewrite Hr|done].
  - intros (flag & -> & H). destruct (truthy flag); [|done]. by rewrite H.
Qed.

(** When the call sends a statement. *)
Lemma Database_send_message_sent (tb : tables) (group_id user_id content : string)
    (message_type : json) (kwargs : list (string * json)) :
  (Database_send_message tb group_id user_id content message_type kwargs).1 <> [] ->
  exists membership group,
    role_row tb group_id user_id = Data membership /\ truthy membership = true /\
    policy_row tb group_id = Data group /\ denied group membership = Some false.
Proof.
  unfold Database_send_message.
  destruct (role_row tb group_id user_id) as [membership|]; [|done].
  destruct (truthy membership) eqn:Hm; [|done].
  destruct (policy_row tb group_id) as [group|]; [|done].
  destruct (denied group membership) as [[|]|] eqn:Hd; [done| |done].
  intros _. by exists membership, group.
Qed.

(** When the call returns a message. *)
Lemma Database_send_message_returned (tb : tables) (group_id user_id content : string)
    (message_type : json) (kwargs : list (string * json)) (sent : list db_stmt)
    (v : json) :
  Database_send_message tb group_id user_id content message_type kwargs
    = (sent, Returned v) ->
  truthy v = true ->
  sent = [InsertMessage (message_data group_id user_id content message_type kwargs);
          TouchGroup group_id] /\
  touch_group tb group_id = true /\
  exists first rest,
    insert_message tb (message_data group_id user_id content message_type kwargs)
      = Data (JArr (JObj first :: rest)) /\
    v = JObj (dict_set "sender"
                (default JNull
                   (map_get (JStr user_id) (fetch_user_profiles (profiles tb) [user_id])))
                first).
Proof.
  unfold Database_send_message.
  destruct (role_row tb group_id user_id) as [membership|]; [|done].
  destruct (truthy membership); [|by intros [= <- <-]].
  destruct (policy_row tb group_id) as [group|]; [|done].
  destruct (denied group membership) as [[|]|]; [by intros [= <- <-]| |done].
  destruct (insert_message tb _) as [result|]; [|done].
  destruct (touch_group tb group_id); [|done].
  destruct (truthy result); [|by intros [= <- <-]].
  destruct result as [| | | |[|[| | | | |first] rest]|]; try done.
  intros [= <- <-] _. split; [done|]. split; [done|]. by exists first, rest.
Qed.

(** X17.  Who may write.  [Database.send_message] sends a statement to
    the store exactly when the user has a row in [group_members] for the
    group, the group has a row with the field [only_admins_can_message],
    and, when that field is set, the role of the user is the text
    "admin" (any other role, the owner's included, is turned away).  It
    then sends the insert of the row first, and after it at most the
    update of the group. *)
Theorem send_message_gate (tb : tables) (group_id user_id content : string)
    (message_type : json) (kwargs : list (string * json)) :
  ((Database_send_message tb group_id user_id content message_type kwargs).1 <> [] <->
   exists membership group flag,
     role_row tb group_id user_id = Data membership /\ truthy membership = true /\
     policy_row tb group_id = Data group /\
     item "only_admins_can_message" group = Some flag /\
     (truthy flag = true -> item "role" membership = Some (JStr "admin"))) /\
  (Database_send_message tb group_id user_id content message_type kwargs).1 ∈
    [[];
     [InsertMessage (message_data group_id user_id content message_type kwargs)];
     [InsertMessage (message_data group_id user_id content message_type kwargs);
      TouchGroup group_id]].
Proof.
  split; [split|].
  - intros H. apply Database_send_message_sent in H as (membership & group & H1 & H2 & H3 & H4).
    apply denied_false in H4 as (flag & H4 & H5). by exists membership, group, flag.
  - intros (membership & group & flag & H1 & H2 & H3 & H4 & H5).
    assert (Hd : denied group membership = Some false).
    { apply denied_false. by exists flag. }
    unfold Database_send_message. rewrite H1, H2, H3, Hd.
    destruct (insert_message tb _) as [result|]; [|done].
    destruct (touch_group tb group_id); [|done].
    destruct (truthy result); [|done].
    by destruct result as [| | | |[|[| | | | |first] rest]|].
  - unfold Database_send_message.
    destruct (role_row tb group_id user_id) as [membership|]; [|set_solver].
    destruct (truthy membership); [|set_solver].
    destruct (policy_row tb group_id) as [group|]; [|set_solver].
    destruct (denied group membership) as [[|]|]; [set_solver| |set_solver].
    destruct (insert_message tb _) as [result|]; [|set_solver].
    destruct (touch_group tb group_id); [|set_solver].
    destruct (truthy result); [|set_solver].
    destruct result as [| | | |[|[| | | | |first] rest]|]; set_solver.
Qed.

(** X18.  What [Database.send_message] returns.  A message is returned
    only after the insert and the update of the group went through; it
    is the first row of the answer to the insert, with its fields as the
    store gave them, but for [sender], which is the entry of the user in
    [fetch_user_profiles], [None] when there is none. *)
Theorem send_message_result (tb : tables) (group_id user_id content : string)
    (message_type : json) (kwargs : list (string * json)) (sent : list db_stmt)
    (v : json) :
  Database_send_message tb group_id user_id content message_type kwargs
    = (sent, Returned v) ->
  truthy v = true ->
  sent = [InsertMessage (message_data group_id user_id content message_type kwargs);
          TouchGroup group_id] /\
  touch_group tb group_id = true /\
  exists first rest,
    insert_message tb (message_data group_id user_id content message_type kwargs)
      = Data (JArr (JObj first :: rest)) /\
    item "sender" v =
      Some (default JNull
              (map_get (JStr user_id) (fetch_user_profiles (profiles tb) [user_id]))) /\
    (forall k, k <> "sender" -> item k v = dict_lookup k first).
Proof.
  intros H Hv.
  apply Database_send_message_returned in H as (Hs & Ht & first & rest & Hi & ->); [|done].
  split; [done|]. split; [done|]. exists first, rest. split; [done|].
  cbn [item]. split.
  - by rewrite dict_lookup_set.
  - intros k Hk. rewrite dict_lookup_set. by destruct (String.eqb_spec k "sender").
Qed.

Lemma send_message_result_witness :
  exists first rest,
    insert_message admin_only_tables
      (message_data "R1" "alice" "hello" (JStr "text") [("reply_to_id", JNull)])
      = Data (JArr (JObj first :: rest)) /\
    item "sender"
      (JObj [("id", JStr "m1"); ("group_id", JStr "R1"); ("sender_id", JStr "alice");
             ("content", JStr "hello"); ("message_type", JStr "text");
             ("sender", fallback_profile "alice")]) =
      Some (default JNull
              (map_get (JStr "alice")
                 (fetch_user_profiles (profiles admin_only_tables) ["alice"]))) /\
    (forall k, k <> "sender" ->
       item k
         (JObj [("id", JStr "m1"); ("group_id", JStr "R1"); ("sender_id", JStr "alice");
                ("content", JStr "hello"); ("message_type", JStr "text");
                ("sender", fallback_profile "alice")]) = dict_lookup k first).
Proof.
  refine (proj2 (proj2 (send_message_result admin_only_tables "R1" "alice" "hello"
                          (JStr "text") [("reply_to_id", JNull)] _ _ _ _)));
    vm_compute; reflexivity.
Defined.

(** ** The endpoint over the tables *)

(** X19.  The room hears of a message only when it is stored.  When the
    turn for a [message] frame has sent anything at all, the sender has
    a row in [group_members] for the group, the group lets the sender
    write (its field [only_admins_can_message] is not set, or the role
    is "admin"), the insert of the row with the stripped, non-empty
    content answered with a row, and the update of the group went
    through. *)
Theorem heard_only_if_stored (fuel : nat) (tb : tables) (ws : nat) (g u name : string)
    (message : list (string * json)) (s s' : state) :
  is_str (dict_get "type" JNull message) "message" = true ->
  outcome_state
    (group_chat_websocket_turn fuel (database_of tb) ws g u name
       (Some (JObj message)) s) = Some s' ->
  wire s' <> wire s ->
  exists content message_type reply_to_id membership group flag first rest,
    DbSendMessage g u content message_type reply_to_id = store_call g u message /\
    content <> EmptyString /\
    role_row tb g u = Data membership /\ truthy membership = true /\
    policy_row tb g = Data group /\
    item "only_admins_can_message" group = Some flag /\
    (truthy flag = true -> item "role" membership = Some (JStr "admin")) /\
    insert_message tb
      (message_data g u content message_type [("reply_to_id", reply_to_id)])
      = Data (JArr (JObj first :: rest)) /\
    touch_group tb g = true.
Proof.
  intros Ht H Hw. unfold group_chat_websocket_turn in H. rewrite Ht in H.
  unfold on_message in H. unfold store_call.
  destruct (dict_get "data" (JObj message) message) as [| | | | |msg_data];
    try (by injection H as <-).
  destruct (truthy (dict_get "content" JNull msg_data)) eqn:Hc.
  - destruct (dict_get "content" JNull msg_data) as [| | |text| |];
      try (by injection H as <-).
    destruct (String.eqb_spec (strip text) EmptyString) as [|Hne];
      [by injection H as <-|]. cbn [negb] in H.
    cbn [send_message database_of] in H.
    destruct (Database_send_message tb g u (strip text)
                (dict_get "message_type" (JStr "text") msg_data)
                [("reply_to_id", dict_get "reply_to_id" JNull msg_data)])
      as [sent [new_msg|]] eqn:Hsend; cbn [snd] in H; [|by injection H as <-].
    destruct (truthy new_msg) eqn:Hv; [|by injection H as <-].
    assert (Hsent : (Database_send_message tb g u (strip text)
                       (dict_get "message_type" (JStr "text") msg_data)
                       [("reply_to_id", dict_get "reply_to_id" JNull msg_data)]).1 <> []).
    { rewrite Hsend. cbn [fst].
      by apply Database_send_message_returned in Hsend as (-> & _). }
    apply Database_send_message_sent in Hsent as (membership & group & H1 & H2 & H3 & H4).
    apply denied_false in H4 as (flag & H4 & H5).
    apply Database_send_message_returned in Hsend as (_ & Htouch & first & rest & Hins & _);
      [|done].
    by exists (strip text), (dict_get "message_type" (JStr "text") msg_data),
      (dict_get "reply_to_id" JNull msg_data), membership, group, flag, first, rest.
  - cbn [strip rstrip lstrip rev_onto String.eqb negb] in H. by injection H as <-.
Qed.

Lemma heard_only_if_stored_witness :
  exists content message_type reply_to_id membership group flag first rest,
    DbSendMessage "R1" "alice" content message_type reply_to_id
      = store_call "R1" "alice" [("type", JStr "message"); ("content", JStr " hello ")] /\
    content <> EmptyString /\
    role_row admin_only_tables "R1" "alice" = Data membership /\
    truthy membership = true /\
    policy_row admin_only_tables "R1" = Data group /\
    item "only_admins_can_message" group = Some flag /\
    (truthy flag = true -> item "role" membership = Some (JStr "admin")) /\
    insert_message admin_only_tables
      (message_data "R1" "alice" content message_type [("reply_to_id", reply_to_id)])
      = Data (JArr (JObj first :: rest)) /\
    touch_group admin_only_tables "R1" = true.
Proof.
  apply (heard_only_if_stored 4 admin_only_tables 1 "R1" "alice" "Alice"
           [("type", JStr "message"); ("content", JStr " hello ")]
           three_in_room
           (final (group_chat_websocket_turn 4 (database_of admin_only_tables) 1
                     "R1" "alice" "Alice"
                     (Some (JObj [("type", JStr "message"); ("content", JStr " hello ")]))
                     three_in_room)));
    [reflexivity|vm_compute; reflexivity|vm_compute; discriminate].
Defined.

(** X20.  A message can be stored and never announced.  When the sender
    may write and the insert went through but the update of the group
    raises, [Database.send_message] raises after it has sent the insert;
    the turn of the endpoint for that frame returns without a send, the
    typing flags as they were. *)
Theorem stored_not_announced (fuel : nat) (tb : tables) (ws : nat) (g u name : string)
    (message msg_data : list (string * json)) (text : string)
    (membership group result : json) (s : state) :
  message_frame message text -> strip text <> EmptyString ->
  dict_get "data" (JObj message) message = JObj msg_data ->
  role_row tb g u = Data membership -> truthy membership = true ->
  policy_row tb g = Data group -> denied group membership = Some false ->
  insert_message tb
    (message_data g u (strip text) (dict_get "message_type" (JStr "text") msg_data)
       [("reply_to_id", dict_get "reply_to_id" JNull msg_data)]) = Data result ->
  touch_group tb g = false ->
  Database_send_message tb g u (strip text)
    (dict_get "message_type" (JStr "text") msg_data)
    [("reply_to_id", dict_get "reply_to_id" JNull msg_data)]
  = ([InsertMessage
        (message_data g u (strip text) (dict_get "message_type" (JStr "text") msg_data)
           [("reply_to_id", dict_get "reply_to_id" JNull msg_data)]);
      TouchGroup g], Raised) /\
  exists s',
    group_chat_websocket_turn fuel (database_of tb) ws g u name (Some (JObj message)) s
      = Done s' /\
    wire s' = wire s /\ typing_users s' = typing_users s /\
    connection_info s' = connection_info s.
Proof.
  intros Hf Hne Hd H1 H2 H3 H4 H5 H6.
  assert (Hsend : Database_send_message tb g u (strip text)
            (dict_get "message_type" (JStr "text") msg_data)
            [("reply_to_id", dict_get "reply_to_id" JNull msg_data)]
          = ([InsertMessage
                (message_data g u (strip text)
                   (dict_get "message_type" (JStr "text") msg_data)
                   [("reply_to_id", dict_get "reply_to_id" JNull msg_data)]);
              TouchGroup g], Raised)).
  { unfold Database_send_message. by rewrite H1, H2, H3, H4, H5, H6. }
  split; [done|].
  exists (set_db_log (db_log s ++ [store_call g u message]) s). split; [|by simpl].
  apply (rejected_message_not_broadcast fuel (database_of tb) ws g u name message text s Hf Hne).
  left. destruct (message_frame_call g u message text Hf Hne) as (msg_data' & Hd' & ->).
  assert (msg_data' = msg_data) as -> by congruence.
  cbn [store_reply send_message database_of]. by rewrite Hsend.
Qed.

Lemma stored_not_announced_witness :
  exists s',
    group_chat_websocket_turn 4 (database_of no_touch_tables) 1 "R1" "alice" "Alice"
      (Some (JObj [("type", JStr "message"); ("content", JStr "hello")])) three_in_room
      = Done s' /\
    wire s' = wire three_in_room /\ typing_users s' = typing_users three_in_room /\
    connection_info s' = connection_info three_in_room.
Proof.
  refine (proj2 (stored_not_announced 4 no_touch_tables 1 "R1" "alice" "Alice"
                   [("type", JStr "message"); ("content", JStr "hello")]
                   [("type", JStr "message"); ("content", JStr "hello")]
                   "hello" (JObj [("role", JStr "admin")])
                   (JObj [("only_admins_can_message", JBool true)])
                   (JArr [JObj (("id", JStr "m1") ::
                                message_data "R1" "alice" "hello" (JStr "text")
                                  [("reply_to_id", JNull)])])
                   three_in_room _ _ _ _ _ _ _ _ _)).
  - split; [reflexivity|]. eexists. split; reflexivity.
  - vm_compute. discriminate.
  - reflexivity.
  - reflexivity.
  - reflexivity.
  - reflexivity.
  - reflexivity.
  - reflexivity.
  - reflexivity.
Defined.
